(** * IMP Concerts calendar scraper: a shallow embedding of [scraper.py]

    The development follows the source file top to bottom:

    - [PyStr]    the [str] methods and builtins the scraper calls;
    - [Re]       a backtracking matcher for the [re] patterns of the source;
    - [PyDate]   [datetime], [timedelta] addition, [isoformat], and the
                 America/New_York offset rule;
    - [Md5]      [hashlib.md5(...).hexdigest()];
    - [Soup]     the BeautifulSoup tree and the selectors the scraper uses;
    - [Scraper]  [parse_date], [parse_event], [fetch_concerts],
                 [generate_uid], [create_calendar];
    - the properties of the specification, proved about those definitions.

    Text.  A Python [str] is modelled by [string], read as the UTF-8 bytes of
    the text.  The character classes of the source ([\d], [\w], [\s],
    [str.strip], [str.title], case folding) are modelled on the ASCII range;
    bytes above 127 belong to no class.  The bullet U+2022 of the opener
    separator is its three-byte UTF-8 sequence.

    Effects.  [datetime.now()] reads a clock; exceptions are values.  Both are
    threaded by the monad [M] of the module [Scraper].  What the program
    prints is not modelled, and neither are the HTTP request and the writing
    of the file in [main]: [fetch_concerts] starts from the parsed
    response. *)

From Stdlib Require Import ZArith List String Ascii Bool Lia Arith.
Import ListNotations.
Local Open Scope string_scope.
Set Warnings "-register-all".

(* ===================================================================== *)
(** ** Python strings *)
(* ===================================================================== *)

Module PyStr.

Definition code (c : ascii) : nat := nat_of_ascii c.

Definition in_range (lo hi : nat) (c : ascii) : bool :=
  (lo <=? code c)%nat && (code c <=? hi)%nat.

(** [str.isspace] on the ASCII range: TAB..CR, FS..US and the space. *)
Definition is_space (c : ascii) : bool :=
  in_range 9 13 c || in_range 28 32 c.

(** [\d] and the digits of [int] on the ASCII range. *)
Definition is_digit (c : ascii) : bool := in_range 48 57 c.
Definition is_upper (c : ascii) : bool := in_range 65 90 c.
Definition is_lower (c : ascii) : bool := in_range 97 122 c.
Definition is_alpha (c : ascii) : bool := is_upper c || is_lower c.

(** [\w] on the ASCII range: letters, digits and the underscore. *)
Definition is_word (c : ascii) : bool :=
  is_alpha c || is_digit c || (code c =? 95)%nat.

Definition to_lower (c : ascii) : ascii :=
  if is_upper c then ascii_of_nat (code c + 32) else c.

Definition to_upper (c : ascii) : ascii :=
  if is_lower c then ascii_of_nat (code c - 32) else c.

Fixpoint lower (s : string) : string :=
  match s with
  | EmptyString => EmptyString
  | String c s' => String (to_lower c) (lower s')
  end.

(** [str.lstrip()], [str.rstrip()] and [str.strip()] without arguments. *)
Fixpoint lstrip (s : string) : string :=
  match s with
  | EmptyString => EmptyString
  | String c s' => if is_space c then lstrip s' else s
  end.

Fixpoint rstrip (s : string) : string :=
  match s with
  | EmptyString => EmptyString
  | String c s' =>
      match rstrip s' with
      | EmptyString => if is_space c then EmptyString else String c EmptyString
      | r => String c r
      end
  end.

Definition strip (s : string) : string := rstrip (lstrip s).

(** [s[:n]] for a non-negative [n]. *)
Fixpoint take (n : nat) (s : string) : string :=
  match n, s with
  | S n', String c s' => String c (take n' s')
  | _, _ => EmptyString
  end.

Fixpoint drop (n : nat) (s : string) : string :=
  match n, s with
  | S n', String _ s' => drop n' s'
  | _, _ => s
  end.

(** [s.startswith(p)]. *)
Fixpoint startswith (p s : string) : bool :=
  match p, s with
  | EmptyString, _ => true
  | String a p', String b s' => Ascii.eqb a b && startswith p' s'
  | String _ _, EmptyString => false
  end.

(** [p in s] for strings. *)
Fixpoint contains (p s : string) : bool :=
  startswith p s ||
  match s with
  | EmptyString => false
  | String _ s' => contains p s'
  end.

(** [sep.join(parts)]. *)
Fixpoint join (sep : string) (parts : list string) : string :=
  match parts with
  | [] => EmptyString
  | [p] => p
  | p :: rest => p ++ sep ++ join sep rest
  end.

(** [str.title()]: a cased character is upper-cased when the character
    before it is not cased, and lower-cased otherwise.  The cased characters
    are those of the ASCII range. *)
Fixpoint title_from (prev_cased : bool) (s : string) : string :=
  match s with
  | EmptyString => EmptyString
  | String c s' =>
      if is_alpha c
      then String (if prev_cased then to_lower c else to_upper c)
                  (title_from true s')
      else String c (title_from false s')
  end.

Definition title (s : string) : string := title_from false s.

(** [int(s)] on a string of decimal digits. *)
Definition digit_value (c : ascii) : Z := Z.of_nat (code c - 48).

Fixpoint int_from (acc : Z) (s : string) : Z :=
  match s with
  | EmptyString => acc
  | String c s' => int_from (10 * acc + digit_value c) s'
  end.

Definition int (s : string) : Z := int_from 0 s.

Fixpoint all_digits (s : string) : bool :=
  match s with
  | EmptyString => true
  | String c s' => is_digit c && all_digits s'
  end.

(** Truthiness of a string ([if s:]). *)
Definition truthy (s : string) : bool :=
  match s with EmptyString => false | _ => true end.

(** Decimal rendering with zero padding, as [%02d] and [%04d] do for a
    non-negative number. *)
Definition digit_char (d : Z) : ascii := ascii_of_nat (48 + Z.to_nat d).

Fixpoint decimal_fuel (fuel : nat) (n : Z) (acc : string) : string :=
  match fuel with
  | O => acc
  | S f =>
      let acc' := String (digit_char (n mod 10)) acc in
      if n / 10 =? 0 then acc' else decimal_fuel f (n / 10) acc'
  end%Z.

Definition decimal (n : Z) : string :=
  decimal_fuel (S (Z.to_nat (Z.log2 n))) n EmptyString.

Fixpoint zeros (n : nat) : string :=
  match n with O => EmptyString | S n' => String "0" (zeros n') end.

Definition zfill (width : nat) (n : Z) : string :=
  let d := decimal n in
  zeros (width - String.length d) ++ d.

(** [re.split] on a pattern that is a set of separators, each given by its
    bytes; the pieces between separators are returned, empty ones too. *)
Fixpoint match_sep (seps : list string) (s : string) : option string :=
  match seps with
  | [] => None
  | sep :: rest =>
      if truthy sep && startswith sep s
      then Some (drop (String.length sep) s)
      else match_sep rest s
  end.

Fixpoint split_fuel (fuel : nat) (seps : list string) (cur s : string)
  : list string :=
  match fuel with
  | O => [cur ++ s]
  | S f =>
      match match_sep seps s with
      | Some s' => cur :: split_fuel f seps EmptyString s'
      | None =>
          match s with
          | EmptyString => [cur]
          | String c s' =>
              split_fuel f seps (cur ++ String c EmptyString) s'
          end
      end
  end.

Definition split_on (seps : list string) (s : string) : list string :=
  split_fuel (S (String.length s)) seps EmptyString s.

End PyStr.

(* ===================================================================== *)
(** ** Regular expressions *)
(* ===================================================================== *)

(** The patterns of the source use character classes, bounded and unbounded
    greedy repetition of one class, concatenation, alternation and capture
    groups.  [Re] is a backtracking matcher for exactly that fragment, with
    the leftmost, greedy-first answer of Python's [re]. *)

Module Re.

Inductive regex : Type :=
| Chr (p : ascii -> bool)
| Rep (p : ascii -> bool) (lo : nat) (hi : option nat)
| Cat (r1 r2 : regex)
| Alt (r1 r2 : regex)
| Grp (n : nat) (r : regex).

(** A match object: the text of each group that took part. *)
Definition groups := list (nat * string).

Fixpoint group (g : groups) (n : nat) : string :=
  match g with
  | [] => EmptyString
  | (m, s) :: g' => if (m =? n)%nat then s else group g' n
  end.

Definition more (hi : option nat) : bool :=
  match hi with Some O => false | _ => true end.

Definition less (hi : option nat) : option nat :=
  match hi with Some n => Some (pred n) | None => None end.

Section Matcher.
Context {R : Type}.

(** Greedy repetition: take one more character when allowed, and give it
    back when the rest of the pattern fails. *)
Fixpoint rep (p : ascii -> bool) (lo : nat) (hi : option nat)
         (s : string) (k : string -> option R) : option R :=
  let stop := if (lo =? 0)%nat then k s else None in
  match s with
  | String c s' =>
      if p c && more hi
      then match rep p (pred lo) (less hi) s' k with
           | Some r => Some r
           | None => stop
           end
      else stop
  | EmptyString => stop
  end.

(** The text consumed between [s] and a suffix [s'] of it. *)
Definition consumed (s s' : string) : string :=
  PyStr.take (String.length s - String.length s') s.

Fixpoint run (r : regex) (s : string) (g : groups)
         (k : string -> groups -> option R) : option R :=
  match r with
  | Chr p =>
      match s with
      | String c s' => if p c then k s' g else None
      | EmptyString => None
      end
  | Rep p lo hi => rep p lo hi s (fun s' => k s' g)
  | Cat r1 r2 => run r1 s g (fun s1 g1 => run r2 s1 g1 k)
  | Alt r1 r2 =>
      match run r1 s g k with
      | Some x => Some x
      | None => run r2 s g k
      end
  | Grp n r1 => run r1 s g (fun s1 g1 => k s1 ((n, consumed s s1) :: g1))
  end.
End Matcher.

(** [re.match(r, s)]: a match anchored at the start of [s]. *)
Definition re_match (r : regex) (s : string) : option groups :=
  run r s [] (fun _ g => Some g).

(** [re.search(r, s)]: the match at the leftmost position that has one. *)
Fixpoint re_search (r : regex) (s : string) : option groups :=
  match re_match r s with
  | Some g => Some g
  | None =>
      match s with
      | EmptyString => None
      | String _ s' => re_search r s'
      end
  end.

(** Pattern syntax. *)
Definition lit_i (c : ascii) : regex :=
  Chr (fun x => Ascii.eqb (PyStr.to_lower x) (PyStr.to_lower c)).
Definition lit (c : ascii) : regex := Chr (Ascii.eqb c).
Definition d_ (lo hi : nat) : regex := Rep PyStr.is_digit lo (Some hi).
Definition w_plus : regex := Rep PyStr.is_word 1 None.
Definition s_plus : regex := Rep PyStr.is_space 1 None.
Definition s_star : regex := Rep PyStr.is_space 0 None.
Definition opt (c : ascii) : regex := Rep (Ascii.eqb c) 0 (Some 1).

(** [(am|pm)] under [re.IGNORECASE]. *)
Definition am_pm : regex :=
  Alt (Cat (lit_i "a") (lit_i "m")) (Cat (lit_i "p") (lit_i "m")).

End Re.

(* ===================================================================== *)
(** ** Exceptions *)
(* ===================================================================== *)

(** The exceptions the modelled operations raise, and the outcome of a
    computation that may raise. *)
Inductive exn : Type := ValueError | OverflowError.

Inductive outcome (A : Type) : Type :=
| Ret (a : A)
| Raise (e : exn).
Arguments Ret {A} a.
Arguments Raise {A} e.

(* ===================================================================== *)
(** ** Dates and times *)
(* ===================================================================== *)

Module PyDate.
Local Open Scope Z_scope.

Definition MINYEAR : Z := 1.
Definition MAXYEAR : Z := 9999.
Definition MAXORDINAL : Z := 3652059.

Definition is_leap (year : Z) : bool :=
  (year mod 4 =? 0) && (negb (year mod 100 =? 0) || (year mod 400 =? 0)).

(** [_DAYS_IN_MONTH] and [_DAYS_BEFORE_MONTH] of the [datetime] module. *)
Definition DAYS_IN_MONTH (month : Z) : Z :=
  match month with
  | 1 => 31 | 2 => 28 | 3 => 31 | 4 => 30 | 5 => 31 | 6 => 30
  | 7 => 31 | 8 => 31 | 9 => 30 | 10 => 31 | 11 => 30 | 12 => 31
  | _ => -1
  end.

Definition DAYS_BEFORE_MONTH (month : Z) : Z :=
  match month with
  | 1 => 0 | 2 => 31 | 3 => 59 | 4 => 90 | 5 => 120 | 6 => 151
  | 7 => 181 | 8 => 212 | 9 => 243 | 10 => 273 | 11 => 304 | 12 => 334
  | _ => -1
  end.

Definition b2z (b : bool) : Z := if b then 1 else 0.

Definition days_in_month (year month : Z) : Z :=
  if (month =? 2) && is_leap year then 29 else DAYS_IN_MONTH month.

Definition days_before_year (year : Z) : Z :=
  let y := year - 1 in
  y * 365 + y / 4 - y / 100 + y / 400.

Definition days_before_month (year month : Z) : Z :=
  DAYS_BEFORE_MONTH month + b2z ((2 <? month) && is_leap year).

Definition ymd2ord (year month day : Z) : Z :=
  days_before_year year + days_before_month year month + day.

Definition DI400Y : Z := 146097.
Definition DI100Y : Z := 36524.
Definition DI4Y : Z := 1461.

(** The month and day of the [n]-th day of a year, counted from 0: the
    estimate [(n + 50) >> 5] of the month is exact or one too large. *)
Definition month_day (n : Z) (leapyear : bool) : Z * Z :=
  let month := Z.shiftr (n + 50) 5 in
  let preceding := DAYS_BEFORE_MONTH month + b2z ((2 <? month) && leapyear) in
  if n <? preceding
  then
    let month' := month - 1 in
    let preceding' :=
      preceding - (DAYS_IN_MONTH month' + b2z ((month' =? 2) && leapyear)) in
    (month', n - preceding' + 1)
  else (month, n - preceding + 1).

(** [_ord2ymd]: the proleptic Gregorian date of an ordinal, 1 being
    0001-01-01. *)
Definition ord2ymd (ordinal : Z) : Z * Z * Z :=
  let n := ordinal - 1 in
  let n400 := n / DI400Y in
  let n := n mod DI400Y in
  let n100 := n / DI100Y in
  let n := n mod DI100Y in
  let n4 := n / DI4Y in
  let n := n mod DI4Y in
  let n1 := n / 365 in
  let n := n mod 365 in
  let year := n400 * 400 + 1 + n100 * 100 + n4 * 4 + n1 in
  if (n1 =? 4) || (n100 =? 4) then (year - 1, 12, 31)
  else
    let leapyear := (n1 =? 3) && (negb (n4 =? 24) || (n100 =? 3)) in
    let '(month, day) := month_day n leapyear in
    (year, month, day).

(** The one time zone of the program. *)
Inductive tzinfo : Type := America_New_York.

Record datetime : Type := mk_datetime {
  year : Z;
  month : Z;
  day : Z;
  hour : Z;
  minute : Z;
  second : Z;
  microsecond : Z;
  tz : option tzinfo
}.

Definition check_date_fields (y m d : Z) : bool :=
  (MINYEAR <=? y) && (y <=? MAXYEAR) &&
  (1 <=? m) && (m <=? 12) &&
  (1 <=? d) && (d <=? days_in_month y m).

Definition check_time_fields (h mi s us : Z) : bool :=
  (0 <=? h) && (h <=? 23) && (0 <=? mi) && (mi <=? 59) &&
  (0 <=? s) && (s <=? 59) && (0 <=? us) && (us <=? 999999).

(** The constructor [datetime(year, month, day, hour, minute, second,
    microsecond, tzinfo)]: [ValueError] on a field out of range. *)
Definition new (y m d h mi s us : Z) (z : option tzinfo) : outcome datetime :=
  if check_date_fields y m d && check_time_fields h mi s us
  then Ret (mk_datetime y m d h mi s us z)
  else Raise ValueError.

Definition valid (dt : datetime) : bool :=
  check_date_fields (year dt) (month dt) (day dt) &&
  check_time_fields (hour dt) (minute dt) (second dt) (microsecond dt).

Definition toordinal (dt : datetime) : Z :=
  ymd2ord (year dt) (month dt) (day dt).

(** [a < b] on naive datetimes: the fields compared in order. *)
Fixpoint lex_lt (a b : list Z) : bool :=
  match a, b with
  | x :: a', y :: b' => (x <? y) || ((x =? y) && lex_lt a' b')
  | _, _ => false
  end.

Definition fields (dt : datetime) : list Z :=
  [year dt; month dt; day dt; hour dt; minute dt; second dt; microsecond dt].

Definition lt (a b : datetime) : bool := lex_lt (fields a) (fields b).

(** [timedelta], normalised as the constructor does. *)
Record timedelta : Type := mk_timedelta {
  td_days : Z;
  td_seconds : Z;
  td_microseconds : Z
}.

Definition timedelta_new (days seconds microseconds : Z) : timedelta :=
  let s := seconds + microseconds / 1000000 in
  mk_timedelta (days + s / 86400) (s mod 86400) (microseconds mod 1000000).

Definition timedelta_hours (hours : Z) : timedelta :=
  timedelta_new 0 (hours * 3600) 0.

Definition timedelta_add (a b : timedelta) : timedelta :=
  timedelta_new (td_days a + td_days b) (td_seconds a + td_seconds b)
                (td_microseconds a + td_microseconds b).

(** [datetime.__add__]: wall-clock arithmetic; the time zone is carried over
    unchanged, and a result past year 9999 (or before year 1) raises
    [OverflowError]. *)
Definition add (dt : datetime) (other : timedelta) : outcome datetime :=
  let delta :=
    timedelta_add
      (timedelta_new (toordinal dt)
         (hour dt * 3600 + minute dt * 60 + second dt) (microsecond dt))
      other in
  let h := td_seconds delta / 3600 in
  let rem := td_seconds delta mod 3600 in
  if (0 <? td_days delta) && (td_days delta <=? MAXORDINAL)
  then
    let '(y, m, d) := ord2ymd (td_days delta) in
    Ret (mk_datetime y m d h (rem / 60) (rem mod 60)
           (td_microseconds delta) (tz dt))
  else Raise OverflowError.

(** [weekday()]: Monday is 0. *)
Definition weekday (y m d : Z) : Z := (ymd2ord y m d + 6) mod 7.

(** The [w]-th Sunday of a month, as the zone rule [Mm.w.0] resolves it. *)
Definition nth_sunday (y m w : Z) : Z :=
  (0 - (weekday y m 1 + 1)) mod 7 + 1 + (w - 1) * 7.

Definition minute_of_year (m d h mi : Z) : Z :=
  ((m * 32 + d) * 24 + h) * 60 + mi.

(** Daylight time in America/New_York, by the rule in force since 2007
    ([EST5EDT,M3.2.0,M11.1.0]): from the second Sunday of March to the first
    Sunday of November.  With [fold = 0], which is what every datetime of
    the program has, wall times in the spring gap (02:00 to 03:00) keep the
    standard offset and wall times repeated in autumn (01:00 to 02:00) keep
    the daylight offset.  The zone database has other transition dates for
    years before 2007; they are not part of this model. *)
Definition is_dst (dt : datetime) : bool :=
  let t := minute_of_year (month dt) (day dt) (hour dt) (minute dt) in
  (minute_of_year 3 (nth_sunday (year dt) 3 2) 3 0 <=? t) &&
  (t <? minute_of_year 11 (nth_sunday (year dt) 11 1) 2 0).

(** [tzinfo.utcoffset(dt)], in minutes. *)
Definition utcoffset (z : tzinfo) (dt : datetime) : Z :=
  match z with
  | America_New_York => if is_dst dt then -240 else -300
  end.

(** [datetime.isoformat()]. *)
Definition format_offset (off : Z) : string :=
  let sign := if off <? 0 then "-" else "+" in
  let a := Z.abs off in
  (sign ++ PyStr.zfill 2 (a / 60) ++ ":" ++ PyStr.zfill 2 (a mod 60))%string.

Definition isoformat (dt : datetime) : string :=
  (PyStr.zfill 4 (year dt) ++ "-" ++ PyStr.zfill 2 (month dt) ++ "-" ++
   PyStr.zfill 2 (day dt) ++ "T" ++ PyStr.zfill 2 (hour dt) ++ ":" ++
   PyStr.zfill 2 (minute dt) ++ ":" ++ PyStr.zfill 2 (second dt) ++
   (if (microsecond dt =? 0)%Z then ""
    else "." ++ PyStr.zfill 6 (microsecond dt)) ++
   match tz dt with
   | Some z => format_offset (utcoffset z dt)
   | None => ""
   end)%string.

(** [strptime(s, "%b").month] in the C locale: the whole of [s] must be a
    month abbreviation, in any case; [ValueError] otherwise. *)
Definition month_abbr : list (string * Z) :=
  [("jan", 1); ("feb", 2); ("mar", 3); ("apr", 4); ("may", 5); ("jun", 6);
   ("jul", 7); ("aug", 8); ("sep", 9); ("oct", 10); ("nov", 11); ("dec", 12)]%string.

Fixpoint lookup_month (tbl : list (string * Z)) (s : string) : option Z :=
  match tbl with
  | [] => None
  | (a, m) :: rest => if String.eqb a s then Some m else lookup_month rest s
  end.

Definition strptime_b_month (s : string) : outcome Z :=
  match lookup_month month_abbr (PyStr.lower s) with
  | Some m => Ret m
  | None => Raise ValueError
  end.

End PyDate.

(* ===================================================================== *)
(** ** MD5 *)
(* ===================================================================== *)

(** [hashlib.md5(data).hexdigest()] (RFC 1321) on 32-bit words kept in [Z]
    with the wrap-around written out. *)

Module Md5.
Local Open Scope Z_scope.

Definition w32 (x : Z) : Z := x mod 2 ^ 32.

Definition rotl (x c : Z) : Z :=
  w32 (Z.lor (Z.shiftl x c) (Z.shiftr x (32 - c))).

Definition lnot32 (x : Z) : Z := Z.lxor x 4294967295.

Definition K : list Z :=
  [3614090360; 3905402710; 606105819; 3250441966; 4118548399; 1200080426;
   2821735955; 4249261313; 1770035416; 2336552879; 4294925233; 2304563134;
   1804603682; 4254626195; 2792965006; 1236535329; 4129170786; 3225465664;
   643717713; 3921069994; 3593408605; 38016083; 3634488961; 3889429448;
   568446438; 3275163606; 4107603335; 1163531501; 2850285829; 4243563512;
   1735328473; 2368359562; 4294588738; 2272392833; 1839030562; 4259657740;
   2763975236; 1272893353; 4139469664; 3200236656; 681279174; 3936430074;
   3572445317; 76029189; 3654602809; 3873151461; 530742520; 3299628645;
   4096336452; 1126891415; 2878612391; 4237533241; 1700485571; 2399980690;
   4293915773; 2240044497; 1873313359; 4264355552; 2734768916; 1309151649;
   4149444226; 3174756917; 718787259; 3951481745].

Definition shifts : list Z :=
  [7; 12; 17; 22; 7; 12; 17; 22; 7; 12; 17; 22; 7; 12; 17; 22;
   5; 9; 14; 20; 5; 9; 14; 20; 5; 9; 14; 20; 5; 9; 14; 20;
   4; 11; 16; 23; 4; 11; 16; 23; 4; 11; 16; 23; 4; 11; 16; 23;
   6; 10; 15; 21; 6; 10; 15; 21; 6; 10; 15; 21; 6; 10; 15; 21].

Definition state : Type := (Z * Z * Z * Z)%type.

Definition init : state := (1732584193, 4023233417, 2562383102, 271733878).

(** One of the 64 operations of a block. *)
Definition step (M : list Z) (st : state) (i : nat) : state :=
  let '(A, B, C, D) := st in
  let iz := Z.of_nat i in
  let '(F, g) :=
    if iz <? 16 then (Z.lor (Z.land B C) (Z.land (lnot32 B) D), iz)
    else if iz <? 32
    then (Z.lor (Z.land D B) (Z.land (lnot32 D) C), (5 * iz + 1) mod 16)
    else if iz <? 48 then (Z.lxor B (Z.lxor C D), (3 * iz + 5) mod 16)
    else (Z.lxor C (Z.lor B (lnot32 D)), (7 * iz) mod 16) in
  let F' := w32 (F + A + nth i K 0 + nth (Z.to_nat g) M 0) in
  (D, w32 (B + rotl F' (nth i shifts 0)), B, C).

Definition block (st : state) (M : list Z) : state :=
  let '(a0, b0, c0, d0) := st in
  let '(A, B, C, D) := fold_left (step M) (seq 0 64) st in
  (w32 (a0 + A), w32 (b0 + B), w32 (c0 + C), w32 (d0 + D)).

(** Little-endian words of a byte sequence. *)
Fixpoint le_words (fuel : nat) (bytes : list Z) : list Z :=
  match fuel, bytes with
  | S f, b0 :: b1 :: b2 :: b3 :: rest =>
      (b0 + 256 * b1 + 65536 * b2 + 16777216 * b3) :: le_words f rest
  | _, _ => []
  end.

Fixpoint chunks (fuel : nat) (words : list Z) : list (list Z) :=
  match fuel, words with
  | S f, _ :: _ => firstn 16 words :: chunks f (skipn 16 words)
  | _, _ => []
  end.

Definition le_bytes (n : nat) (x : Z) : list Z :=
  map (fun i => (x / 256 ^ Z.of_nat i) mod 256) (seq 0 n).

(** Padding: a one bit, zeros up to 56 modulo 64, the bit length on 8 bytes. *)
Definition pad (bytes : list Z) : list Z :=
  let len := Z.of_nat (List.length bytes) in
  let zeros := Z.to_nat ((55 - len) mod 64) in
  (bytes ++ [128] ++ repeat 0 zeros ++ le_bytes 8 ((8 * len) mod 2 ^ 64))%list.

Definition bytes_of (s : string) : list Z :=
  map (fun c => Z.of_nat (nat_of_ascii c)) (list_ascii_of_string s).

Definition digest (s : string) : state :=
  let padded := pad (bytes_of s) in
  let words := le_words (List.length padded) padded in
  fold_left block (chunks (List.length words) words) init.

Definition hex_digit (n : Z) : ascii :=
  if n <? 10 then ascii_of_nat (48 + Z.to_nat n)
  else ascii_of_nat (87 + Z.to_nat n).

Definition hex_byte (b : Z) (rest : string) : string :=
  String (hex_digit (b / 16)) (String (hex_digit (b mod 16)) rest).

Definition hex_word (w : Z) (rest : string) : string :=
  hex_byte (w mod 256)
    (hex_byte ((w / 256) mod 256)
       (hex_byte ((w / 65536) mod 256)
          (hex_byte ((w / 16777216) mod 256) rest))).

Definition hexdigest (s : string) : string :=
  let '(a, b, c, d) := digest s in
  hex_word a (hex_word b (hex_word c (hex_word d EmptyString))).

End Md5.

(* ===================================================================== *)
(** ** The markup tree *)
(* ===================================================================== *)

(** The tree BeautifulSoup builds with [html.parser].  An element has its
    tag name, the tokens of its [class] attribute (which the parser stores
    as a list; empty when the attribute is absent), its other attributes
    and its children in document order. *)

Module Soup.

Inductive node : Type :=
| NavigableString (s : string)
| Tag (name : string) (classes : list string)
      (attrs : list (string * string)) (contents : list node).

Fixpoint assoc (k : string) (l : list (string * string)) : option string :=
  match l with
  | [] => None
  | (k', v) :: l' => if String.eqb k' k then Some v else assoc k l'
  end.

Fixpoint mem (x : string) (l : list string) : bool :=
  match l with
  | [] => false
  | y :: l' => String.eqb y x || mem x l'
  end.

(** [Tag.descendants]: every node below, in document order. *)
Fixpoint descendants (n : node) : list node :=
  match n with
  | NavigableString _ => []
  | Tag _ _ _ cs =>
      (fix below (l : list node) : list node :=
         match l with
         | [] => []
         | c :: l' => c :: (descendants c ++ below l')%list
         end) cs
  end.

(** The selectors of the source: [h3], [a[href]], [.event__doors],
    [[class*='badge venue-']]. *)
Inductive selector : Type :=
| ByTag (name : string)
| ByTagAttr (name attr : string)
| ByClass (cls : string)
| ByClassContains (sub : string).

Definition matches (sel : selector) (n : node) : bool :=
  match n with
  | NavigableString _ => false
  | Tag name classes attrs _ =>
      match sel with
      | ByTag t => String.eqb name t
      | ByTagAttr t a =>
          String.eqb name t &&
          match assoc a attrs with Some _ => true | None => false end
      | ByClass c => mem c classes
      | ByClassContains sub =>
          match classes with
          | [] => false
          | _ => PyStr.contains sub (PyStr.join " " classes)
          end
      end
  end.

(** [tag.select(sel)] and [tag.select_one(sel)]. *)
Definition select (sel : selector) (n : node) : list node :=
  filter (matches sel) (descendants n).

Definition select_one (sel : selector) (n : node) : option node :=
  hd_error (select sel n).

(** [tag.get_text(strip=True)]: the strings below the tag, each stripped,
    the empty ones dropped, concatenated. *)
Definition own_string (n : node) : list string :=
  match n with
  | NavigableString s => [s]
  | Tag _ _ _ _ => []
  end.

Definition all_strings (n : node) : list string :=
  match n with
  | NavigableString s => [s]
  | Tag _ _ _ _ => flat_map own_string (descendants n)
  end.

Definition get_text_strip (n : node) : string :=
  PyStr.join ""
    (filter PyStr.truthy (map PyStr.strip (all_strings n))).

Definition get_classes (n : node) : list string :=
  match n with
  | Tag _ classes _ _ => classes
  | NavigableString _ => []
  end.

Definition get_attr (a : string) (n : node) : option string :=
  match n with
  | Tag _ _ attrs _ => assoc a attrs
  | NavigableString _ => None
  end.

End Soup.

(* ===================================================================== *)
(** ** The scraper *)
(* ===================================================================== *)

Module Scraper.
Import PyDate.
Local Open Scope Z_scope.

(** *** Effects *)

(** The world a run sees: what the [n]-th reading of the clock returns, for
    [datetime.now()] (naive local time) and for [datetime.now(DC_TZ)], and
    how many readings were made so far. *)
Record world : Type := mk_world {
  local_clock : nat -> datetime;
  zone_clock : nat -> datetime;
  reads : nat
}.

Definition tick (w : world) : world :=
  mk_world (local_clock w) (zone_clock w) (S (reads w)).

(** A computation reads the clock and returns a value or raises. *)
Definition M (A : Type) : Type := world -> outcome A * world.

Definition ret {A} (a : A) : M A := fun w => (Ret a, w).

Definition raise {A} (e : exn) : M A := fun w => (Raise e, w).

Definition bind {A B} (c : M A) (f : A -> M B) : M B :=
  fun w =>
    match c w with
    | (Ret a, w') => f a w'
    | (Raise e, w') => (Raise e, w')
    end.

Notation "x <- c ;; k" := (bind c (fun x => k))
  (at level 61, c at next level, right associativity).

(** [try: c  except E: h] for the exceptions [E] selected by [caught]. *)
Definition try_except {A} (c : M A) (caught : exn -> bool) (h : M A) : M A :=
  fun w =>
    match c w with
    | (Ret a, w') => (Ret a, w')
    | (Raise e, w') => if caught e then h w' else (Raise e, w')
    end.

Definition lift {A} (o : outcome A) : M A := fun w => (o, w).

Definition with_tz (z : option tzinfo) (dt : datetime) : datetime :=
  mk_datetime (year dt) (month dt) (day dt) (hour dt) (minute dt)
              (second dt) (microsecond dt) z.

(** [datetime.now()] and [datetime.now(tz)]. *)
Definition datetime_now : M datetime :=
  fun w => (Ret (with_tz None (local_clock w (reads w))), tick w).

Definition datetime_now_in (z : tzinfo) : M datetime :=
  fun w => (Ret (with_tz (Some z) (zone_clock w (reads w))), tick w).

Definition is_ValueError (e : exn) : bool :=
  match e with ValueError => true | _ => false end.

Definition any_Exception (e : exn) : bool := true.

(** *** Constants *)

Definition VENUE_MAP : list (string * (string * string)) :=
  [("venue-930-club", ("9:30 Club", "815 V St NW, Washington, DC 20001"));
   ("venue-lincoln-theatre",
    ("Lincoln Theatre", "1215 U St NW, Washington, DC 20009"));
   ("venue-the-anthem", ("The Anthem", "901 Wharf St SW, Washington, DC 20024"));
   ("venue-merriweather-post-pavilion",
    ("Merriweather Post Pavilion",
     "10475 Little Patuxent Pkwy, Columbia, MD 21044"));
   ("venue-theatlantis",
    ("The Atlantis", "1814 Half St SW, Washington, DC 20024"))]%string.

Fixpoint venue_lookup (tbl : list (string * (string * string))) (k : string)
  : option (string * string) :=
  match tbl with
  | [] => None
  | (k', v) :: rest => if String.eqb k' k then Some v else venue_lookup rest k
  end.

Definition DC_TZ : tzinfo := America_New_York.

(** *** The patterns *)

Import Re.

(** [(\d{1,2}):(\d{2})\s*(am|pm)], of [parse_date]. *)
Definition door_time_re : regex :=
  Cat (Grp 1 (d_ 1 2))
    (Cat (lit ":") (Cat (Grp 2 (d_ 2 2)) (Cat s_star (Grp 3 am_pm)))).

(** [(\d{1,2}:\d{2})\s*(am|pm)], of [parse_event]. *)
Definition doors_text_re : regex :=
  Cat (Grp 1 (Cat (d_ 1 2) (Cat (lit ":") (d_ 2 2))))
    (Cat s_star (Grp 2 am_pm)).

(** [(\w+),?\s+(\w+)\s+(\d{1,2})]. *)
Definition date_re : regex :=
  Cat (Grp 1 w_plus)
    (Cat (opt ",")
       (Cat s_plus (Cat (Grp 2 w_plus) (Cat s_plus (Grp 3 (d_ 1 2)))))).

(** [(\d{4})]. *)
Definition year_re : regex := Grp 1 (d_ 4 4).

(** *** parse_date *)

(** Lines 135-144: the hour and minute of a door time, 20:00 by default. *)
Definition door_hour_minute (door_time : option string) : Z * Z :=
  match door_time with
  | Some t =>
      if PyStr.truthy t
      then
        match re_match door_time_re t with
        | Some time_match =>
            let hour := PyStr.int (group time_match 1) in
            let minute := PyStr.int (group time_match 2) in
            let half := PyStr.lower (group time_match 3) in
            if String.eqb half "pm" && negb (hour =? 12) then (hour + 12, minute)
            else if String.eqb half "am" && (hour =? 12) then (0, minute)
            else (hour, minute)
        | None => (20, 0)
        end
      else (20, 0)
  | None => (20, 0)
  end.

(** Lines 158-165: the current year, or the next one when the day at
    midnight is already past. *)
Definition infer_year (month_name : string) (day : Z) : M Z :=
  now1 <- datetime_now ;;
  let year := PyDate.year now1 in
  try_except
    (month <- lift (strptime_b_month (PyStr.take 3 month_name)) ;;
     test_date <- lift (PyDate.new year month day 0 0 0 0 None) ;;
     now2 <- datetime_now ;;
     ret (if PyDate.lt test_date now2 then year + 1 else year))
    is_ValueError
    (ret year).

(** Lines 153-165: the year written in the label, or the inferred one. *)
Definition resolve_year (date_str month_name : string) (day : Z) : M Z :=
  match re_search year_re date_str with
  | Some year_match => ret (PyStr.int (group year_match 1))
  | None => infer_year month_name day
  end.

Definition parse_date (date_str : string) (door_time : option string)
  : M (option datetime) :=
  let date_str := PyStr.strip date_str in
  let '(hour, minute) := door_hour_minute door_time in
  match re_search date_re date_str with
  | Some m =>
      let month_name := group m 2 in
      let day := PyStr.int (group m 3) in
      year <- resolve_year date_str month_name day ;;
      try_except
        (month <- lift (strptime_b_month (PyStr.take 3 month_name)) ;;
         dt <- lift (PyDate.new year month day hour minute 0 0 (Some DC_TZ)) ;;
         ret (Some dt))
        is_ValueError
        (ret None)
  | None => ret None
  end.

(** *** parse_event *)

(** The concert dictionary; [None] fields are [None] in the source. *)
Record concert : Type := mk_concert {
  headliner : string;
  date : datetime;
  venue : option string;
  venue_address : option string;
  openers : list string;
  url : option string
}.

Definition bullet : string := "•".

(** Lines 80-85. *)
Definition parse_openers (event_element : Soup.node) : list string :=
  match Soup.select_one (Soup.ByTag "h4") event_element with
  | Some opener_elem =>
      let opener_text := Soup.get_text_strip opener_elem in
      map PyStr.strip
        (filter (fun o => PyStr.truthy (PyStr.strip o))
           (PyStr.split_on [bullet; ","; "&"]%string opener_text))
  | None => []
  end.

(** Lines 88-94. *)
Definition parse_door_time (event_element : Soup.node) : option string :=
  match Soup.select_one (Soup.ByClass "event__doors") event_element with
  | Some doors_elem =>
      let doors_text := Soup.get_text_strip doors_elem in
      match re_search doors_text_re doors_text with
      | Some time_match =>
          Some (group time_match 1 ++ " " ++ group time_match 2)%string
      | None => None
      end
  | None => None
  end.

(** Lines 97-109: the first class with the prefix decides. *)
Fixpoint venue_of_classes (classes : list string) (venue_elem : Soup.node)
  : option string * option string :=
  match classes with
  | [] => (None, None)
  | cls :: rest =>
      if PyStr.startswith "venue-" cls
      then
        match venue_lookup VENUE_MAP cls with
        | Some (name, address) => (Some name, Some address)
        | None => (Some (PyStr.title (Soup.get_text_strip venue_elem)), None)
        end
      else venue_of_classes rest venue_elem
  end.

Definition parse_venue (event_element : Soup.node)
  : option string * option string :=
  match Soup.select_one (Soup.ByClassContains "badge venue-") event_element with
  | Some venue_elem => venue_of_classes (Soup.get_classes venue_elem) venue_elem
  | None => (None, None)
  end.

(** Lines 74-77. *)
Definition parse_url (event_element : Soup.node) : option string :=
  match Soup.select_one (Soup.ByTagAttr "a" "href") event_element with
  | Some link => Soup.get_attr "href" link
  | None => None
  end.

Definition parse_event (event_element : Soup.node) (date_str : string)
  : M (option concert) :=
  try_except
    (match Soup.select_one (Soup.ByTag "h3") event_element with
     | None => ret None
     | Some headliner_elem =>
         let headliner := Soup.get_text_strip headliner_elem in
         let url := parse_url event_element in
         let openers := parse_openers event_element in
         let door_time := parse_door_time event_element in
         let '(venue_name, venue_address) := parse_venue event_element in
         event_date <- parse_date date_str door_time ;;
         match event_date with
         | None => ret None
         | Some event_date =>
             ret (Some (mk_concert headliner event_date venue_name
                          venue_address openers url))
         end
     end)
    any_Exception
    (ret None).

(** *** fetch_concerts *)

(** Lines 56-59: the events of one date group. *)
Fixpoint group_concerts (event_contents : list Soup.node) (date_str : string)
  : M (list concert) :=
  match event_contents with
  | [] => ret []
  | event_content :: rest =>
      concert <- parse_event event_content date_str ;;
      more <- group_concerts rest date_str ;;
      ret (match concert with
           | Some c => c :: more
           | None => more
           end)
  end.

(** Lines 46-59. *)
Fixpoint groups_concerts (event_groups : list Soup.node) : M (list concert) :=
  match event_groups with
  | [] => ret []
  | grp :: rest =>
      match Soup.select_one (Soup.ByClass "date-banner__date") grp with
      | None => groups_concerts rest
      | Some date_elem =>
          let date_str := Soup.get_text_strip date_elem in
          here <-
            group_concerts (Soup.select (Soup.ByClass "event__content") grp)
              date_str ;;
          more <- groups_concerts rest ;;
          ret (here ++ more)%list
      end
  end.

(** Lines 40-61, from the parsed response on. *)
Definition fetch_concerts (soup : Soup.node) : M (list concert) :=
  groups_concerts (Soup.select (Soup.ByClass "events-group__wrapper") soup).

(** *** generate_uid *)

(** What an f-string makes of a value that is [None] or a string. *)
Definition format_opt (v : option string) : string :=
  match v with
  | Some s => s
  | None => "None"
  end.

(** Line 178.  The dictionary of [parse_event] always has the key
    ["venue"], so [concert.get('venue', '')] is the value stored there. *)
Definition unique_str (c : concert) : string :=
  (headliner c ++ "-" ++ isoformat (date c) ++ "-" ++ format_opt (venue c))%string.

Definition generate_uid (c : concert) : string :=
  (Md5.hexdigest (unique_str c) ++ "@impconcerts")%string.

(** *** create_calendar *)

Inductive value : Type :=
| VText (s : string)
| VDate (dt : datetime).

(** A component of the calendar library: its properties in the order they
    were added, and its sub-components. *)
Definition properties : Type := list (string * value).

Record Calendar : Type := mk_calendar {
  cal_properties : properties;
  subcomponents : list properties
}.

Definition opt_truthy (v : option string) : bool :=
  match v with
  | Some s => PyStr.truthy s
  | None => false
  end.

Definition opt_text (v : option string) : string :=
  match v with Some s => s | None => "" end.

Definition list_truthy {A} (l : list A) : bool :=
  match l with [] => false | _ => true end.

(** Lines 196-198. *)
Definition event_title (c : concert) : string :=
  if list_truthy (openers c)
  then (headliner c ++ " (with " ++ PyStr.join ", " (openers c) ++ ")")%string
  else headliner c.

(** Lines 206-211. *)
Definition location_props (c : concert) : properties :=
  if opt_truthy (venue_address c)
  then [("location", VText (opt_text (venue_address c)))]%string
  else if opt_truthy (venue c)
  then [("location", VText (opt_text (venue c)))]%string
  else [].

(** Lines 214-223. *)
Definition description_parts (c : concert) : list string :=
  ((if list_truthy (openers c)
    then [("With: " ++ PyStr.join ", " (openers c))%string] else []) ++
   (if opt_truthy (venue c)
    then [("Venue: " ++ opt_text (venue c))%string] else []) ++
   (if opt_truthy (url c)
    then [("Tickets: " ++ opt_text (url c))%string] else []))%list.

Definition newline : string := String (ascii_of_nat 10) EmptyString.

Definition description_props (c : concert) : properties :=
  if list_truthy (description_parts c)
  then [("description", VText (PyStr.join newline (description_parts c)))]%string
  else [].

Definition url_props (c : concert) : properties :=
  if opt_truthy (url c) then [("url", VText (opt_text (url c)))]%string else [].

(** Lines 193-228: one event, its properties in the order of the calls
    to [event.add]. *)
Definition event_props (c : concert) (dtend dtstamp : datetime) : properties :=
  ([("summary", VText (event_title c));
    ("dtstart", VDate (date c));
    ("dtend", VDate dtend);
    ("dtstamp", VDate dtstamp)]%string
   ++ location_props c ++ description_props c ++ url_props c
   ++ [("uid", VText (generate_uid c))]%string)%list.

(** The values are the arguments of the calls to [event.add]; the calendar
    library stores the DTSTAMP it is given converted to universal time. *)
Definition create_event (c : concert) : M properties :=
  dtend <- lift (PyDate.add (date c) (timedelta_hours 3)) ;;
  dtstamp <- datetime_now_in DC_TZ ;;
  ret (event_props c dtend dtstamp).

Fixpoint create_events (concerts : list concert) : M (list properties) :=
  match concerts with
  | [] => ret []
  | c :: rest =>
      event <- create_event c ;;
      events <- create_events rest ;;
      ret (event :: events)
  end.

(** Lines 185-190. *)
Definition calendar_header : properties :=
  [("prodid", VText "-//IMP Concerts Calendar//impconcerts.com//");
   ("version", VText "2.0");
   ("calscale", VText "GREGORIAN");
   ("method", VText "PUBLISH");
   ("x-wr-calname", VText "IMP Concerts");
   ("x-wr-timezone", VText "America/New_York")]%string.

Definition create_calendar (concerts : list concert) : M Calendar :=
  events <- create_events concerts ;;
  ret (mk_calendar calendar_header events).

(** The value of a property of a component. *)
Fixpoint prop (name : string) (ps : properties) : option value :=
  match ps with
  | [] => None
  | (k, v) :: rest => if String.eqb k name then Some v else prop name rest
  end.

(** *** main *)

(** Lines 253-258: the metadata of the calendar written when nothing was
    found. *)
Definition empty_calendar_header : properties :=
  [("prodid", VText "-//IMP Concerts Calendar//impconcerts.com//");
   ("version", VText "2.0");
   ("calscale", VText "GREGORIAN");
   ("method", VText "PUBLISH");
   ("x-wr-calname", VText "IMP Concerts")]%string.

(** Lines 239-261, from the parsed response on: the path and the calendar
    whose serialisation [cal.to_ical()] is written there.  The handler of
    [requests.RequestException] re-raises, and no other exception is
    handled, so what [create_calendar] raises leaves [main]. *)
Definition main (soup : Soup.node) : M (string * Calendar) :=
  concerts <- fetch_concerts soup ;;
  if list_truthy concerts
  then
    cal <- create_calendar concerts ;;
    ret ("imp_concerts.ics"%string, cal)
  else
    ret ("imp_concerts.ics"%string, mk_calendar empty_calendar_header []).

End Scraper.

(* ===================================================================== *)
(** ** Sample inputs *)
(* ===================================================================== *)

Module Samples.
Import Soup Scraper PyDate.

Definition heading (text : string) : node :=
  Tag "h3" [] [] [NavigableString text].

Definition doors (text : string) : node :=
  Tag "div" ["event__doors"] [] [NavigableString text].

Definition event_content (children : list node) : node :=
  Tag "div" ["event__content"] [] children.

(** The block of the end-to-end scenario. *)
Definition band_a_block : node :=
  event_content
    [heading "Band A";
     Tag "h4" [] [] [NavigableString "Support One • Support Two"];
     doors "7:00 pm";
     Tag "span" ["badge"; "venue-930-club"] [] []].

Definition band_a_label : string := "Thu, Jul 10 2025".

Definition band_a_date : datetime :=
  mk_datetime 2025 7 10 19 0 0 0 (Some DC_TZ).

Definition band_a_concert : concert :=
  mk_concert "Band A" band_a_date (Some "9:30 Club")
    (Some "815 V St NW, Washington, DC 20001")
    ["Support One"; "Support Two"] None.

(** A heading element with white space only in it. *)
Definition empty_heading_block : node :=
  event_content [heading " "; doors "7:00 pm"].

(** An event with no venue badge. *)
Definition no_badge_block : node :=
  event_content [heading "Band A"; doors "7:00 pm"].

Definition no_badge_concert : concert :=
  mk_concert "Band A" band_a_date None None [] None.

(** A block with no heading at all. *)
Definition no_heading_block : node :=
  event_content [Tag "p" [] [] [NavigableString "Sold out"]].

(** A door time that matches the pattern and is no time of day. *)
Definition bad_doors_block : node :=
  event_content [heading "Band A"; doors "13:00 pm"].

(** The last evening of year 9999. *)
Definition last_evening_block : node :=
  event_content [heading "Band A"; doors "9:00 pm"].

Definition last_evening_label : string := "Fri, Dec 31 9999".

Definition last_evening_concert : concert :=
  mk_concert "Band A" (mk_datetime 9999 12 31 21 0 0 0 (Some DC_TZ))
    None None [] None.

(** An event whose badge is not in the table. *)
Definition unknown_venue_block : node :=
  event_content
    [heading "Band A"; doors "7:00 pm";
     Tag "span" ["badge"; "venue-black-cat"] [] [NavigableString " black cat "]].

Definition unknown_venue_concert : concert :=
  mk_concert "Band A" band_a_date (Some "Black Cat") None [] None.

(** A page with one date group that has no date banner, one with the
    scenario's event, and one for the last evening of year 9999. *)
Definition date_banner (text : string) : node :=
  Tag "div" ["date-banner__date"] [] [NavigableString text].

Definition events_group (children : list node) : node :=
  Tag "div" ["events-group__wrapper"] [] children.

Definition orphan_group : node := events_group [no_badge_block].

Definition band_a_group : node :=
  events_group [date_banner band_a_label; band_a_block].

Definition last_evening_group : node :=
  events_group [date_banner last_evening_label; last_evening_block].

Definition band_a_page : node :=
  Tag "body" [] [] [orphan_group; band_a_group].

Definition empty_page : node := Tag "body" [] [] [orphan_group].

Definition last_evening_page : node :=
  Tag "body" [] [] [band_a_group; last_evening_group].

(** A late show on the night the clocks go back, and one on the night
    they go forward. *)
Definition autumn_night_block : node :=
  event_content [heading "Band A"; doors "11:30 pm"].

Definition autumn_night_label : string := "Sat, Nov 1 2025".

Definition autumn_night_concert : concert :=
  mk_concert "Band A" (mk_datetime 2025 11 1 23 30 0 0 (Some DC_TZ))
    None None [] None.

Definition spring_night_block : node :=
  event_content [heading "Band A"; doors "12:30 am"].

Definition spring_night_label : string := "Sun, Mar 9 2025".

Definition spring_night_concert : concert :=
  mk_concert "Band A" (mk_datetime 2025 3 9 0 30 0 0 (Some DC_TZ))
    None None [] None.

(** A clock that stands at noon on 2025-06-01. *)
Definition june_2025 : world :=
  mk_world (fun _ => mk_datetime 2025 6 1 12 0 0 0 None)
           (fun _ => mk_datetime 2025 6 1 12 0 0 0 None) 0.

End Samples.

(* ===================================================================== *)
(** ** Vocabulary of the properties *)
(* ===================================================================== *)

Import Scraper PyDate.
Local Open Scope Z_scope.

(** A label has a 4-digit year when four decimal digits stand side by side
    somewhere in it. *)
Definition has_year (label : string) : Prop :=
  exists pre y post,
    label = (pre ++ y ++ post)%string /\
    String.length y = 4%nat /\ PyStr.all_digits y = true.

(** [y] is the leftmost 4-digit year of the label, after [pre]. *)
Definition leftmost_year (label pre y post : string) : Prop :=
  label = (pre ++ y ++ post)%string /\
  String.length y = 4%nat /\ PyStr.all_digits y = true /\
  forall pre' y' post',
    label = (pre' ++ y' ++ post')%string ->
    String.length y' = 4%nat -> PyStr.all_digits y' = true ->
    (String.length pre <= String.length pre')%nat.

(** The first [n] characters of [s] exist and are in the class [p]. *)
Fixpoint all_at (p : ascii -> bool) (n : nat) (s : string) : bool :=
  match n, s with
  | O, _ => true
  | S n', String c s' => p c && all_at p n' s'
  | S _, EmptyString => false
  end.

(** The leftmost run of four digits, computed directly. *)
Fixpoint first_year (s : string) : option string :=
  if all_at PyStr.is_digit 4 s then Some (PyStr.take 4 s)
  else
    match s with
    | EmptyString => None
    | String _ s' => first_year s'
    end.

Definition record_list (r : option concert) : list concert :=
  match r with Some c => [c] | None => [] end.

(** What [month_day] must deliver for a day number: a month, a day of that
    month, and the day number back. *)
Definition month_day_ok (n : Z) (leap : bool) : bool :=
  let '(m, d) := month_day n leap in
  (1 <=? m) && (m <=? 12) && (1 <=? d) &&
  (d <=? DAYS_IN_MONTH m + b2z ((m =? 2) && leap)) &&
  (DAYS_BEFORE_MONTH m + b2z ((2 <? m) && leap) + d =? n + 1).

(** Microseconds on the wall clock since the start of day 0, and the
    microseconds of a [timedelta]. *)
Definition wall_us (dt : datetime) : Z :=
  (toordinal dt * 86400 + hour dt * 3600 + minute dt * 60 + second dt)
  * 1000000 + microsecond dt.

Definition timedelta_us (td : timedelta) : Z :=
  (td_days td * 86400 + td_seconds td) * 1000000 + td_microseconds td.

(** The first start for which start + 3 hours is past year 9999. *)
Definition last_start : datetime := mk_datetime 9999 12 31 21 0 0 0 None.

Definition three_hours_us : Z := 3 * 3600 * 1000000.

(** What an entry built from a record is. *)
Definition entry_of (c : concert) (e : properties) : Prop :=
  exists dtend dtstamp,
    PyDate.add (date c) (timedelta_hours 3) = Ret dtend /\
    e = event_props c dtend dtstamp.

(** The day of a timestamp at 00:00, as [datetime(year, month, day)]. *)
Definition midnight (dt : datetime) : datetime :=
  mk_datetime (year dt) (month dt) (day dt) 0 0 0 0 None.

(** A record that the page yields: the record of an event block of a date
    group, parsed with the date label of that group. *)
Definition from_page (soup : Soup.node) (c : concert) : Prop :=
  exists grp date_elem block wa wb,
    In grp (Soup.select (Soup.ByClass "events-group__wrapper") soup) /\
    Soup.select_one (Soup.ByClass "date-banner__date") grp = Some date_elem /\
    In block (Soup.select (Soup.ByClass "event__content") grp) /\
    parse_event block (Soup.get_text_strip date_elem) wa = (Ret (Some c), wb).

(** A lower-case hexadecimal digit. *)
Definition is_hex_lower (c : ascii) : bool :=
  PyStr.is_digit c || PyStr.in_range 97 102 c.

(** The number of white-space characters of a text. *)
Fixpoint count_space (s : string) : nat :=
  match s with
  | EmptyString => O
  | String c s' => ((if PyStr.is_space c then 1 else 0) + count_space s')%nat
  end.

(** The texts of a door time: one or two digits for the hour, two for the
    minute, and the half of the day in either case of letters. *)
Definition door_digits (a b : string) : Prop :=
  (1 <= String.length a <= 2)%nat /\ PyStr.all_digits a = true /\
  String.length b = 2%nat /\ PyStr.all_digits b = true.

Definition half_day (ap : string) : Prop :=
  String.length ap = 2%nat /\
  (PyStr.lower ap = "am"%string \/ PyStr.lower ap = "pm"%string).

Definition all_space (s : string) : bool :=
  all_at PyStr.is_space (String.length s) s.

(** [str.isascii()]: every character of the text is in the ASCII range.
    On such a text the character classes of [PyStr] ([\d], [\w], [\s],
    [strip], [title], [lower]) are those of Python; the properties that
    classify the characters of a text are stated for such texts. *)
Fixpoint isascii (s : string) : bool :=
  match s with
  | EmptyString => true
  | String c s' => (PyStr.code c <? 128)%nat && isascii s'
  end.

Definition door_isascii (door : option string) : bool :=
  match door with Some t => isascii t | None => true end.

(** The text of the doors element of a block, empty when it has none. *)
Definition doors_text (block : Soup.node) : string :=
  match Soup.select_one (Soup.ByClass "event__doors") block with
  | Some doors_elem => Soup.get_text_strip doors_elem
  | None => EmptyString
  end.

(** The class of a badge that names the venue: the first one that starts
    with "venue-". *)
Definition venue_class (classes : list string) : option string :=
  find (PyStr.startswith "venue-") classes.

(** The instant of a timestamp in minutes of universal time: its wall-clock
    minutes less its offset. *)
Definition utc_minutes (dt : datetime) : Z :=
  toordinal dt * 1440 + hour dt * 60 + minute dt -
  match tz dt with Some z => utcoffset z dt | None => 0 end.

Ltac run_monad :=
  unfold bind, ret, raise, lift, try_except, datetime_now, datetime_now_in in *;
  cbn beta iota in *.

(* ===================================================================== *)
(** ** Checks of the library models *)
(* ===================================================================== *)

(** Values of the Python library on which the models are checked. *)

(** MD5: two vectors of RFC 1321 and two messages at the padding
    boundaries (56 and 64 bytes). *)
Example md5_empty :
  Md5.hexdigest "" = "d41d8cd98f00b204e9800998ecf8427e"%string.
Proof. vm_compute. reflexivity. Qed.

Example md5_abc :
  Md5.hexdigest "abc" = "900150983cd24fb0d6963f7d28e17f72"%string.
Proof. vm_compute. reflexivity. Qed.

Example md5_56_bytes :
  Md5.hexdigest "aaaaaaaaaaaaaaaaaaaaaaaaaaaaaaaaaaaaaaaaaaaaaaaaaaaaaaaa" =
  "3b0c8ac703f828b04c6c197006d17218"%string.
Proof. vm_compute. reflexivity. Qed.

Example md5_64_bytes :
  Md5.hexdigest
    "aaaaaaaaaaaaaaaaaaaaaaaaaaaaaaaaaaaaaaaaaaaaaaaaaaaaaaaaaaaaaaaa" =
  "014842d480b571495a4a0363793f7367"%string.
Proof. vm_compute. reflexivity. Qed.

(** Ordinals: 0001-01-01 is day 1, 9999-12-31 is [MAXORDINAL]. *)
Example ordinals :
  ymd2ord 1 1 1 = 1 /\ ymd2ord 9999 12 31 = MAXORDINAL /\
  ymd2ord 2024 2 29 = 738945 /\ ord2ymd 738945 = (2024, 2, 29).
Proof. repeat split; vm_compute; reflexivity. Qed.

(** The offsets around the two transitions of 2025. *)
Example offsets_2025 :
  map (fun '(mo, d, h, mi) =>
         isoformat (mk_datetime 2025 mo d h mi 0 0 (Some DC_TZ)))
    [(3, 9, 1, 59); (3, 9, 2, 30); (3, 9, 3, 0); (11, 2, 1, 30); (11, 2, 2, 0)] =
  ["2025-03-09T01:59:00-05:00"; "2025-03-09T02:30:00-05:00";
   "2025-03-09T03:00:00-04:00"; "2025-11-02T01:30:00-04:00";
   "2025-11-02T02:00:00-05:00"]%string.
Proof. vm_compute. reflexivity. Qed.

(** The patterns on typical texts. *)
Example date_pattern_groups :
  Re.re_search date_re "Thursday, July 4" =
    Some [(3%nat, "4"); (2%nat, "July"); (1%nat, "Thursday")]%string /\
  Re.re_search date_re "Jan 15" = None /\
  Re.re_search doors_text_re "Doors: 7:00 PM" =
    Some [(2%nat, "PM"); (1%nat, "7:00")]%string.
Proof. repeat split; vm_compute; reflexivity. Qed.

Example string_methods :
  PyStr.strip (String (ascii_of_nat 9) "  9:30 club ") = "9:30 club"%string /\
  PyStr.title "the ANTHEM" = "The Anthem"%string /\
  PyStr.title "9:30 club" = "9:30 Club"%string /\
  PyStr.split_on [bullet; ","; "&"]%string "Support One • Support Two" =
    ["Support One "; " Support Two"]%string.
Proof. repeat split; vm_compute; reflexivity. Qed.

(* ===================================================================== *)
(** ** Properties of parse_date *)
(* ===================================================================== *)

(** [datetime(...)] answers with the fields it was given, or [ValueError]. *)
Lemma new_inv y m d h mi s us z dt :
  PyDate.new y m d h mi s us z = Ret dt ->
  dt = mk_datetime y m d h mi s us z /\ valid dt = true.
Proof.
  unfold PyDate.new, valid.
  destruct (check_date_fields y m d && check_time_fields h mi s us) eqn:E;
    intros H; inversion H; subst; simpl; auto.
Qed.

Lemma new_raises y m d h mi s us z e :
  PyDate.new y m d h mi s us z = Raise e -> e = ValueError.
Proof.
  unfold PyDate.new.
  destruct (check_date_fields y m d && check_time_fields h mi s us);
    intros H; inversion H; reflexivity.
Qed.

Lemma strptime_raises s e :
  strptime_b_month s = Raise e -> e = ValueError.
Proof.
  unfold strptime_b_month.
  destruct (lookup_month month_abbr (PyStr.lower s));
    intros H; inversion H; reflexivity.
Qed.

(** Year inference never raises, and it reads the clock once or twice. *)
Lemma infer_year_returns month_name d w :
  exists y w', infer_year month_name d w = (Ret y, w').
Proof.
  unfold infer_year. run_monad.
  destruct (strptime_b_month (PyStr.take 3 month_name)) as [mo|e] eqn:Em.
  - destruct (PyDate.new _ mo d 0 0 0 0 None) as [dt|e] eqn:En.
    + eauto.
    + apply new_raises in En. subst e. simpl. eauto.
  - apply strptime_raises in Em. subst e. simpl. eauto.
Qed.

Lemma resolve_year_returns date_str month_name d w :
  exists y w', resolve_year date_str month_name d w = (Ret y, w').
Proof.
  unfold resolve_year.
  destruct (Re.re_search year_re date_str).
  - unfold ret. eauto.
  - apply infer_year_returns.
Qed.

(** [parse_date] never raises. *)
Lemma parse_date_returns label door w :
  exists r w', parse_date label door w = (Ret r, w').
Proof.
  unfold parse_date.
  destruct (door_hour_minute door) as [h mi].
  destruct (Re.re_search date_re (PyStr.strip label)) as [m|].
  - destruct (resolve_year_returns (PyStr.strip label) (Re.group m 2)
                (PyStr.int (Re.group m 3)) w) as (y & w1 & Hy).
    run_monad. rewrite Hy.
    destruct (strptime_b_month _) as [mo|e] eqn:Em.
    + destruct (PyDate.new y mo _ h mi 0 0 (Some DC_TZ)) as [dt|e] eqn:En.
      * eauto.
      * apply new_raises in En. subst e. simpl. eauto.
    + apply strptime_raises in Em. subst e. simpl. eauto.
  - unfold ret. eauto.
Qed.

(** What a resolved date is made of: the groups of the label pattern, the
    month of the abbreviation table, the resolved year and the door time. *)
Lemma parse_date_resolved label door w dt w' :
  parse_date label door w = (Ret (Some dt), w') ->
  exists m mo y,
    Re.re_search date_re (PyStr.strip label) = Some m /\
    strptime_b_month (PyStr.take 3 (Re.group m 2)) = Ret mo /\
    resolve_year (PyStr.strip label) (Re.group m 2)
      (PyStr.int (Re.group m 3)) w = (Ret y, w') /\
    dt = mk_datetime y mo (PyStr.int (Re.group m 3))
           (fst (door_hour_minute door)) (snd (door_hour_minute door))
           0 0 (Some DC_TZ) /\
    valid dt = true.
Proof.
  unfold parse_date.
  destruct (door_hour_minute door) as [h mi].
  destruct (Re.re_search date_re (PyStr.strip label)) as [m|].
  - destruct (resolve_year_returns (PyStr.strip label) (Re.group m 2)
                (PyStr.int (Re.group m 3)) w) as (y & w1 & Hy).
    run_monad. rewrite Hy.
    destruct (strptime_b_month _) as [mo|e] eqn:Em.
    + destruct (PyDate.new y mo _ h mi 0 0 (Some DC_TZ)) as [d|e] eqn:En.
      * intros H. inversion H; subst.
        apply new_inv in En. destruct En as [-> Hv].
        exists m, mo, y. simpl. auto.
      * apply new_raises in En. subst e. simpl. discriminate.
    + apply strptime_raises in Em. subst e. simpl. discriminate.
  - unfold ret. discriminate.
Qed.

(** A resolved date carries the hour and minute of the door time. *)
Lemma parse_date_hour_minute label door w dt w' :
  parse_date label door w = (Ret (Some dt), w') ->
  (hour dt, minute dt) = door_hour_minute door.
Proof.
  intros H. apply parse_date_resolved in H.
  destruct H as (m & mo & y & _ & _ & _ & -> & _). simpl.
  destruct (door_hour_minute door); reflexivity.
Qed.

(** C4.  Door-time conversion in [parse_date]: "12:00 am" is hour 0,
    "12:00 pm" is hour 12, "6:30 pm" is 18:30, and an absent door time gives
    the default 20:00; the resolved timestamp carries that hour and minute,
    whatever the clock says. *)
Theorem C4_door_time_conversion :
  door_hour_minute (Some "12:00 am"%string) = (0, 0) /\
  door_hour_minute (Some "12:00 pm"%string) = (12, 0) /\
  door_hour_minute (Some "6:30 pm"%string) = (18, 30) /\
  door_hour_minute None = (20, 0) /\
  forall w,
    parse_date Samples.band_a_label (Some "12:00 am"%string) w =
      (Ret (Some (mk_datetime 2025 7 10 0 0 0 0 (Some DC_TZ))), w) /\
    parse_date Samples.band_a_label (Some "12:00 pm"%string) w =
      (Ret (Some (mk_datetime 2025 7 10 12 0 0 0 (Some DC_TZ))), w) /\
    parse_date Samples.band_a_label (Some "6:30 pm"%string) w =
      (Ret (Some (mk_datetime 2025 7 10 18 30 0 0 (Some DC_TZ))), w) /\
    parse_date Samples.band_a_label None w =
      (Ret (Some (mk_datetime 2025 7 10 20 0 0 0 (Some DC_TZ))), w).
Proof.
  repeat split; vm_compute; reflexivity.
Qed.

(** C5.  When the label matches the date pattern and its year is resolved,
    a month name whose first three characters are not in the abbreviation
    table, or a month and day that do not exist in the resolved year, make
    [parse_date] return [None]: nothing is clamped, wrapped or guessed. *)
Theorem C5_invalid_date_fails label door w m y w1 :
  Re.re_search date_re (PyStr.strip label) = Some m ->
  resolve_year (PyStr.strip label) (Re.group m 2)
    (PyStr.int (Re.group m 3)) w = (Ret y, w1) ->
  (lookup_month month_abbr (PyStr.lower (PyStr.take 3 (Re.group m 2))) = None \/
   exists mo,
     lookup_month month_abbr (PyStr.lower (PyStr.take 3 (Re.group m 2))) = Some mo /\
     check_date_fields y mo (PyStr.int (Re.group m 3)) = false) ->
  parse_date label door w = (Ret None, w1).
Proof.
  intros Hm Hy Hbad. unfold parse_date.
  destruct (door_hour_minute door) as [h mi].
  rewrite Hm. run_monad. rewrite Hy.
  unfold strptime_b_month.
  destruct Hbad as [Hnone | (mo & Hsome & Hday)].
  - rewrite Hnone. reflexivity.
  - rewrite Hsome. unfold PyDate.new. rewrite Hday. reflexivity.
Qed.

Lemma C5_invalid_date_fails_witness :
  parse_date "Thu, Feb 30" None Samples.june_2025 =
  (Ret None, tick Samples.june_2025).
Proof.
  apply (C5_invalid_date_fails "Thu, Feb 30" None Samples.june_2025
           [(3%nat, "30"); (2%nat, "Feb"); (1%nat, "Thu")]%string 2025).
  - vm_compute. reflexivity.
  - vm_compute. reflexivity.
  - right. exists 2. split; vm_compute; reflexivity.
Defined.

(** The same on labels with a year and with an unknown month, under any
    clock and door time. *)
Lemma feb_30_fails door w :
  parse_date "Thu, Feb 30 2025" door w = (Ret None, w) /\
  parse_date "Thu, Foo 10 2025" door w = (Ret None, w).
Proof.
  split; unfold parse_date; destruct (door_hour_minute door) as [h mi];
    vm_compute; reflexivity.
Qed.

(** Any door time that converts to an hour or minute out of range discards
    the date, whatever the label. *)
Lemma door_time_out_of_range_fails label door w :
  check_time_fields (fst (door_hour_minute door)) (snd (door_hour_minute door))
    0 0 = false ->
  exists w', parse_date label door w = (Ret None, w').
Proof.
  intros Hbad.
  destruct (parse_date_returns label door w) as ([dt|] & w' & H); [|eauto].
  exfalso. apply parse_date_resolved in H.
  destruct H as (m & mo & y & _ & _ & _ & -> & Hv).
  unfold valid in Hv. cbn [year month day hour minute second microsecond] in Hv.
  rewrite Hbad, andb_false_r in Hv. discriminate.
Qed.

(** C10.  The door time "13:00 pm" matches the door-time pattern and
    converts to hour 25; with it [parse_date] returns [None] for the label
    "Thu, Jul 10 2025", which resolves to 20:00 when the door time is
    absent or does not match, and the event of the block is discarded. *)
Theorem C10_out_of_range_door_time_discards :
  Re.re_match door_time_re "13:00 pm" <> None /\
  door_hour_minute (Some "13:00 pm"%string) = (25, 0) /\
  forall w,
    parse_date Samples.band_a_label (Some "13:00 pm"%string) w = (Ret None, w) /\
    parse_date Samples.band_a_label None w =
      (Ret (Some (mk_datetime 2025 7 10 20 0 0 0 (Some DC_TZ))), w) /\
    parse_date Samples.band_a_label (Some "doors at seven"%string) w =
      (Ret (Some (mk_datetime 2025 7 10 20 0 0 0 (Some DC_TZ))), w) /\
    parse_door_time Samples.bad_doors_block = Some "13:00 pm"%string /\
    parse_event Samples.bad_doors_block Samples.band_a_label w = (Ret None, w).
Proof.
  split; [vm_compute; discriminate|].
  split; [vm_compute; reflexivity|].
  intros w. repeat split; vm_compute; reflexivity.
Qed.

(* ===================================================================== *)
(** ** The year of a label *)
(* ===================================================================== *)

Lemma option_eta {A} (x : option A) :
  match x with Some r => Some r | None => None end = x.
Proof. destruct x; reflexivity. Qed.

(** An exact repetition [p{n}] takes [n] characters of the class or fails. *)
Lemma rep_exact {R} p n : forall s (k : string -> option R),
  Re.rep p n (Some n) s k =
  if all_at p n s then k (PyStr.drop n s) else None.
Proof.
  induction n as [|n IH]; intros s k.
  - destruct s as [|c s']; simpl; [reflexivity|].
    rewrite andb_false_r. reflexivity.
  - destruct s as [|c s']; simpl; [reflexivity|].
    rewrite andb_true_r. destruct (p c); simpl; [|reflexivity].
    rewrite option_eta. apply IH.
Qed.

Lemma all_at_length p n : forall s,
  all_at p n s = true -> (n <= String.length s)%nat.
Proof.
  induction n as [|n IH]; intros s H; simpl; [lia|].
  destruct s as [|c s']; simpl in *; [discriminate|].
  apply andb_true_iff in H. destruct H as [_ H]. apply IH in H. lia.
Qed.

Lemma length_drop n : forall s,
  String.length (PyStr.drop n s) = (String.length s - n)%nat.
Proof.
  induction n as [|n IH]; intros s; destruct s as [|c s']; simpl; auto.
Qed.

Lemma consumed_drop n s :
  (n <= String.length s)%nat ->
  Re.consumed s (PyStr.drop n s) = PyStr.take n s.
Proof.
  intros H. unfold Re.consumed. rewrite length_drop.
  replace (String.length s - (String.length s - n))%nat with n by lia.
  reflexivity.
Qed.

(** [re.match(r"(\d{4})", s)]. *)
Lemma year_re_match s :
  Re.re_match year_re s =
  if all_at PyStr.is_digit 4 s then Some [(1%nat, PyStr.take 4 s)] else None.
Proof.
  unfold Re.re_match, year_re, Re.d_. cbn [Re.run].
  rewrite rep_exact.
  destruct (all_at PyStr.is_digit 4 s) eqn:E; [|reflexivity].
  rewrite consumed_drop by (apply all_at_length in E; exact E).
  reflexivity.
Qed.

(** [re.search(r"(\d{4})", s)] finds the leftmost run of four digits. *)
Lemma year_re_search s :
  Re.re_search year_re s =
  match first_year s with
  | Some y => Some [(1%nat, y)]
  | None => None
  end.
Proof.
  induction s as [|c s IH].
  - reflexivity.
  - cbn [Re.re_search first_year]. rewrite year_re_match.
    destruct (all_at PyStr.is_digit 4 (String c s)); [reflexivity|].
    exact IH.
Qed.

(** Stripping white space does not touch the digits. *)
Lemma space_not_digit c : PyStr.is_space c = true -> PyStr.is_digit c = false.
Proof.
  unfold PyStr.is_space, PyStr.is_digit, PyStr.in_range.
  intros H.
  apply orb_true_iff in H.
  destruct H as [H|H]; apply andb_true_iff in H; destruct H as [H1 H2];
    apply Nat.leb_le in H1; apply Nat.leb_le in H2;
    apply andb_false_iff;
    destruct (Nat.leb_spec 48 (PyStr.code c)); auto;
    right; apply Nat.leb_gt; lia.
Qed.

Lemma first_year_lstrip s : first_year (PyStr.lstrip s) = first_year s.
Proof.
  induction s as [|c s IH]; [reflexivity|].
  cbn [PyStr.lstrip]. destruct (PyStr.is_space c) eqn:E; [|reflexivity].
  rewrite IH. cbn [first_year all_at].
  rewrite (space_not_digit c E). reflexivity.
Qed.

Lemma rstrip_cons c s :
  PyStr.rstrip (String c s) =
  match PyStr.rstrip s with
  | EmptyString => if PyStr.is_space c then EmptyString else String c EmptyString
  | _ => String c (PyStr.rstrip s)
  end.
Proof. cbn [PyStr.rstrip]. destruct (PyStr.rstrip s); reflexivity. Qed.

Lemma all_at_rstrip n : forall s,
  all_at PyStr.is_digit n (PyStr.rstrip s) = all_at PyStr.is_digit n s.
Proof.
  induction n as [|n IH]; intros s; [reflexivity|].
  destruct s as [|c s]; [reflexivity|].
  rewrite rstrip_cons. specialize (IH s).
  destruct (PyStr.rstrip s) as [|r0 r] eqn:Er.
  - destruct (PyStr.is_space c) eqn:Ec.
    + cbn [all_at]. rewrite (space_not_digit c Ec). reflexivity.
    + cbn [all_at]. rewrite <- IH. reflexivity.
  - cbn [all_at]. cbn [all_at] in IH. rewrite <- IH. reflexivity.
Qed.

Lemma take_rstrip n : forall s,
  all_at PyStr.is_digit n s = true ->
  PyStr.take n (PyStr.rstrip s) = PyStr.take n s.
Proof.
  induction n as [|n IH]; intros s H.
  - destruct (PyStr.rstrip s), s; reflexivity.
  - destruct s as [|c s]; [discriminate|].
    cbn [all_at] in H. apply andb_true_iff in H. destruct H as [Hc H].
    specialize (IH s H). rewrite rstrip_cons.
    destruct (PyStr.rstrip s) as [|r0 r] eqn:Er.
    + destruct (PyStr.is_space c) eqn:Ec.
      * rewrite (space_not_digit c Ec) in Hc. discriminate.
      * cbn [PyStr.take]. rewrite <- IH. destruct n; reflexivity.
    + cbn [PyStr.take]. rewrite <- IH. reflexivity.
Qed.

Lemma rstrip_cases c s :
  (PyStr.rstrip (String c s) = EmptyString /\
   PyStr.is_space c = true /\ PyStr.rstrip s = EmptyString) \/
  PyStr.rstrip (String c s) = String c (PyStr.rstrip s).
Proof.
  rewrite rstrip_cons.
  destruct (PyStr.rstrip s) eqn:Er; [|right; reflexivity].
  destruct (PyStr.is_space c); [left|right]; auto.
Qed.

Lemma first_year_cons c s :
  first_year (String c s) =
  if PyStr.is_digit c && all_at PyStr.is_digit 3 s
  then Some (String c (PyStr.take 3 s))
  else first_year s.
Proof. reflexivity. Qed.

Lemma first_year_rstrip s : first_year (PyStr.rstrip s) = first_year s.
Proof.
  induction s as [|c s IH]; [reflexivity|].
  destruct (rstrip_cases c s) as [(E & Ec & Es) | E]; rewrite E.
  - rewrite first_year_cons, (space_not_digit c Ec).
    rewrite <- IH, Es. reflexivity.
  - rewrite !first_year_cons, (all_at_rstrip 3 s), IH.
    destruct (PyStr.is_digit c); cbn [andb]; [|reflexivity].
    destruct (all_at PyStr.is_digit 3 s) eqn:E3; [|reflexivity].
    rewrite (take_rstrip 3 s E3). reflexivity.
Qed.

Lemma first_year_strip s : first_year (PyStr.strip s) = first_year s.
Proof.
  unfold PyStr.strip. rewrite first_year_rstrip. apply first_year_lstrip.
Qed.

Lemma first_year_unfold s :
  first_year s =
  if all_at PyStr.is_digit 4 s then Some (PyStr.take 4 s)
  else match s with
       | EmptyString => None
       | String _ s' => first_year s'
       end.
Proof. destruct s; reflexivity. Qed.

Lemma year_prefix y post :
  String.length y = 4%nat -> PyStr.all_digits y = true ->
  all_at PyStr.is_digit 4 (y ++ post) = true /\ PyStr.take 4 (y ++ post) = y.
Proof.
  destruct y as [|a [|b [|c [|d [|e y]]]]]; simpl; try discriminate.
  intros _ H. split; [exact H | reflexivity].
Qed.

Lemma prefix_year s :
  all_at PyStr.is_digit 4 s = true ->
  s = (PyStr.take 4 s ++ PyStr.drop 4 s)%string /\
  String.length (PyStr.take 4 s) = 4%nat /\
  PyStr.all_digits (PyStr.take 4 s) = true.
Proof.
  destruct s as [|a [|b [|c [|d s]]]]; simpl; try discriminate;
    try (rewrite ?andb_false_r; discriminate).
  intros H. rewrite andb_true_r in *. auto.
Qed.

(** The search agrees with the reading of the label. *)
Lemma first_year_has_year s y : first_year s = Some y -> has_year s.
Proof.
  induction s as [|c s IH]; rewrite first_year_unfold.
  - discriminate.
  - destruct (all_at PyStr.is_digit 4 (String c s)) eqn:E.
    + intros _. apply prefix_year in E. destruct E as (E1 & E2 & E3).
      exists EmptyString, (PyStr.take 4 (String c s)),
        (PyStr.drop 4 (String c s)). auto.
    + intros H. destruct (IH H) as (pre & y' & post & -> & Hl & Hd).
      exists (String c pre), y', post. auto.
Qed.

Lemma leftmost_first_year pre : forall s y post,
  leftmost_year s pre y post -> first_year s = Some y.
Proof.
  induction pre as [|c pre IH]; intros s y post (-> & Hl & Hd & Hmin).
  - cbn [append]. rewrite first_year_unfold.
    destruct (year_prefix y post Hl Hd) as [-> ->]. reflexivity.
  - cbn [append]. rewrite first_year_unfold.
    destruct (all_at PyStr.is_digit 4 (String c (pre ++ y ++ post))) eqn:E.
    + apply prefix_year in E. destruct E as (E1 & E2 & E3).
      specialize (Hmin EmptyString _ _ E1 E2 E3). simpl in Hmin. lia.
    + apply (IH _ y post). repeat split; auto.
      intros pre' y' post' Heq Hl' Hd'.
      specialize (Hmin (String c pre') y' post').
      cbn [append String.length] in Hmin. rewrite Heq in Hmin.
      specialize (Hmin eq_refl Hl' Hd'). lia.
Qed.

Lemma no_year_first_year s : ~ has_year s -> first_year s = None.
Proof.
  intros H. destruct (first_year s) as [y|] eqn:E; [|reflexivity].
  exfalso. apply H. exact (first_year_has_year s y E).
Qed.

(** The comparison of [test_date < datetime.now()] does not look at the
    time zone. *)
Lemma lt_with_tz a z b : PyDate.lt a (with_tz z b) = PyDate.lt a b.
Proof. reflexivity. Qed.

(** Year inference, when the month and day exist in the current year. *)
Lemma infer_year_valid month_name d w mo :
  strptime_b_month (PyStr.take 3 month_name) = Ret mo ->
  check_date_fields (year (local_clock w (reads w))) mo d = true ->
  infer_year month_name d w =
  (Ret (if PyDate.lt
             (mk_datetime (year (local_clock w (reads w))) mo d 0 0 0 0 None)
             (local_clock w (S (reads w)))
        then year (local_clock w (reads w)) + 1
        else year (local_clock w (reads w))),
   tick (tick w)).
Proof.
  intros Hm Hd. unfold infer_year. run_monad. rewrite Hm.
  unfold PyDate.new. cbn [with_tz year]. rewrite Hd. reflexivity.
Qed.

(** Year inference, when they do not: the current year is kept. *)
Lemma infer_year_invalid month_name d w mo :
  strptime_b_month (PyStr.take 3 month_name) = Ret mo ->
  check_date_fields (year (local_clock w (reads w))) mo d = false ->
  infer_year month_name d w = (Ret (year (local_clock w (reads w))), tick w).
Proof.
  intros Hm Hd. unfold infer_year. run_monad. rewrite Hm.
  unfold PyDate.new. cbn [with_tz year]. rewrite Hd. reflexivity.
Qed.

(** A label without a year whose month and day exist in the current year:
    both readings of the clock are made, and the date is built in the year
    that the comparison gives. *)
Lemma parse_date_inferred label door w m mo :
  ~ has_year label ->
  Re.re_search date_re (PyStr.strip label) = Some m ->
  strptime_b_month (PyStr.take 3 (Re.group m 2)) = Ret mo ->
  check_date_fields (year (local_clock w (reads w))) mo
    (PyStr.int (Re.group m 3)) = true ->
  parse_date label door w =
  (match
     PyDate.new
       (if PyDate.lt
             (mk_datetime (year (local_clock w (reads w))) mo
                (PyStr.int (Re.group m 3)) 0 0 0 0 None)
             (local_clock w (S (reads w)))
        then year (local_clock w (reads w)) + 1
        else year (local_clock w (reads w)))
       mo (PyStr.int (Re.group m 3))
       (fst (door_hour_minute door)) (snd (door_hour_minute door)) 0 0
       (Some DC_TZ)
   with
   | Ret dt => Ret (Some dt)
   | Raise _ => Ret None
   end, tick (tick w)).
Proof.
  intros Hno Hm Hmo Hd. unfold parse_date.
  destruct (door_hour_minute door) as [h mi]. cbn [fst snd].
  rewrite Hm. unfold resolve_year.
  rewrite year_re_search, first_year_strip, (no_year_first_year label Hno).
  unfold bind at 1. rewrite (infer_year_valid _ _ _ mo Hmo Hd).
  unfold try_except, bind, lift, ret. rewrite Hmo.
  destruct (PyDate.new _ mo _ h mi 0 0 (Some DC_TZ)) as [dt|e] eqn:En.
  - reflexivity.
  - apply new_raises in En. subst e. reflexivity.
Qed.

(** C3.  For a label of ASCII text.  When [parse_date] resolves it: with no
    4-digit year in the label, the resolved year is the current year plus
    one when the resolved month and day, at midnight in the current year,
    are strictly before the current moment, and the current year otherwise
    (the current year is that of the first reading of the clock, the
    current moment is its second reading); with a 4-digit year in the
    label, the leftmost one is the resolved year.  And a label without a
    year is resolved, in the year so chosen, whenever it matches the date
    pattern with a month of the calendar and a day that exists both in the
    current year and in the chosen one, at a door time that is a time of
    day. *)
Theorem C3_year_resolution label door w :
  isascii label = true ->
  (forall dt w',
     parse_date label door w = (Ret (Some dt), w') ->
     (~ has_year label ->
      year dt =
      (if PyDate.lt
            (mk_datetime (year (local_clock w (reads w))) (month dt) (day dt)
               0 0 0 0 None)
            (local_clock w (S (reads w)))
       then year (local_clock w (reads w)) + 1
       else year (local_clock w (reads w)))) /\
     (forall pre y post,
        leftmost_year label pre y post -> year dt = PyStr.int y)) /\
  (forall m mo y,
     ~ has_year label ->
     door_isascii door = true ->
     Re.re_search date_re (PyStr.strip label) = Some m ->
     strptime_b_month (PyStr.take 3 (Re.group m 2)) = Ret mo ->
     check_date_fields (year (local_clock w (reads w))) mo
       (PyStr.int (Re.group m 3)) = true ->
     y = (if PyDate.lt
               (mk_datetime (year (local_clock w (reads w))) mo
                  (PyStr.int (Re.group m 3)) 0 0 0 0 None)
               (local_clock w (S (reads w)))
          then year (local_clock w (reads w)) + 1
          else year (local_clock w (reads w))) ->
     valid (mk_datetime y mo (PyStr.int (Re.group m 3))
              (fst (door_hour_minute door)) (snd (door_hour_minute door))
              0 0 (Some DC_TZ)) = true ->
     parse_date label door w =
     (Ret (Some (mk_datetime y mo (PyStr.int (Re.group m 3))
                   (fst (door_hour_minute door)) (snd (door_hour_minute door))
                   0 0 (Some DC_TZ))),
      tick (tick w))).
Proof.
  intros _. split.
  - intros dt w' H. apply parse_date_resolved in H.
    destruct H as (m & mo & y & Hm & Hmo & Hy & -> & Hv).
    unfold resolve_year in Hy. rewrite year_re_search, first_year_strip in Hy.
    cbn [year month day]. split.
    + intros Hno. rewrite (no_year_first_year label Hno) in Hy.
      destruct (check_date_fields (year (local_clock w (reads w))) mo
                  (PyStr.int (Re.group m 3))) eqn:Ed.
      * rewrite (infer_year_valid _ _ _ mo Hmo Ed) in Hy.
        inversion Hy. reflexivity.
      * rewrite (infer_year_invalid _ _ _ mo Hmo Ed) in Hy.
        inversion Hy; subst y.
        unfold valid in Hv. cbn [year month day] in Hv.
        rewrite Ed in Hv. discriminate.
    + intros pre y0 post Hleft.
      rewrite (leftmost_first_year pre label y0 post Hleft) in Hy.
      unfold ret in Hy. inversion Hy. reflexivity.
  - intros m mo y Hno _ Hm Hmo Hd -> Hv.
    rewrite (parse_date_inferred label door w m mo Hno Hm Hmo Hd).
    unfold PyDate.new. unfold valid in Hv.
    cbn [year month day hour minute second microsecond] in Hv.
    rewrite Hv. reflexivity.
Qed.

Lemma has_year_first_year s : has_year s -> exists y, first_year s = Some y.
Proof.
  intros (pre & y & post & -> & Hl & Hd).
  induction pre as [|c pre IH]; cbn [append]; rewrite first_year_unfold.
  - destruct (year_prefix y post Hl Hd) as [-> ->]. eauto.
  - destruct (all_at PyStr.is_digit 4 (String c (pre ++ y ++ post))); eauto.
Qed.

Lemma first_year_none_no_year s : first_year s = None -> ~ has_year s.
Proof.
  intros E H. apply has_year_first_year in H. destruct H as [y H].
  rewrite E in H. discriminate.
Qed.

(** The run that the search finds is the leftmost one. *)
Lemma first_year_leftmost s : forall y,
  first_year s = Some y -> exists pre post, leftmost_year s pre y post.
Proof.
  induction s as [|c s IH]; intros y; rewrite first_year_unfold.
  - discriminate.
  - destruct (all_at PyStr.is_digit 4 (String c s)) eqn:E.
    + intros Hy. inversion Hy; subst y.
      apply prefix_year in E. destruct E as (E1 & E2 & E3).
      exists EmptyString, (PyStr.drop 4 (String c s)).
      repeat split; auto. intros; simpl; lia.
    + intros Hy. destruct (IH y Hy) as (pre & post & -> & Hl & Hd & Hmin).
      exists (String c pre), post. repeat split; auto.
      intros pre' y' post' Heq Hl' Hd'.
      destruct pre' as [|c' pre'].
      * cbn [append] in Heq. rewrite Heq in E.
        destruct (year_prefix y' post' Hl' Hd') as [E' _].
        rewrite E' in E. discriminate.
      * cbn [append] in Heq. inversion Heq; subst c'.
        specialize (Hmin pre' y' post' H1 Hl' Hd'). simpl. lia.
Qed.

Lemma C3_year_resolution_witness :
  isascii "Thu, Jan 15" = true /\
  parse_date "Thu, Jan 15" None Samples.june_2025 =
    (Ret (Some (mk_datetime 2026 1 15 20 0 0 0 (Some DC_TZ))),
     tick (tick Samples.june_2025)) /\
  parse_date "Mon, Dec 15" (Some "7:00 pm"%string) Samples.june_2025 =
    (Ret (Some (mk_datetime 2025 12 15 19 0 0 0 (Some DC_TZ))),
     tick (tick Samples.june_2025)) /\
  (forall dt w',
     parse_date Samples.band_a_label (Some "7:00 pm"%string)
       Samples.june_2025 = (Ret (Some dt), w') ->
     year dt = PyStr.int "2025").
Proof.
  split; [reflexivity|]. split; [|split].
  - apply (proj2 (C3_year_resolution "Thu, Jan 15" None Samples.june_2025
                    eq_refl)
             [(3%nat, "15"%string); (2%nat, "Jan"%string);
              (1%nat, "Thu"%string)] 1 2026);
      try reflexivity.
    apply first_year_none_no_year. reflexivity.
  - apply (proj2 (C3_year_resolution "Mon, Dec 15" (Some "7:00 pm"%string)
                    Samples.june_2025 eq_refl)
             [(3%nat, "15"%string); (2%nat, "Dec"%string);
              (1%nat, "Mon"%string)] 12 2025);
      try reflexivity.
    apply first_year_none_no_year. reflexivity.
  - intros dt w' H.
    destruct (first_year_leftmost Samples.band_a_label "2025" eq_refl)
      as (pre & post & Hleft).
    exact (proj2 (proj1 (C3_year_resolution Samples.band_a_label
                           (Some "7:00 pm"%string) Samples.june_2025 eq_refl)
                    dt w' H) pre "2025"%string post Hleft).
Defined.

(* ===================================================================== *)
(** ** Properties of parse_event and of the batch *)
(* ===================================================================== *)

(** [parse_event] without the monad: no heading, no record; no date, no
    record; and nothing escapes the handler. *)
Lemma parse_event_unfold block label w :
  parse_event block label w =
  match Soup.select_one (Soup.ByTag "h3") block with
  | None => (Ret None, w)
  | Some headliner_elem =>
      match parse_date label (parse_door_time block) w with
      | (Ret (Some event_date), w') =>
          (Ret (Some (mk_concert (Soup.get_text_strip headliner_elem)
                        event_date (fst (parse_venue block))
                        (snd (parse_venue block)) (parse_openers block)
                        (parse_url block))), w')
      | (_, w') => (Ret None, w')
      end
  end.
Proof.
  unfold parse_event. run_monad.
  destruct (Soup.select_one (Soup.ByTag "h3") block); [|reflexivity].
  destruct (parse_venue block) as [vn va]. run_monad.
  destruct (parse_date label (parse_door_time block) w) as [[[d|]|e] w'];
    reflexivity.
Qed.

Lemma parse_event_returns block label w :
  exists r w', parse_event block label w = (Ret r, w').
Proof.
  rewrite parse_event_unfold.
  destruct (Soup.select_one (Soup.ByTag "h3") block); [|eauto].
  destruct (parse_date label (parse_door_time block) w) as [[[d|]|e] w'];
    eauto.
Qed.

Lemma parse_event_no_heading block label w :
  Soup.select_one (Soup.ByTag "h3") block = None ->
  parse_event block label w = (Ret None, w).
Proof. intros H. rewrite parse_event_unfold, H. reflexivity. Qed.

Lemma parse_event_no_date block label w w' :
  parse_date label (parse_door_time block) w = (Ret None, w') ->
  exists w'', parse_event block label w = (Ret None, w'').
Proof.
  intros H. rewrite parse_event_unfold, H.
  destruct (Soup.select_one (Soup.ByTag "h3") block); eauto.
Qed.

(** A record comes from a heading element and a resolved date. *)
Lemma parse_event_record block label w c w' :
  parse_event block label w = (Ret (Some c), w') ->
  exists headliner_elem,
    Soup.select_one (Soup.ByTag "h3") block = Some headliner_elem /\
    parse_date label (parse_door_time block) w = (Ret (Some (date c)), w') /\
    c = mk_concert (Soup.get_text_strip headliner_elem) (date c)
          (fst (parse_venue block)) (snd (parse_venue block))
          (parse_openers block) (parse_url block).
Proof.
  rewrite parse_event_unfold.
  destruct (Soup.select_one (Soup.ByTag "h3") block) as [h|]; [|discriminate].
  destruct (parse_date label (parse_door_time block) w) as [[[d|]|e] w1];
    try discriminate.
  intros H. inversion H; subst. exists h. simpl. auto.
Qed.

(** C1 (as amended).  A record produced by [parse_event] has the stripped
    text of the first h3 element of the block as its headliner, and as its
    date the valid, zone-aware timestamp that [parse_date] resolved from the
    label and the door time of the block; so a block with no h3 element, or
    with no resolvable date, produces no record. *)
Theorem C1_record_has_heading_and_date block label w c w' :
  parse_event block label w = (Ret (Some c), w') ->
  (exists headliner_elem,
     Soup.select_one (Soup.ByTag "h3") block = Some headliner_elem /\
     headliner c = Soup.get_text_strip headliner_elem) /\
  parse_date label (parse_door_time block) w = (Ret (Some (date c)), w') /\
  valid (date c) = true /\
  tz (date c) = Some DC_TZ.
Proof.
  intros H. apply parse_event_record in H.
  destruct H as (h & Hh & Hd & Hc).
  split; [exists h; split; [exact Hh | rewrite Hc; reflexivity]|].
  split; [exact Hd|].
  apply parse_date_resolved in Hd.
  destruct Hd as (m & mo & y & _ & _ & _ & Hdt & Hv).
  split; [exact Hv | rewrite Hdt; reflexivity].
Qed.

Lemma C1_record_has_heading_and_date_witness :
  (exists headliner_elem,
     Soup.select_one (Soup.ByTag "h3") Samples.band_a_block =
       Some headliner_elem /\
     "Band A"%string = Soup.get_text_strip headliner_elem) /\
  parse_date Samples.band_a_label (parse_door_time Samples.band_a_block)
    Samples.june_2025 = (Ret (Some Samples.band_a_date), Samples.june_2025) /\
  valid Samples.band_a_date = true /\
  tz Samples.band_a_date = Some DC_TZ.
Proof.
  exact (C1_record_has_heading_and_date Samples.band_a_block
           Samples.band_a_label Samples.june_2025
           Samples.band_a_concert
           Samples.june_2025 eq_refl).
Defined.

(** C1 as stated fails: a heading element with white space only in it gives
    a record whose headliner is the empty string. *)
Lemma C1_counterexample :
  ~ (forall block label w c w',
       parse_event block label w = (Ret (Some c), w') ->
       headliner c <> EmptyString /\ valid (date c) = true).
Proof.
  intros H.
  destruct (H Samples.empty_heading_block Samples.band_a_label
              Samples.june_2025
              (mk_concert "" Samples.band_a_date None None [] None)
              Samples.june_2025 eq_refl) as [Hne _].
  apply Hne. reflexivity.
Qed.

(** The batch never raises, and the records of a batch are those of its
    blocks, in order. *)
Lemma group_concerts_returns bs label : forall w,
  exists l w', group_concerts bs label w = (Ret l, w').
Proof.
  induction bs as [|b bs IH]; intros w; cbn [group_concerts].
  - unfold ret. eauto.
  - destruct (parse_event_returns b label w) as (r & w1 & Hr).
    destruct (IH w1) as (l & w2 & Hl).
    run_monad. rewrite Hr, Hl. eauto.
Qed.

Lemma group_concerts_cons b bs label w r w1 l w2 :
  parse_event b label w = (Ret r, w1) ->
  group_concerts bs label w1 = (Ret l, w2) ->
  group_concerts (b :: bs) label w = (Ret (record_list r ++ l)%list, w2).
Proof.
  intros Hr Hl. cbn [group_concerts]. run_monad. rewrite Hr, Hl.
  destruct r; reflexivity.
Qed.

Lemma group_concerts_app bs1 bs2 label : forall w l1 w1 l2 w2,
  group_concerts bs1 label w = (Ret l1, w1) ->
  group_concerts bs2 label w1 = (Ret l2, w2) ->
  group_concerts (bs1 ++ bs2)%list label w = (Ret (l1 ++ l2)%list, w2).
Proof.
  induction bs1 as [|b bs1 IH]; intros w l1 w1 l2 w2 H1 H2.
  - cbn [group_concerts] in H1. unfold ret in H1. inversion H1; subst.
    exact H2.
  - destruct (parse_event_returns b label w) as (r & wa & Hr).
    destruct (group_concerts_returns bs1 label wa) as (la & wb & Hla).
    rewrite (group_concerts_cons _ _ _ _ _ _ _ _ Hr Hla) in H1.
    inversion H1; subst.
    cbn [app]. rewrite (group_concerts_cons b (bs1 ++ bs2) label w r wa
                          (la ++ l2)%list w2 Hr (IH _ _ _ _ _ Hla H2)).
    rewrite app_assoc. reflexivity.
Qed.

(** C9.  A block with no h3 element yields no record and leaves the clock
    untouched, and the batch goes on: the records of the batch are those of
    the blocks before it followed by those of the blocks after it.  For any
    block at all, the batch returns the records of the blocks before, the
    record of the block if it has one, and the records of the blocks
    after; no block makes the batch raise. *)
Theorem C9_heading_less_block_is_skipped bs1 b bs2 label w :
  Soup.select_one (Soup.ByTag "h3") b = None ->
  (forall w0, parse_event b label w0 = (Ret None, w0)) /\
  (exists l1 w1 l2 w2,
     group_concerts bs1 label w = (Ret l1, w1) /\
     group_concerts bs2 label w1 = (Ret l2, w2) /\
     group_concerts (bs1 ++ b :: bs2)%list label w = (Ret (l1 ++ l2)%list, w2) /\
     group_concerts (bs1 ++ bs2)%list label w = (Ret (l1 ++ l2)%list, w2)) /\
  (forall other,
   exists l1 w1 r w2 l2 w3,
     group_concerts bs1 label w = (Ret l1, w1) /\
     parse_event other label w1 = (Ret r, w2) /\
     group_concerts bs2 label w2 = (Ret l2, w3) /\
     group_concerts (bs1 ++ other :: bs2)%list label w =
       (Ret (l1 ++ record_list r ++ l2)%list, w3)).
Proof.
  intros Hh.
  assert (Hskip : forall w0, parse_event b label w0 = (Ret None, w0))
    by (intros w0; apply parse_event_no_heading; exact Hh).
  split; [exact Hskip|].
  destruct (group_concerts_returns bs1 label w) as (l1 & w1 & H1).
  split.
  - destruct (group_concerts_returns bs2 label w1) as (l2 & w2 & H2).
    exists l1, w1, l2, w2. repeat split; auto.
    + apply (group_concerts_app bs1 (b :: bs2) label w l1 w1 l2 w2 H1).
      apply (group_concerts_cons b bs2 label w1 None w1 l2 w2 (Hskip w1) H2).
    + apply (group_concerts_app bs1 bs2 label w l1 w1 l2 w2 H1 H2).
  - intros other.
    destruct (parse_event_returns other label w1) as (r & w2 & Hr).
    destruct (group_concerts_returns bs2 label w2) as (l2 & w3 & H2).
    exists l1, w1, r, w2, l2, w3. repeat split; auto.
    apply (group_concerts_app bs1 (other :: bs2) label w l1 w1 _ w3 H1).
    apply (group_concerts_cons other bs2 label w1 r w2 l2 w3 Hr H2).
Qed.

Lemma C9_heading_less_block_is_skipped_witness :
  Soup.select_one (Soup.ByTag "h3") Samples.no_heading_block = None /\
  group_concerts
    [Samples.band_a_block; Samples.no_heading_block; Samples.no_badge_block]
    Samples.band_a_label Samples.june_2025 =
  group_concerts [Samples.band_a_block; Samples.no_badge_block]
    Samples.band_a_label Samples.june_2025.
Proof.
  split; [reflexivity|].
  destruct (C9_heading_less_block_is_skipped [Samples.band_a_block]
              Samples.no_heading_block [Samples.no_badge_block]
              Samples.band_a_label Samples.june_2025 eq_refl)
    as (_ & (l1 & w1 & l2 & w2 & _ & _ & H3 & H4) & _).
  cbn [app] in H3, H4. rewrite H3, H4. reflexivity.
Defined.

(** The loop over the date groups never raises either. *)
Lemma groups_concerts_returns gs : forall w,
  exists l w', groups_concerts gs w = (Ret l, w').
Proof.
  induction gs as [|g gs IH]; intros w; cbn [groups_concerts].
  - unfold ret. eauto.
  - destruct (Soup.select_one (Soup.ByClass "date-banner__date") g);
      [|apply IH].
    destruct (group_concerts_returns
                (Soup.select (Soup.ByClass "event__content") g)
                (Soup.get_text_strip n) w) as (l1 & w1 & H1).
    destruct (IH w1) as (l2 & w2 & H2).
    run_monad. rewrite H1, H2. eauto.
Qed.

Lemma fetch_concerts_returns soup w :
  exists l w', fetch_concerts soup w = (Ret l, w').
Proof. apply groups_concerts_returns. Qed.

(* ===================================================================== *)
(** ** The end-to-end scenario *)
(* ===================================================================== *)

(** C6.  The block with headliner "Band A", opener heading
    "Support One • Support Two", doors "7:00 pm" and badge class
    "venue-930-club", under the label "Thu, Jul 10 2025", gives the record
    with those fields and the date 2025-07-10T19:00:00-04:00; the calendar
    entry built from it is titled "Band A (with Support One, Support Two)"
    and runs from 19:00 to 22:00 of that day. *)
Theorem C6_end_to_end_scenario : forall w,
  exists c entry,
    parse_event Samples.band_a_block Samples.band_a_label w =
      (Ret (Some c), w) /\
    headliner c = "Band A"%string /\
    date c = mk_datetime 2025 7 10 19 0 0 0 (Some DC_TZ) /\
    isoformat (date c) = "2025-07-10T19:00:00-04:00"%string /\
    venue c = Some "9:30 Club"%string /\
    venue_address c = Some "815 V St NW, Washington, DC 20001"%string /\
    openers c = ["Support One"; "Support Two"]%string /\
    create_calendar [c] w =
      (Ret (mk_calendar calendar_header [entry]), tick w) /\
    prop "summary" entry =
      Some (VText "Band A (with Support One, Support Two)") /\
    prop "dtstart" entry =
      Some (VDate (mk_datetime 2025 7 10 19 0 0 0 (Some DC_TZ))) /\
    prop "dtend" entry =
      Some (VDate (mk_datetime 2025 7 10 22 0 0 0 (Some DC_TZ))).
Proof.
  intros w.
  eexists. eexists.
  split; [vm_compute; reflexivity|].
  repeat (split; [vm_compute; reflexivity|]).
  vm_compute; reflexivity.
Qed.

(* ===================================================================== *)
(** ** Properties of generate_uid *)
(* ===================================================================== *)

Lemma hexdigest_length s : String.length (Md5.hexdigest s) = 32%nat.
Proof.
  unfold Md5.hexdigest. destruct (Md5.digest s) as [[[a b] c] d].
  reflexivity.
Qed.

Lemma length_append (a b : string) :
  String.length (a ++ b) = (String.length a + String.length b)%nat.
Proof. induction a as [|c a IH]; simpl; auto. Qed.

(** The identifier is the 32 hexadecimal digits of the MD5 digest of
    headliner, date and venue joined by "-", followed by "@impconcerts";
    the venue of a record that has none is rendered as the text "None". *)
Lemma generate_uid_shape c :
  generate_uid c =
  (Md5.hexdigest
     (headliner c ++ "-" ++ isoformat (date c) ++ "-" ++
      match venue c with Some v => v | None => "None" end)
   ++ "@impconcerts")%string /\
  String.length (generate_uid c) = 44%nat.
Proof.
  split.
  - unfold generate_uid, unique_str, format_opt. reflexivity.
  - unfold generate_uid. rewrite length_append, hexdigest_length. reflexivity.
Qed.

(** C2 at the record of an event with no venue badge: the identifier is the
    digest of the text ending in "-None", not of the text ending in the
    empty venue name. *)
Theorem C2_absent_venue_is_hashed_as_None : forall w,
  parse_event Samples.no_badge_block Samples.band_a_label w =
    (Ret (Some Samples.no_badge_concert), w) /\
  venue Samples.no_badge_concert = None /\
  unique_str Samples.no_badge_concert =
    "Band A-2025-07-10T19:00:00-04:00-None"%string /\
  generate_uid Samples.no_badge_concert =
    "9aec5fe9f06f828b19673d22920d4c79@impconcerts"%string /\
  generate_uid Samples.no_badge_concert <>
    (Md5.hexdigest "Band A-2025-07-10T19:00:00-04:00-" ++ "@impconcerts")%string.
Proof.
  intros w.
  split; [vm_compute; reflexivity|].
  split; [reflexivity|].
  split; [vm_compute; reflexivity|].
  split; [vm_compute; reflexivity|].
  vm_compute. discriminate.
Qed.

(* ===================================================================== *)
(** ** Calendar arithmetic *)
(* ===================================================================== *)

Lemma month_day_table :
  forallb (fun k => month_day_ok (Z.of_nat k) true &&
                    month_day_ok (Z.of_nat k) false) (seq 0 365) = true.
Proof. vm_compute. reflexivity. Qed.

Lemma month_day_spec n leap : 0 <= n < 365 -> month_day_ok n leap = true.
Proof.
  intros H. pose proof month_day_table as T.
  rewrite forallb_forall in T. specialize (T (Z.to_nat n)).
  rewrite Z2Nat.id in T by lia.
  assert (Hin : In (Z.to_nat n) (seq 0 365)) by (apply in_seq; lia).
  apply T in Hin. apply andb_true_iff in Hin.
  destruct leap; tauto.
Qed.

(** A year written in 400-, 100-, 4- and 1-year cycles. *)
Lemma days_before_cycles a b c d :
  0 <= a -> 0 <= b <= 3 -> 0 <= c <= 24 -> 0 <= d <= 3 ->
  days_before_year (a * 400 + 1 + b * 100 + c * 4 + d) =
  146097 * a + 36524 * b + 1461 * c + 365 * d.
Proof.
  intros Ha Hb Hc Hd. unfold days_before_year.
  Z.div_mod_to_equations. lia.
Qed.

Lemma is_leap_cycles a b c d :
  0 <= a -> 0 <= b <= 3 -> 0 <= c <= 24 -> 0 <= d <= 3 ->
  is_leap (a * 400 + 1 + b * 100 + c * 4 + d) =
  (d =? 3) && (negb (c =? 24) || (b =? 3)).
Proof.
  intros Ha Hb Hc Hd. unfold is_leap.
  set (Y := a * 400 + 1 + b * 100 + c * 4 + d).
  destruct (Z.eqb_spec (Y mod 4) 0), (Z.eqb_spec (Y mod 100) 0),
    (Z.eqb_spec (Y mod 400) 0), (Z.eqb_spec d 3), (Z.eqb_spec c 24),
    (Z.eqb_spec b 3); cbn [andb orb negb]; try reflexivity; exfalso;
    subst Y; Z.div_mod_to_equations; lia.
Qed.

(** The ordinal of the date of an ordinal is that ordinal. *)
Lemma ymd2ord_ord2ymd n :
  1 <= n -> let '(y, m, d) := ord2ymd n in ymd2ord y m d = n.
Proof.
  intros Hn. unfold ord2ymd. cbv zeta.
  set (a := (n - 1) / DI400Y). set (r1 := (n - 1) mod DI400Y).
  set (b := r1 / DI100Y). set (r2 := r1 mod DI100Y).
  set (c := r2 / DI4Y). set (r3 := r2 mod DI4Y).
  set (d := r3 / 365). set (r4 := r3 mod 365).
  assert (Ha : n - 1 = 146097 * a + r1) by (apply Z.div_mod; discriminate).
  assert (Hr1 : 0 <= r1 < 146097) by (apply Z.mod_pos_bound; reflexivity).
  assert (Hb : r1 = 36524 * b + r2) by (apply Z.div_mod; discriminate).
  assert (Hr2 : 0 <= r2 < 36524) by (apply Z.mod_pos_bound; reflexivity).
  assert (Hc : r2 = 1461 * c + r3) by (apply Z.div_mod; discriminate).
  assert (Hr3 : 0 <= r3 < 1461) by (apply Z.mod_pos_bound; reflexivity).
  assert (Hd : r3 = 365 * d + r4) by (apply Z.div_mod; discriminate).
  assert (Hr4 : 0 <= r4 < 365) by (apply Z.mod_pos_bound; reflexivity).
  assert (Ha0 : 0 <= a) by (apply Z.div_pos; [lia | reflexivity]).
  assert (Hb0 : 0 <= b) by (apply Z.div_pos; [lia | reflexivity]).
  assert (Hc0 : 0 <= c) by (apply Z.div_pos; [lia | reflexivity]).
  assert (Hd0 : 0 <= d) by (apply Z.div_pos; [lia | reflexivity]).
  clearbody a r1 b r2 c r3 d r4.
  destruct (Z.eqb_spec d 4) as [Ed|Ed]; cbn [orb].
  - (* the last day of a leap year that ends a 4-year cycle *)
    assert (b <= 3 /\ c <= 23 /\ r4 = 0) as (Hb3 & Hc23 & ->) by lia.
    unfold ymd2ord, days_before_month.
    replace (a * 400 + 1 + b * 100 + c * 4 + d - 1)
      with (a * 400 + 1 + b * 100 + c * 4 + 3) by lia.
    rewrite days_before_cycles, is_leap_cycles by lia.
    destruct (Z.eqb_spec c 24); [lia|].
    change (DAYS_BEFORE_MONTH 12) with 334. change (2 <? 12) with true.
    change (3 =? 3) with true. cbn [andb orb negb b2z]. lia.
  - destruct (Z.eqb_spec b 4) as [Eb|Eb].
    + (* the last day of a 400-year cycle *)
      assert (c = 0 /\ d = 0 /\ r4 = 0) as (-> & -> & ->) by lia.
      subst b. unfold ymd2ord, days_before_month.
      replace (a * 400 + 1 + 4 * 100 + 0 * 4 + 0 - 1)
        with (a * 400 + 1 + 3 * 100 + 24 * 4 + 3) by lia.
      rewrite days_before_cycles, is_leap_cycles by lia.
      change (DAYS_BEFORE_MONTH 12) with 334. change (2 <? 12) with true.
      change (3 =? 3) with true. change (24 =? 24) with true.
      cbn [andb orb negb b2z]. lia.
    + assert (b <= 3 /\ c <= 24 /\ d <= 3) as (Hb3 & Hc24 & Hd3) by lia.
      pose proof (month_day_spec r4
                    ((d =? 3) && (negb (c =? 24) || (b =? 3))) Hr4) as Hmd.
      unfold month_day_ok in Hmd.
      destruct (month_day r4 ((d =? 3) && (negb (c =? 24) || (b =? 3))))
        as [mo dd].
      repeat (apply andb_true_iff in Hmd; destruct Hmd as [Hmd ?]).
      unfold ymd2ord, days_before_month.
      rewrite days_before_cycles, is_leap_cycles by lia.
      apply Z.eqb_eq in H. lia.
Qed.

Lemma timedelta_new_us d s u :
  timedelta_us (timedelta_new d s u) = (d * 86400 + s) * 1000000 + u.
Proof.
  unfold timedelta_us, timedelta_new. cbn [td_days td_seconds td_microseconds].
  Z.div_mod_to_equations. lia.
Qed.

Lemma timedelta_new_range d s u :
  0 <= td_seconds (timedelta_new d s u) < 86400 /\
  0 <= td_microseconds (timedelta_new d s u) < 1000000.
Proof.
  unfold timedelta_new. cbn [td_seconds td_microseconds].
  split; apply Z.mod_pos_bound; reflexivity.
Qed.

Lemma timedelta_add_us a b :
  timedelta_us (timedelta_add a b) = timedelta_us a + timedelta_us b.
Proof.
  unfold timedelta_add. rewrite timedelta_new_us. unfold timedelta_us. lia.
Qed.

(** [dt + td], when it does not overflow, is [td] later on the wall clock
    and in the same zone. *)
Lemma add_wall_us dt td r :
  PyDate.add dt td = Ret r ->
  wall_us r = wall_us dt + timedelta_us td /\ tz r = tz dt.
Proof.
  unfold PyDate.add.
  set (t1 := timedelta_new (toordinal dt)
               (hour dt * 3600 + minute dt * 60 + second dt) (microsecond dt)).
  set (delta := timedelta_add t1 td).
  assert (Hd : timedelta_us delta = wall_us dt + timedelta_us td).
  { unfold delta. rewrite timedelta_add_us. unfold t1.
    rewrite timedelta_new_us. unfold wall_us. lia. }
  assert (Hs : 0 <= td_seconds delta < 86400)
    by (unfold delta, timedelta_add; apply timedelta_new_range).
  clearbody delta. clear t1.
  destruct ((0 <? td_days delta) && (td_days delta <=? MAXORDINAL)) eqn:G;
    [|discriminate].
  apply andb_true_iff in G. destruct G as [G1 G2]. apply Z.ltb_lt in G1.
  pose proof (ymd2ord_ord2ymd (td_days delta)) as RT.
  destruct (ord2ymd (td_days delta)) as [[y m] d].
  specialize (RT ltac:(lia)).
  intros H. inversion H; subst r; clear H. split; [|reflexivity].
  rewrite <- Hd. unfold timedelta_us, wall_us, toordinal.
  cbn [year month day hour minute second microsecond].
  rewrite RT. Z.div_mod_to_equations. lia.
Qed.

(** The ordinal of a valid date lies between 1 and the ordinal of
    9999-12-31, which no other date has. *)
Lemma days_before_year_bounds y :
  1 <= y <= 9999 ->
  0 <= days_before_year y /\
  (y <= 9998 -> days_before_year y <= 3651329) /\
  (y = 9999 -> days_before_year y = 3651694 /\ is_leap y = false).
Proof.
  intros Hy. unfold days_before_year. repeat split.
  - Z.div_mod_to_equations. lia.
  - intros H. Z.div_mod_to_equations. lia.
  - subst y. reflexivity.
  - subst y. reflexivity.
Qed.

Lemma ymd2ord_bounds y m d :
  check_date_fields y m d = true ->
  1 <= ymd2ord y m d <= MAXORDINAL /\
  (ymd2ord y m d = MAXORDINAL -> y = 9999 /\ m = 12 /\ d = 31).
Proof.
  unfold check_date_fields, MINYEAR, MAXYEAR, MAXORDINAL. intros H.
  repeat (apply andb_true_iff in H; destruct H as [H ?]).
  repeat match goal with
         | E : (_ <=? _) = true |- _ => apply Z.leb_le in E
         end.
  destruct (days_before_year_bounds y ltac:(lia)) as (B1 & B2 & B3).
  unfold ymd2ord, days_before_month.
  unfold days_in_month in *.
  assert (Hm : m = 1 \/ m = 2 \/ m = 3 \/ m = 4 \/ m = 5 \/ m = 6 \/
               m = 7 \/ m = 8 \/ m = 9 \/ m = 10 \/ m = 11 \/ m = 12) by lia.
  assert (Hy : y <= 9998 \/ y = 9999) by lia.
  destruct Hy as [Hy|Hy].
  - specialize (B2 Hy).
    repeat (destruct Hm as [->|Hm]); [..|subst m];
      destruct (is_leap y); cbn [DAYS_BEFORE_MONTH DAYS_IN_MONTH b2z andb
                                 Z.ltb Z.eqb Pos.eqb Z.compare Pos.compare
                                 Pos.compare_cont] in *; lia.
  - destruct (B3 Hy) as [B4 B5]. rewrite B4, B5 in *.
    repeat (destruct Hm as [->|Hm]); [..|subst m];
      cbn [DAYS_BEFORE_MONTH DAYS_IN_MONTH b2z andb Z.ltb Z.eqb Pos.eqb
           Z.compare Pos.compare Pos.compare_cont] in *; lia.
Qed.

(** The date of an ordinal of the calendar is a date of the calendar. *)
Lemma ord2ymd_valid n :
  1 <= n <= MAXORDINAL ->
  let '(y, m, d) := ord2ymd n in check_date_fields y m d = true.
Proof.
  unfold MAXORDINAL. intros Hn. unfold ord2ymd. cbv zeta.
  set (a := (n - 1) / DI400Y). set (r1 := (n - 1) mod DI400Y).
  set (b := r1 / DI100Y). set (r2 := r1 mod DI100Y).
  set (c := r2 / DI4Y). set (r3 := r2 mod DI4Y).
  set (d := r3 / 365). set (r4 := r3 mod 365).
  assert (Ha : n - 1 = 146097 * a + r1) by (apply Z.div_mod; discriminate).
  assert (Hr1 : 0 <= r1 < 146097) by (apply Z.mod_pos_bound; reflexivity).
  assert (Hb : r1 = 36524 * b + r2) by (apply Z.div_mod; discriminate).
  assert (Hr2 : 0 <= r2 < 36524) by (apply Z.mod_pos_bound; reflexivity).
  assert (Hc : r2 = 1461 * c + r3) by (apply Z.div_mod; discriminate).
  assert (Hr3 : 0 <= r3 < 1461) by (apply Z.mod_pos_bound; reflexivity).
  assert (Hd : r3 = 365 * d + r4) by (apply Z.div_mod; discriminate).
  assert (Hr4 : 0 <= r4 < 365) by (apply Z.mod_pos_bound; reflexivity).
  assert (Ha0 : 0 <= a) by (apply Z.div_pos; [lia | reflexivity]).
  assert (Hb0 : 0 <= b) by (apply Z.div_pos; [lia | reflexivity]).
  assert (Hc0 : 0 <= c) by (apply Z.div_pos; [lia | reflexivity]).
  assert (Hd0 : 0 <= d) by (apply Z.div_pos; [lia | reflexivity]).
  clearbody a r1 b r2 c r3 d r4.
  assert (Hy : a * 400 + b * 100 + c * 4 + d <= 9998) by lia.
  unfold check_date_fields, MINYEAR, MAXYEAR.
  destruct (Z.eqb_spec d 4) as [Ed|Ed]; cbn [orb].
  - change (days_in_month (a * 400 + 1 + b * 100 + c * 4 + d - 1) 12) with 31.
    repeat (apply andb_true_iff; split); try reflexivity; apply Z.leb_le; lia.
  - destruct (Z.eqb_spec b 4) as [Eb|Eb].
    + change (days_in_month (a * 400 + 1 + b * 100 + c * 4 + d - 1) 12)
        with 31.
      repeat (apply andb_true_iff; split); try reflexivity; apply Z.leb_le;
        lia.
    + assert (b <= 3 /\ c <= 24 /\ d <= 3) as (Hb3 & Hc24 & Hd3) by lia.
      pose proof (month_day_spec r4
                    ((d =? 3) && (negb (c =? 24) || (b =? 3))) Hr4) as Hmd.
      unfold month_day_ok in Hmd.
      destruct (month_day r4 ((d =? 3) && (negb (c =? 24) || (b =? 3))))
        as [mo dd].
      repeat (apply andb_true_iff in Hmd; destruct Hmd as [Hmd ?]).
      unfold days_in_month. rewrite is_leap_cycles by lia.
      repeat match goal with
             | E : (_ <=? _) = true |- _ => apply Z.leb_le in E
             end.
      assert (Hdd : dd <= (if (mo =? 2) &&
                              ((d =? 3) && (negb (c =? 24) || (b =? 3)))
                           then 29 else DAYS_IN_MONTH mo)).
      { destruct ((mo =? 2) && ((d =? 3) && (negb (c =? 24) || (b =? 3))))
          eqn:El; cbn [b2z] in *; [|lia].
        apply andb_true_iff in El. destruct El as [El _].
        apply Z.eqb_eq in El. subst mo. change (DAYS_IN_MONTH 2) with 28 in *.
        lia. }
      repeat (apply andb_true_iff; split); apply Z.leb_le; lia.
Qed.

(** [dt + td], when it does not overflow, is a date and a time of day. *)
Lemma add_valid dt td r : PyDate.add dt td = Ret r -> valid r = true.
Proof.
  unfold PyDate.add.
  set (delta := timedelta_add _ td).
  assert (Hs : 0 <= td_seconds delta < 86400 /\
               0 <= td_microseconds delta < 1000000)
    by (unfold delta, timedelta_add; apply timedelta_new_range).
  clearbody delta.
  destruct ((0 <? td_days delta) && (td_days delta <=? MAXORDINAL)) eqn:G;
    [|discriminate].
  apply andb_true_iff in G. destruct G as [G1 G2].
  apply Z.ltb_lt in G1. apply Z.leb_le in G2.
  pose proof (ord2ymd_valid (td_days delta)) as V.
  destruct (ord2ymd (td_days delta)) as [[y m] d].
  specialize (V ltac:(lia)).
  intros H. inversion H; subst r; clear H.
  unfold valid. cbn [year month day hour minute second microsecond].
  rewrite V. cbn [andb]. unfold check_time_fields.
  destruct Hs as [Hs Hu].
  repeat (apply andb_true_iff; split); apply Z.leb_le;
    Z.div_mod_to_equations; lia.
Qed.

(* ===================================================================== *)
(** ** Properties of create_calendar *)
(* ===================================================================== *)

Lemma add_three_hours_returns dt :
  valid dt = true -> PyDate.lt dt last_start = true ->
  exists r, PyDate.add dt (timedelta_hours 3) = Ret r.
Proof.
  unfold valid, check_time_fields. intros Hv Hlt.
  apply andb_true_iff in Hv. destruct Hv as [Hd Ht].
  repeat (apply andb_true_iff in Ht; destruct Ht as [Ht ?]).
  repeat match goal with
         | E : (_ <=? _) = true |- _ => apply Z.leb_le in E
         end.
  destruct (ymd2ord_bounds _ _ _ Hd) as [Hord Hlast].
  assert (Hh : toordinal dt <= MAXORDINAL - 1 \/ hour dt <= 20).
  { unfold toordinal. unfold MAXORDINAL in *.
    destruct (Z.eq_dec (ymd2ord (year dt) (month dt) (day dt)) 3652059)
      as [E|E]; [right | left; lia].
    destruct (Hlast E) as (Ey & Em & Ed).
    unfold PyDate.lt, fields, last_start in Hlt. cbn [year month day hour
      minute second microsecond] in Hlt. rewrite Ey, Em, Ed in Hlt.
    cbn [lex_lt] in Hlt.
    change (9999 <? 9999) with false in Hlt.
    change (9999 =? 9999) with true in Hlt.
    change (12 <? 12) with false in Hlt. change (12 =? 12) with true in Hlt.
    change (31 <? 31) with false in Hlt. change (31 =? 31) with true in Hlt.
    cbn [orb andb] in Hlt.
    destruct (Z.ltb_spec (hour dt) 21); [lia|].
    destruct (Z.ltb_spec (minute dt) 0); [lia|].
    destruct (Z.ltb_spec (second dt) 0); [lia|].
    destruct (Z.ltb_spec (microsecond dt) 0); [lia|].
    cbn [orb] in Hlt. rewrite !andb_false_r in Hlt. discriminate. }
  unfold PyDate.add.
  change (timedelta_hours 3) with (mk_timedelta 0 10800 0).
  set (delta := timedelta_add _ _).
  assert (Hdays : toordinal dt <= td_days delta /\
                  td_days delta <= toordinal dt + 1 /\
                  (hour dt <= 20 -> td_days delta = toordinal dt)).
  { unfold delta, timedelta_add, timedelta_new.
    cbn [td_days td_seconds td_microseconds].
    Z.div_mod_to_equations. lia. }
  clearbody delta.
  assert (G : (0 <? td_days delta) && (td_days delta <=? MAXORDINAL) = true).
  { apply andb_true_iff. split; [apply Z.ltb_lt | apply Z.leb_le];
      unfold toordinal in *; lia. }
  rewrite G. destruct (ord2ymd (td_days delta)) as [[y m] d]. eauto.
Qed.

Lemma append_nil_r (s : string) : (s ++ "")%string = s.
Proof. induction s as [|c s IH]; simpl; [|rewrite IH]; reflexivity. Qed.

(** The properties of an event that the claims speak of. *)
Lemma event_props_fields c dtend dtstamp :
  prop "summary" (event_props c dtend dtstamp) = Some (VText (event_title c)) /\
  prop "dtstart" (event_props c dtend dtstamp) = Some (VDate (date c)) /\
  prop "dtend" (event_props c dtend dtstamp) = Some (VDate dtend) /\
  prop "uid" (event_props c dtend dtstamp) = Some (VText (generate_uid c)).
Proof.
  repeat split; try reflexivity.
  unfold event_props, location_props, description_props, url_props.
  destruct (opt_truthy (venue_address c)), (opt_truthy (venue c)),
    (list_truthy (description_parts c)), (opt_truthy (url c)); reflexivity.
Qed.

Lemma event_title_prefix c :
  exists rest, event_title c = (headliner c ++ rest)%string.
Proof.
  unfold event_title. destruct (list_truthy (openers c)).
  - eexists. reflexivity.
  - exists EmptyString. rewrite append_nil_r. reflexivity.
Qed.

Lemma generate_uid_not_empty c : generate_uid c <> EmptyString.
Proof.
  intros H. pose proof (proj2 (generate_uid_shape c)) as L.
  rewrite H in L. discriminate.
Qed.

(** One event: built when start + 3 hours is representable, and then with
    one reading of the clock. *)
Lemma create_event_unfold c w :
  create_event c w =
  match PyDate.add (date c) (timedelta_hours 3) with
  | Ret dtend =>
      (Ret (event_props c dtend
              (with_tz (Some DC_TZ) (zone_clock w (reads w)))), tick w)
  | Raise e => (Raise e, w)
  end.
Proof.
  unfold create_event. run_monad.
  destruct (PyDate.add (date c) (timedelta_hours 3)); reflexivity.
Qed.

Lemma create_events_entries concerts : forall w entries w',
  create_events concerts w = (Ret entries, w') ->
  Forall2 entry_of concerts entries.
Proof.
  induction concerts as [|c cs IH]; intros w entries w';
    cbn [create_events].
  - unfold ret. intros H. inversion H. constructor.
  - unfold bind at 1. rewrite create_event_unfold.
    destruct (PyDate.add (date c) (timedelta_hours 3)) as [dtend|e] eqn:Ea;
      [|discriminate].
    unfold bind, ret.
    destruct (create_events cs (tick w)) as [[es|e] w1] eqn:Er;
      [|discriminate].
    intros H. inversion H; subst. constructor.
    + exists dtend, (with_tz (Some DC_TZ) (zone_clock w (reads w))). auto.
    + exact (IH _ _ _ Er).
Qed.

Lemma create_events_returns concerts : forall w,
  Forall (fun c => exists r, PyDate.add (date c) (timedelta_hours 3) = Ret r)
    concerts ->
  exists entries w', create_events concerts w = (Ret entries, w').
Proof.
  induction concerts as [|c cs IH]; intros w H; cbn [create_events].
  - unfold ret. eauto.
  - inversion H as [|? ? [r Hr] Hcs]; subst.
    destruct (IH (tick w) Hcs) as (es & w1 & Hes).
    unfold bind at 1. rewrite create_event_unfold, Hr.
    unfold bind, ret. rewrite Hes. eauto.
Qed.

Lemma create_calendar_unfold concerts w :
  create_calendar concerts w =
  match create_events concerts w with
  | (Ret events, w') => (Ret (mk_calendar calendar_header events), w')
  | (Raise e, w') => (Raise e, w')
  end.
Proof. reflexivity. Qed.

(** C7 (as amended).  For a batch of N records whose dates are valid and
    earlier than 9999-12-31 21:00, [create_calendar] returns a calendar with
    the six metadata properties and exactly N entries, in input order, each
    with a non-empty UID and a title that starts with the headliner of its
    record; for the empty batch it returns the metadata and no entry. *)
Theorem C7_calendar_entries concerts w :
  Forall (fun c => valid (date c) = true /\
                   PyDate.lt (date c) last_start = true) concerts ->
  (exists entries w',
     create_calendar concerts w =
       (Ret (mk_calendar calendar_header entries), w') /\
     List.length entries = List.length concerts /\
     Forall2 (fun c e =>
                (exists rest,
                   prop "summary" e = Some (VText (headliner c ++ rest))) /\
                (exists uid,
                   prop "uid" e = Some (VText uid) /\ uid <> EmptyString))
       concerts entries) /\
  create_calendar [] w = (Ret (mk_calendar calendar_header []), w).
Proof.
  intros H. split; [|reflexivity].
  assert (Hadd : Forall (fun c => exists r,
                           PyDate.add (date c) (timedelta_hours 3) = Ret r)
                   concerts).
  { eapply Forall_impl; [|exact H]. intros c [Hv Hl].
    apply add_three_hours_returns; assumption. }
  destruct (create_events_returns concerts w Hadd) as (entries & w' & He).
  exists entries, w'. rewrite create_calendar_unfold, He.
  split; [reflexivity|].
  pose proof (create_events_entries concerts w entries w' He) as F.
  split.
  - symmetry. exact (Forall2_length F).
  - eapply Forall2_impl; [|exact F].
    intros c e (dtend & dtstamp & _ & ->).
    destruct (event_props_fields c dtend dtstamp) as (Hs & _ & _ & Hu).
    destruct (event_title_prefix c) as [rest Hr].
    split.
    + exists rest. rewrite Hs, Hr. reflexivity.
    + exists (generate_uid c). split; [exact Hu|].
      apply generate_uid_not_empty.
Qed.

Lemma C7_calendar_entries_witness :
  (exists entries w',
     create_calendar [Samples.band_a_concert; Samples.no_badge_concert]
       Samples.june_2025 =
       (Ret (mk_calendar calendar_header entries), w') /\
     List.length entries = 2%nat /\
     Forall2 (fun c e =>
                (exists rest,
                   prop "summary" e = Some (VText (headliner c ++ rest))) /\
                (exists uid,
                   prop "uid" e = Some (VText uid) /\ uid <> EmptyString))
       [Samples.band_a_concert; Samples.no_badge_concert] entries) /\
  create_calendar [] Samples.june_2025 =
    (Ret (mk_calendar calendar_header []), Samples.june_2025).
Proof.
  apply (C7_calendar_entries
           [Samples.band_a_concert; Samples.no_badge_concert]
           Samples.june_2025).
  repeat constructor.
Defined.

(** C7 as stated fails: the event of the last evening of year 9999 is a
    record that [parse_event] produces, with a headliner and a valid date,
    and [create_calendar] raises [OverflowError] on it. *)
Lemma C7_counterexample :
  parse_event Samples.last_evening_block Samples.last_evening_label
    Samples.june_2025 =
    (Ret (Some Samples.last_evening_concert), Samples.june_2025) /\
  valid (date Samples.last_evening_concert) = true /\
  ~ (exists cal w',
       create_calendar [Samples.last_evening_concert] Samples.june_2025 =
         (Ret cal, w') /\
       List.length (subcomponents cal) = 1%nat).
Proof.
  split; [vm_compute; reflexivity|].
  split; [reflexivity|].
  intros (cal & w' & H & _).
  vm_compute in H. discriminate.
Qed.




(** The entry is built exactly when start + 3 hours is representable. *)
Lemma create_event_overflow w :
  create_event Samples.last_evening_concert w = (Raise OverflowError, w).
Proof. vm_compute. reflexivity. Qed.

(** The 3 hours are wall-clock hours: on the night of a change of offset
    the two ends of an entry are 2 or 4 hours apart in universal time. *)
Lemma three_wall_hours_across_the_autumn_change :
  let start := mk_datetime 2025 11 1 23 30 0 0 (Some DC_TZ) in
  let stop := mk_datetime 2025 11 2 2 30 0 0 (Some DC_TZ) in
  PyDate.add start (timedelta_hours 3) = Ret stop /\
  isoformat start = "2025-11-01T23:30:00-04:00"%string /\
  isoformat stop = "2025-11-02T02:30:00-05:00"%string.
Proof. repeat split; vm_compute; reflexivity. Qed.

(* ===================================================================== *)
(** ** Further properties of parse_date *)
(* ===================================================================== *)

(** The inferred year of a resolved label that has none: both readings of
    the clock were made. *)
Lemma resolved_without_year label door w dt w' :
  parse_date label door w = (Ret (Some dt), w') ->
  ~ has_year label ->
  w' = tick (tick w) /\
  year dt =
  (if PyDate.lt
        (mk_datetime (year (local_clock w (reads w))) (month dt) (day dt)
           0 0 0 0 None)
        (local_clock w (S (reads w)))
   then year (local_clock w (reads w)) + 1
   else year (local_clock w (reads w))).
Proof.
  intros H Hno. apply parse_date_resolved in H.
  destruct H as (m & mo & y & Hm & Hmo & Hy & -> & Hv).
  unfold resolve_year in Hy. rewrite year_re_search, first_year_strip in Hy.
  rewrite (no_year_first_year label Hno) in Hy.
  cbn [year month day].
  destruct (check_date_fields (year (local_clock w (reads w))) mo
              (PyStr.int (Re.group m 3))) eqn:Ed.
  - rewrite (infer_year_valid _ _ _ mo Hmo Ed) in Hy.
    inversion Hy. auto.
  - rewrite (infer_year_invalid _ _ _ mo Hmo Ed) in Hy.
    inversion Hy; subst y.
    unfold valid in Hv. cbn [year month day] in Hv.
    rewrite Ed in Hv. discriminate.
Qed.

(** X1.  A label of ASCII text without a year never resolves to a day
    before today: when both readings of the clock fall in the same year,
    the resolved day, at midnight, is not before the clock. *)
Theorem X1_inferred_date_is_not_past label door w dt w' :
  isascii label = true ->
  ~ has_year label ->
  parse_date label door w = (Ret (Some dt), w') ->
  year (local_clock w (S (reads w))) = year (local_clock w (reads w)) ->
  PyDate.lt (midnight dt) (local_clock w (S (reads w))) = false.
Proof.
  intros _ Hno H Hsame.
  destruct (resolved_without_year _ _ _ _ _ H Hno) as [_ Hy].
  unfold midnight.
  destruct (PyDate.lt
              (mk_datetime (year (local_clock w (reads w))) (month dt)
                 (day dt) 0 0 0 0 None) (local_clock w (S (reads w))))
    eqn:E.
  - rewrite Hy. unfold PyDate.lt, fields. cbn [year month day hour minute
      second microsecond lex_lt]. rewrite Hsame.
    replace (year (local_clock w (reads w)) + 1 <?
             year (local_clock w (reads w))) with false
      by (symmetry; apply Z.ltb_ge; lia).
    replace (year (local_clock w (reads w)) + 1 =?
             year (local_clock w (reads w))) with false
      by (symmetry; apply Z.eqb_neq; lia).
    reflexivity.
  - rewrite Hy. exact E.
Qed.

Lemma X1_inferred_date_is_not_past_witness :
  isascii "Thu, Jan 15" = true /\
  parse_date "Thu, Jan 15" None Samples.june_2025 =
    (Ret (Some (mk_datetime 2026 1 15 20 0 0 0 (Some DC_TZ))),
     tick (tick Samples.june_2025)) /\
  PyDate.lt (midnight (mk_datetime 2026 1 15 20 0 0 0 (Some DC_TZ)))
    (local_clock Samples.june_2025 1) = false.
Proof.
  split; [reflexivity|]. split; [reflexivity|].
  apply (X1_inferred_date_is_not_past "Thu, Jan 15" None Samples.june_2025
           (mk_datetime 2026 1 15 20 0 0 0 (Some DC_TZ))
           (tick (tick Samples.june_2025)) eq_refl).
  - apply first_year_none_no_year. reflexivity.
  - reflexivity.
  - reflexivity.
Defined.

(** X2.  A label of ASCII text without a year that names today's month and
    day is never resolved to today: once the clock is past midnight, a
    resolved date is in next year, whatever the door time, because the
    comparison is made with today at 00:00. *)
Theorem X2_today_resolves_to_next_year label door w dt w' :
  isascii label = true ->
  ~ has_year label ->
  parse_date label door w = (Ret (Some dt), w') ->
  year (local_clock w (S (reads w))) = year (local_clock w (reads w)) ->
  month dt = month (local_clock w (S (reads w))) ->
  day dt = day (local_clock w (S (reads w))) ->
  PyDate.lt (midnight (local_clock w (S (reads w))))
    (local_clock w (S (reads w))) = true ->
  year dt = year (local_clock w (reads w)) + 1.
Proof.
  intros _ Hno H Hsame Hmo Hd Hpast.
  destruct (resolved_without_year _ _ _ _ _ H Hno) as [_ Hy].
  unfold midnight in Hpast. rewrite <- Hmo, <- Hd, Hsame in Hpast.
  rewrite Hpast in Hy. exact Hy.
Qed.

Lemma X2_today_resolves_to_next_year_witness :
  isascii "Sun, Jun 1" = true /\
  parse_date "Sun, Jun 1" (Some "11:00 pm"%string) Samples.june_2025 =
    (Ret (Some (mk_datetime 2026 6 1 23 0 0 0 (Some DC_TZ))),
     tick (tick Samples.june_2025)) /\
  year (mk_datetime 2026 6 1 23 0 0 0 (Some DC_TZ)) =
    year (local_clock Samples.june_2025 0) + 1.
Proof.
  split; [reflexivity|]. split; [reflexivity|].
  apply (X2_today_resolves_to_next_year "Sun, Jun 1"
           (Some "11:00 pm"%string) Samples.june_2025
           (mk_datetime 2026 6 1 23 0 0 0 (Some DC_TZ))
           (tick (tick Samples.june_2025)) eq_refl).
  - apply first_year_none_no_year. reflexivity.
  - reflexivity.
  - reflexivity.
  - reflexivity.
  - reflexivity.
  - reflexivity.
Defined.

(** X3.  A label with a 4-digit year is resolved without the clock: the
    answer is the same under every clock, and no reading is made. *)
Theorem X3_label_with_year_ignores_clock label door :
  has_year label ->
  exists r, forall w, parse_date label door w = (Ret r, w).
Proof.
  intros Hy. apply has_year_first_year in Hy. destruct Hy as [y Hy].
  unfold parse_date, resolve_year.
  destruct (door_hour_minute door) as [h mi].
  rewrite year_re_search, first_year_strip, Hy.
  destruct (Re.re_search date_re (PyStr.strip label)) as [m|].
  - run_monad.
    destruct (strptime_b_month (PyStr.take 3 (Re.group m 2))) as [mo|e] eqn:Em.
    + destruct (PyDate.new (PyStr.int (Re.group [(1%nat, y)] 1)) mo
                  (PyStr.int (Re.group m 3)) h mi 0 0 (Some DC_TZ))
        as [d|e] eqn:En.
      * exists (Some d). reflexivity.
      * apply new_raises in En. subst e. exists None. reflexivity.
    + apply strptime_raises in Em. subst e. exists None. reflexivity.
  - exists None. reflexivity.
Qed.

Lemma X3_label_with_year_ignores_clock_witness :
  exists r, forall w,
    parse_date Samples.band_a_label (Some "7:00 pm"%string) w = (Ret r, w).
Proof.
  apply X3_label_with_year_ignores_clock.
  exists "Thu, Jul 10 "%string, "2025"%string, ""%string.
  repeat split; reflexivity.
Defined.

(* ===================================================================== *)
(** ** Further properties of parse_event *)
(* ===================================================================== *)

Lemma venue_lookup_in tbl k v :
  venue_lookup tbl k = Some v -> In (k, v) tbl.
Proof.
  induction tbl as [|[k' v'] tbl IH]; cbn [venue_lookup]; [discriminate|].
  destruct (String.eqb_spec k' k) as [->|_].
  - intros H. inversion H. left. reflexivity.
  - intros H. right. exact (IH H).
Qed.

(** What the loop over the classes of the badge returns. *)
Lemma venue_of_classes_cases classes venue_elem :
  (venue_of_classes classes venue_elem = (None, None) /\
   forall cls, In cls classes -> PyStr.startswith "venue-" cls = false) \/
  (exists cls name address,
     In cls classes /\ PyStr.startswith "venue-" cls = true /\
     In (cls, (name, address)) VENUE_MAP /\
     venue_of_classes classes venue_elem = (Some name, Some address)) \/
  (exists cls,
     In cls classes /\ PyStr.startswith "venue-" cls = true /\
     venue_lookup VENUE_MAP cls = None /\
     venue_of_classes classes venue_elem =
       (Some (PyStr.title (Soup.get_text_strip venue_elem)), None)).
Proof.
  induction classes as [|cls rest IH]; cbn [venue_of_classes].
  - left. split; [reflexivity|]. intros cls [].
  - destruct (PyStr.startswith "venue-" cls) eqn:Ep.
    + right. destruct (venue_lookup VENUE_MAP cls) as [[name address]|] eqn:El.
      * left. exists cls, name, address.
        repeat split; auto using in_eq, venue_lookup_in.
      * right. exists cls. repeat split; auto using in_eq.
    + destruct IH as [[E Hall] | [(c & n & a & Hin & Hp & Ht & E)
                                 | (c & Hin & Hp & Hl & E)]].
      * left. split; [exact E|].
        intros c [<-|Hc]; [exact Ep | exact (Hall c Hc)].
      * right. left. exists c, n, a. repeat split; auto using in_cons.
      * right. right. exists c. repeat split; auto using in_cons.
Qed.

(** X4.  The venue of a record: an address is only ever attached together
    with the display name of the same row of the venue table, the row of a
    class of the badge element; a venue that is not in the table is the
    title-cased text of the badge and comes without an address; without a
    venue there is no address. *)
Theorem X4_venue_and_address_agree block label w c w' :
  parse_event block label w = (Ret (Some c), w') ->
  match venue c, venue_address c with
  | Some name, Some address =>
      exists badge_class, In (badge_class, (name, address)) VENUE_MAP
  | Some name, None =>
      exists venue_elem,
        Soup.select_one (Soup.ByClassContains "badge venue-") block =
          Some venue_elem /\
        name = PyStr.title (Soup.get_text_strip venue_elem)
  | None, None => True
  | None, Some _ => False
  end.
Proof.
  intros H. apply parse_event_record in H.
  destruct H as (h & _ & _ & ->). cbn [venue venue_address].
  unfold parse_venue.
  destruct (Soup.select_one (Soup.ByClassContains "badge venue-") block)
    as [venue_elem|]; [|exact I].
  destruct (venue_of_classes_cases (Soup.get_classes venue_elem) venue_elem)
    as [[E _] | [(cls & n & a & _ & _ & Ht & E) | (cls & _ & _ & _ & E)]];
    rewrite E; cbn [fst snd].
  - exact I.
  - exists cls. exact Ht.
  - exists venue_elem. auto.
Qed.

Lemma X4_venue_and_address_agree_witness :
  (exists badge_class,
     In (badge_class,
         ("9:30 Club"%string, "815 V St NW, Washington, DC 20001"%string))
       VENUE_MAP) /\
  (exists venue_elem,
     Soup.select_one (Soup.ByClassContains "badge venue-")
       Samples.unknown_venue_block = Some venue_elem /\
     "Black Cat"%string = PyStr.title (Soup.get_text_strip venue_elem)).
Proof.
  split.
  - exact (X4_venue_and_address_agree Samples.band_a_block
             Samples.band_a_label Samples.june_2025 Samples.band_a_concert
             Samples.june_2025 eq_refl).
  - exact (X4_venue_and_address_agree Samples.unknown_venue_block
             Samples.band_a_label Samples.june_2025
             (mk_concert "Band A" Samples.band_a_date
                (Some "Black Cat"%string) None [] None)
             Samples.june_2025 eq_refl).
Defined.

(* ===================================================================== *)
(** ** Further properties of create_calendar *)
(* ===================================================================== *)

Lemma DAYS_IN_MONTH_le m : DAYS_IN_MONTH m <= 31.
Proof.
  destruct m as [|p|p]; cbn; try lia.
  do 5 (destruct p as [p|p|]; cbn; try lia).
Qed.

(** From [last_start] on, start + 3 hours overflows. *)
Lemma add_three_hours_overflows dt :
  valid dt = true -> PyDate.lt dt last_start = false ->
  PyDate.add dt (timedelta_hours 3) = Raise OverflowError.
Proof.
  unfold valid, check_time_fields. intros Hv Hlt.
  apply andb_true_iff in Hv. destruct Hv as [Hd Ht].
  repeat (apply andb_true_iff in Ht; destruct Ht as [Ht ?]).
  repeat match goal with
         | E : (_ <=? _) = true |- _ => apply Z.leb_le in E
         end.
  assert (Hf : year dt = 9999 /\ month dt = 12 /\ day dt = 31 /\
               21 <= hour dt).
  { unfold check_date_fields, MINYEAR, MAXYEAR in Hd.
    repeat (apply andb_true_iff in Hd; destruct Hd as [Hd ?]).
    repeat match goal with
           | E : (_ <=? _) = true |- _ => apply Z.leb_le in E
           end.
    assert (Hdim : days_in_month (year dt) (month dt) <= 31).
    { unfold days_in_month.
      destruct ((month dt =? 2) && is_leap (year dt)); [lia|].
      apply DAYS_IN_MONTH_le. }
    unfold PyDate.lt, fields, last_start in Hlt.
    cbn [year month day hour minute second microsecond lex_lt] in Hlt.
    apply orb_false_iff in Hlt. destruct Hlt as [L1 Hlt].
    apply Z.ltb_ge in L1.
    assert (Ey : year dt = 9999) by lia. rewrite Ey in Hlt.
    change (9999 =? 9999) with true in Hlt. cbn [andb] in Hlt.
    apply orb_false_iff in Hlt. destruct Hlt as [L2 Hlt].
    apply Z.ltb_ge in L2.
    assert (Em : month dt = 12) by lia. rewrite Em in Hlt.
    change (12 =? 12) with true in Hlt. cbn [andb] in Hlt.
    apply orb_false_iff in Hlt. destruct Hlt as [L3 Hlt].
    apply Z.ltb_ge in L3.
    assert (Ed : day dt = 31) by lia. rewrite Ed in Hlt.
    change (31 =? 31) with true in Hlt. cbn [andb] in Hlt.
    apply orb_false_iff in Hlt. destruct Hlt as [L4 _].
    apply Z.ltb_ge in L4. auto. }
  destruct Hf as (Ey & Em & Ed & Hh).
  unfold PyDate.add.
  change (timedelta_hours 3) with (mk_timedelta 0 10800 0).
  set (delta := timedelta_add _ _).
  assert (Hdays : td_days delta = MAXORDINAL + 1).
  { unfold delta, timedelta_add, timedelta_new, toordinal.
    rewrite Ey, Em, Ed.
    change (ymd2ord 9999 12 31) with 3652059. unfold MAXORDINAL.
    cbn [td_days td_seconds td_microseconds].
    Z.div_mod_to_equations. lia. }
  rewrite Hdays. reflexivity.
Qed.

Lemma create_events_overflow concerts c : forall w,
  Forall (fun c => valid (date c) = true) concerts ->
  In c concerts -> PyDate.lt (date c) last_start = false ->
  exists w1, create_events concerts w = (Raise OverflowError, w1).
Proof.
  induction concerts as [|c0 cs IH]; intros w Hv Hin Hlate; [destruct Hin|].
  inversion Hv as [|? ? Hv0 Hvs]; subst.
  cbn [create_events]. unfold bind at 1. rewrite create_event_unfold.
  destruct (PyDate.lt (date c0) last_start) eqn:E0.
  - destruct (add_three_hours_returns _ Hv0 E0) as [r Hr]. rewrite Hr.
    destruct Hin as [->|Hin]; [congruence|].
    destruct (IH (tick w) Hvs Hin Hlate) as [w1 H1].
    unfold bind. rewrite H1. eauto.
  - rewrite (add_three_hours_overflows _ Hv0 E0). eauto.
Qed.

(** X5.  One record that starts at 9999-12-31 21:00 or later makes
    [create_calendar] raise [OverflowError] for the whole batch: no calendar
    is returned, whatever the other records are. *)
Theorem X5_one_late_record_loses_the_calendar concerts c w :
  Forall (fun c => valid (date c) = true) concerts ->
  In c concerts ->
  PyDate.lt (date c) last_start = false ->
  exists w1, create_calendar concerts w = (Raise OverflowError, w1).
Proof.
  intros Hv Hin Hlate.
  destruct (create_events_overflow concerts c w Hv Hin Hlate) as [w1 H1].
  exists w1. rewrite create_calendar_unfold, H1. reflexivity.
Qed.

Lemma X5_one_late_record_loses_the_calendar_witness :
  exists w1,
    create_calendar [Samples.band_a_concert; Samples.last_evening_concert]
      Samples.june_2025 = (Raise OverflowError, w1).
Proof.
  apply (X5_one_late_record_loses_the_calendar
           [Samples.band_a_concert; Samples.last_evening_concert]
           Samples.last_evening_concert Samples.june_2025).
  - repeat constructor.
  - right. left. reflexivity.
  - reflexivity.
Defined.

Lemma opt_truthy_text v : opt_truthy v = true -> opt_text v <> EmptyString.
Proof. destruct v as [[|c s]|]; simpl; congruence. Qed.

Lemma join_head_not_empty sep p rest :
  p <> EmptyString -> PyStr.join sep (p :: rest) <> EmptyString.
Proof.
  destruct p as [|c p]; [congruence|]. intros _.
  destruct rest; cbn; discriminate.
Qed.

Lemma description_not_empty c :
  list_truthy (description_parts c) = true ->
  PyStr.join newline (description_parts c) <> EmptyString.
Proof.
  unfold description_parts.
  destruct (list_truthy (openers c)), (opt_truthy (venue c)),
    (opt_truthy (url c)); cbn [app list_truthy]; try discriminate;
    intros _; apply join_head_not_empty; discriminate.
Qed.

(** X6.  In every calendar that [create_calendar] returns, no entry has a
    property twice, and no entry has an empty LOCATION, DESCRIPTION, URL or
    UID: a property without data is left out (only the title may be empty,
    when the headliner is). *)
Theorem X6_entries_have_no_empty_property concerts w cal w' :
  create_calendar concerts w = (Ret cal, w') ->
  Forall (fun e =>
            NoDup (map fst e) /\
            forall name v,
              In (name, VText v) e -> name <> "summary"%string ->
              v <> EmptyString)
    (subcomponents cal).
Proof.
  rewrite create_calendar_unfold.
  destruct (create_events concerts w) as [[entries|e] w1] eqn:He;
    [|discriminate].
  intros H. inversion H; subst. cbn [subcomponents].
  pose proof (create_events_entries _ _ _ _ He) as F.
  clear He H. induction F as [|c e cs es (dtend & dtstamp & _ & ->) _ IH];
    constructor; [|exact IH].
  pose proof (opt_truthy_text (venue_address c)) as Ta.
  pose proof (opt_truthy_text (venue c)) as Tv.
  pose proof (opt_truthy_text (url c)) as Tu.
  pose proof (description_not_empty c) as Td.
  pose proof (generate_uid_not_empty c) as Ti.
  unfold event_props, location_props, description_props, url_props.
  destruct (opt_truthy (venue_address c)), (opt_truthy (venue c)),
    (list_truthy (description_parts c)), (opt_truthy (url c));
    cbn [app map fst]; (split; [
      repeat constructor; cbn [In]; intuition discriminate
    | intros name v Hin Hname; cbn [In] in Hin;
      repeat (destruct Hin as [Hin|Hin];
              [inversion Hin; subst; auto; congruence|]);
      destruct Hin ]).
Qed.

Lemma X6_entries_have_no_empty_property_witness :
  exists cal w',
    create_calendar [Samples.band_a_concert; Samples.no_badge_concert]
      Samples.june_2025 = (Ret cal, w') /\
    Forall (fun e =>
              NoDup (map fst e) /\
              forall name v,
                In (name, VText v) e -> name <> "summary"%string ->
                v <> EmptyString)
      (subcomponents cal).
Proof.
  destruct (create_calendar [Samples.band_a_concert; Samples.no_badge_concert]
              Samples.june_2025) as [[cal|e] w'] eqn:E.
  - exists cal, w'. split; [reflexivity|].
    exact (X6_entries_have_no_empty_property _ _ _ _ E).
  - vm_compute in E. discriminate.
Defined.

Lemma venue_map_addresses k name address :
  In (k, (name, address)) VENUE_MAP -> PyStr.truthy address = true.
Proof.
  unfold VENUE_MAP. cbn [In].
  intros H. repeat (destruct H as [H|H]; [inversion H; reflexivity|]).
  destruct H.
Qed.

Lemma event_props_location c dtend dtstamp :
  prop "location" (event_props c dtend dtstamp) =
  if opt_truthy (venue_address c)
  then Some (VText (opt_text (venue_address c)))
  else if opt_truthy (venue c) then Some (VText (opt_text (venue c)))
  else None.
Proof.
  unfold event_props, location_props, description_props, url_props.
  destruct (opt_truthy (venue_address c)), (opt_truthy (venue c)),
    (list_truthy (description_parts c)), (opt_truthy (url c)); reflexivity.
Qed.

(** The loop over the classes of the badge stops at the first class with
    the prefix, and looks that class up in the table. *)
Lemma venue_of_classes_class classes venue_elem :
  venue_of_classes classes venue_elem =
  match venue_class classes with
  | None => (None, None)
  | Some cls =>
      match venue_lookup VENUE_MAP cls with
      | Some (name, address) => (Some name, Some address)
      | None => (Some (PyStr.title (Soup.get_text_strip venue_elem)), None)
      end
  end.
Proof.
  unfold venue_class.
  induction classes as [|cls rest IH]; cbn [venue_of_classes find];
    [reflexivity|].
  destruct (PyStr.startswith "venue-" cls); [reflexivity | exact IH].
Qed.

(** No class has two rows in the table. *)
Lemma venue_lookup_row cls name address :
  In (cls, (name, address)) VENUE_MAP ->
  venue_lookup VENUE_MAP cls = Some (name, address).
Proof.
  unfold VENUE_MAP. cbn [In].
  intros H.
  repeat (destruct H as [H|H]; [inversion H; reflexivity|]).
  destruct H.
Qed.

Lemma venue_lookup_no_row cls :
  (forall row, ~ In (cls, row) VENUE_MAP) -> venue_lookup VENUE_MAP cls = None.
Proof.
  intros H. destruct (venue_lookup VENUE_MAP cls) as [row|] eqn:E;
    [|reflexivity].
  apply venue_lookup_in in E. destruct (H row E).
Qed.

Lemma title_truthy s : PyStr.truthy (PyStr.title s) = PyStr.truthy s.
Proof.
  destruct s as [|c s]; [reflexivity|].
  unfold PyStr.title. cbn [PyStr.title_from].
  destruct (PyStr.is_alpha c); reflexivity.
Qed.

(** X7.  From the page to the calendar, by the badge of the block (the
    first element whose class attribute contains "badge venue-") and the
    first of its classes that starts with "venue-".  The LOCATION of the
    entry of an extracted event is the street address of the row of that
    class in VENUE_MAP when it has one; when it has none, LOCATION is the
    title-cased text of the badge (stated for ASCII text), and is absent
    when that text is empty; and it is absent when the block has no badge
    or the badge no such class. *)
Theorem X7_location_of_an_extracted_event block label w c w1 cal w2 :
  parse_event block label w = (Ret (Some c), w1) ->
  create_calendar [c] w1 = (Ret cal, w2) ->
  exists e,
    subcomponents cal = [e] /\
    match Soup.select_one (Soup.ByClassContains "badge venue-") block with
    | None => prop "location" e = None
    | Some badge =>
        match venue_class (Soup.get_classes badge) with
        | None => prop "location" e = None
        | Some cls =>
            (forall name address,
               In (cls, (name, address)) VENUE_MAP ->
               prop "location" e = Some (VText address)) /\
            ((forall row, ~ In (cls, row) VENUE_MAP) ->
             isascii (Soup.get_text_strip badge) = true ->
             prop "location" e =
             (if PyStr.truthy (Soup.get_text_strip badge)
              then Some (VText (PyStr.title (Soup.get_text_strip badge)))
              else None))
        end
    end.
Proof.
  intros Hp Hc.
  pose proof Hp as Hp'. apply parse_event_record in Hp'.
  destruct Hp' as (h & _ & _ & Ec).
  rewrite create_calendar_unfold in Hc.
  destruct (create_events [c] w1) as [[entries|x] w3] eqn:He; [|discriminate].
  inversion Hc; subst cal w3. cbn [subcomponents].
  pose proof (create_events_entries _ _ _ _ He) as F.
  inversion F as [|? e ? es (dtend & dtstamp & _ & Ee) Fs]; subst.
  inversion Fs; subst. exists (event_props c dtend dtstamp).
  split; [reflexivity|].
  pose proof (f_equal venue Ec) as Hv. cbn [venue] in Hv.
  pose proof (f_equal venue_address Ec) as Ha. cbn [venue_address] in Ha.
  rewrite event_props_location, Hv, Ha.
  unfold parse_venue.
  destruct (Soup.select_one (Soup.ByClassContains "badge venue-") block)
    as [badge|]; [|reflexivity].
  rewrite venue_of_classes_class.
  destruct (venue_class (Soup.get_classes badge)) as [cls|]; [|reflexivity].
  split.
  - intros name address Hrow.
    rewrite (venue_lookup_row _ _ _ Hrow). cbn [fst snd opt_truthy opt_text].
    rewrite (venue_map_addresses _ _ _ Hrow). reflexivity.
  - intros Hno _. rewrite (venue_lookup_no_row _ Hno).
    cbn [fst snd opt_truthy opt_text]. rewrite title_truthy.
    destruct (PyStr.truthy (Soup.get_text_strip badge)); reflexivity.
Qed.

Lemma X7_location_of_an_extracted_event_witness :
  (parse_event Samples.band_a_block Samples.band_a_label Samples.june_2025 =
     (Ret (Some Samples.band_a_concert), Samples.june_2025) /\
   exists cal w2,
     create_calendar [Samples.band_a_concert] Samples.june_2025 =
       (Ret cal, w2) /\
     exists e,
       subcomponents cal = [e] /\
       prop "location" e =
         Some (VText "815 V St NW, Washington, DC 20001")) /\
  (parse_event Samples.unknown_venue_block Samples.band_a_label
     Samples.june_2025 =
     (Ret (Some Samples.unknown_venue_concert), Samples.june_2025) /\
   exists cal w2,
     create_calendar [Samples.unknown_venue_concert] Samples.june_2025 =
       (Ret cal, w2) /\
     exists e,
       subcomponents cal = [e] /\
       prop "location" e = Some (VText "Black Cat")).
Proof.
  split; (split; [reflexivity|]).
  - destruct (create_calendar [Samples.band_a_concert] Samples.june_2025)
      as [[cal|x] w2] eqn:E; [|vm_compute in E; discriminate].
    exists cal, w2. split; [reflexivity|].
    destruct (X7_location_of_an_extracted_event Samples.band_a_block
                Samples.band_a_label Samples.june_2025 Samples.band_a_concert
                Samples.june_2025 cal w2 eq_refl E) as (e & He & Hloc).
    exists e. split; [exact He|].
    exact (proj1 Hloc "9:30 Club"%string
             "815 V St NW, Washington, DC 20001"%string
             (or_introl eq_refl)).
  - destruct (create_calendar [Samples.unknown_venue_concert]
                Samples.june_2025)
      as [[cal|x] w2] eqn:E; [|vm_compute in E; discriminate].
    exists cal, w2. split; [reflexivity|].
    destruct (X7_location_of_an_extracted_event Samples.unknown_venue_block
                Samples.band_a_label Samples.june_2025
                Samples.unknown_venue_concert
                Samples.june_2025 cal w2 eq_refl E) as (e & He & Hloc).
    exists e. split; [exact He|].
    apply (proj2 Hloc); [|reflexivity].
    intros row H. unfold VENUE_MAP in H. cbn [In] in H.
    repeat (destruct H as [H|H]; [discriminate H|]).
    destruct H.
Defined.

(* ===================================================================== *)
(** ** Properties of fetch_concerts and main *)
(* ===================================================================== *)

(** The records of a group come from its blocks. *)
Lemma group_concerts_from bs label : forall w l w',
  group_concerts bs label w = (Ret l, w') ->
  Forall (fun c => exists block wa wb,
            In block bs /\ parse_event block label wa = (Ret (Some c), wb)) l.
Proof.
  induction bs as [|b bs IH]; intros w l w' H.
  - cbn [group_concerts] in H. unfold ret in H. inversion H. constructor.
  - destruct (parse_event_returns b label w) as (r & w1 & Hr).
    destruct (group_concerts_returns bs label w1) as (l1 & w2 & Hl).
    rewrite (group_concerts_cons _ _ _ _ _ _ _ _ Hr Hl) in H.
    inversion H; subst. apply Forall_app. split.
    + destruct r as [c|]; cbn [record_list]; constructor; [|constructor].
      exists b, w, w1. split; [left; reflexivity | exact Hr].
    + eapply Forall_impl; [|exact (IH _ _ _ Hl)].
      intros c (block & wa & wb & Hin & Hp).
      exists block, wa, wb. split; [right; exact Hin | exact Hp].
Qed.

Lemma groups_concerts_cons_banner g gs w date_elem l1 w1 l2 w2 :
  Soup.select_one (Soup.ByClass "date-banner__date") g = Some date_elem ->
  group_concerts (Soup.select (Soup.ByClass "event__content") g)
    (Soup.get_text_strip date_elem) w = (Ret l1, w1) ->
  groups_concerts gs w1 = (Ret l2, w2) ->
  groups_concerts (g :: gs) w = (Ret (l1 ++ l2)%list, w2).
Proof.
  intros Hb H1 H2. cbn [groups_concerts]. rewrite Hb.
  run_monad. rewrite H1, H2. reflexivity.
Qed.

Lemma groups_concerts_cons_no_banner g gs w :
  Soup.select_one (Soup.ByClass "date-banner__date") g = None ->
  groups_concerts (g :: gs) w = groups_concerts gs w.
Proof. intros Hb. cbn [groups_concerts]. rewrite Hb. reflexivity. Qed.

Lemma groups_concerts_app gs1 gs2 : forall w l1 w1 l2 w2,
  groups_concerts gs1 w = (Ret l1, w1) ->
  groups_concerts gs2 w1 = (Ret l2, w2) ->
  groups_concerts (gs1 ++ gs2)%list w = (Ret (l1 ++ l2)%list, w2).
Proof.
  induction gs1 as [|g gs1 IH]; intros w l1 w1 l2 w2 H1 H2.
  - cbn [groups_concerts] in H1. unfold ret in H1. inversion H1; subst.
    exact H2.
  - destruct (Soup.select_one (Soup.ByClass "date-banner__date") g)
      as [date_elem|] eqn:Hb.
    + destruct (group_concerts_returns
                  (Soup.select (Soup.ByClass "event__content") g)
                  (Soup.get_text_strip date_elem) w) as (la & wa & Ha).
      destruct (groups_concerts_returns gs1 wa) as (lb & wb & Hlb).
      rewrite (groups_concerts_cons_banner _ _ _ _ _ _ _ _ Hb Ha Hlb) in H1.
      inversion H1; subst. cbn [app].
      rewrite (groups_concerts_cons_banner g (gs1 ++ gs2) w date_elem la wa
                 (lb ++ l2)%list w2 Hb Ha (IH _ _ _ _ _ Hlb H2)).
      rewrite app_assoc. reflexivity.
    + rewrite (groups_concerts_cons_no_banner _ _ _ Hb) in H1.
      cbn [app]. rewrite (groups_concerts_cons_no_banner _ _ _ Hb).
      exact (IH _ _ _ _ _ H1 H2).
Qed.

Lemma groups_concerts_from gs : forall w l w',
  groups_concerts gs w = (Ret l, w') ->
  Forall (fun c => exists grp date_elem block wa wb,
            In grp gs /\
            Soup.select_one (Soup.ByClass "date-banner__date") grp =
              Some date_elem /\
            In block (Soup.select (Soup.ByClass "event__content") grp) /\
            parse_event block (Soup.get_text_strip date_elem) wa =
              (Ret (Some c), wb)) l.
Proof.
  induction gs as [|g gs IH]; intros w l w' H.
  - cbn [groups_concerts] in H. unfold ret in H. inversion H. constructor.
  - destruct (Soup.select_one (Soup.ByClass "date-banner__date") g)
      as [date_elem|] eqn:Hb.
    + destruct (group_concerts_returns
                  (Soup.select (Soup.ByClass "event__content") g)
                  (Soup.get_text_strip date_elem) w) as (la & wa & Ha).
      destruct (groups_concerts_returns gs wa) as (lb & wb & Hlb).
      rewrite (groups_concerts_cons_banner _ _ _ _ _ _ _ _ Hb Ha Hlb) in H.
      inversion H; subst. apply Forall_app. split.
      * eapply Forall_impl; [|exact (group_concerts_from _ _ _ _ _ Ha)].
        intros c (block & w1 & w2 & Hin & Hp).
        exists g, date_elem, block, w1, w2.
        repeat split; auto using in_eq.
      * eapply Forall_impl; [|exact (IH _ _ _ Hlb)].
        intros c (grp & de & block & w1 & w2 & Hin & Hd & Hib & Hp).
        exists grp, de, block, w1, w2. repeat split; auto using in_cons.
    + rewrite (groups_concerts_cons_no_banner _ _ _ Hb) in H.
      eapply Forall_impl; [|exact (IH _ _ _ H)].
      intros c (grp & de & block & w1 & w2 & Hin & Hd & Hib & Hp).
      exists grp, de, block, w1, w2. repeat split; auto using in_cons.
Qed.

(** X8.  Whatever the page, [fetch_concerts] returns, and every record it
    returns is the record of an event block of a date group that has a date
    banner, parsed with the text of that banner; its date is valid and in
    the zone of the venues. *)
Theorem X8_records_come_from_dated_groups soup w :
  exists l w',
    fetch_concerts soup w = (Ret l, w') /\
    Forall (fun c => from_page soup c /\ valid (date c) = true /\
                     tz (date c) = Some DC_TZ) l.
Proof.
  destruct (fetch_concerts_returns soup w) as (l & w' & H).
  exists l, w'. split; [exact H|].
  eapply Forall_impl; [|exact (groups_concerts_from _ _ _ _ H)].
  intros c (grp & de & block & w1 & w2 & Hin & Hd & Hib & Hp).
  split; [exists grp, de, block, w1, w2; auto|].
  apply parse_event_record in Hp. destruct Hp as (h & _ & Hdate & _).
  apply parse_date_resolved in Hdate.
  destruct Hdate as (m & mo & y & _ & _ & _ & Hdt & Hv).
  split; [exact Hv | rewrite Hdt; reflexivity].
Qed.

(** X9.  A date group without a date banner is skipped as a whole, events
    and all, without a reading of the clock: the records of the page are
    those of the groups before it followed by those of the groups after. *)
Theorem X9_group_without_banner_is_skipped gs1 g gs2 w :
  Soup.select_one (Soup.ByClass "date-banner__date") g = None ->
  groups_concerts (gs1 ++ g :: gs2)%list w = groups_concerts (gs1 ++ gs2)%list w.
Proof.
  intros Hb.
  destruct (groups_concerts_returns gs1 w) as (l1 & w1 & H1).
  destruct (groups_concerts_returns gs2 w1) as (l2 & w2 & H2).
  rewrite (groups_concerts_app gs1 (g :: gs2) w l1 w1 l2 w2 H1).
  - rewrite (groups_concerts_app gs1 gs2 w l1 w1 l2 w2 H1 H2). reflexivity.
  - rewrite (groups_concerts_cons_no_banner _ _ _ Hb). exact H2.
Qed.

Lemma X9_group_without_banner_is_skipped_witness :
  groups_concerts
    [Samples.band_a_group; Samples.orphan_group; Samples.last_evening_group]
    Samples.june_2025 =
  groups_concerts [Samples.band_a_group; Samples.last_evening_group]
    Samples.june_2025.
Proof.
  exact (X9_group_without_banner_is_skipped [Samples.band_a_group]
           Samples.orphan_group [Samples.last_evening_group]
           Samples.june_2025 eq_refl).
Defined.

Lemma main_unfold soup w :
  main soup w =
  match fetch_concerts soup w with
  | (Ret concerts, w1) =>
      match concerts with
      | [] =>
          (Ret ("imp_concerts.ics"%string,
                mk_calendar empty_calendar_header []), w1)
      | _ =>
          match create_calendar concerts w1 with
          | (Ret cal, w2) => (Ret ("imp_concerts.ics"%string, cal), w2)
          | (Raise e, w2) => (Raise e, w2)
          end
      end
  | (Raise e, w1) => (Raise e, w1)
  end.
Proof.
  unfold main. unfold bind at 1.
  destruct (fetch_concerts soup w) as [[concerts|e] w1]; [|reflexivity].
  destruct concerts; [reflexivity|].
  cbn [list_truthy]. unfold bind, ret.
  destruct (create_calendar (c :: concerts) w1) as [[cal|e] w2]; reflexivity.
Qed.

(** X10.  What [main] writes: the path is imp_concerts.ics, the calendar
    has one entry per extracted record, and it carries the X-WR-TIMEZONE
    header exactly when at least one record was extracted: the calendar
    written for an empty result has the other five headers only. *)
Theorem X10_written_calendar soup w path cal w' :
  main soup w = (Ret (path, cal), w') ->
  path = "imp_concerts.ics"%string /\
  exists concerts w1,
    fetch_concerts soup w = (Ret concerts, w1) /\
    List.length (subcomponents cal) = List.length concerts /\
    (concerts = [] ->
     cal_properties cal = empty_calendar_header /\
     prop "x-wr-timezone" (cal_properties cal) = None) /\
    (concerts <> [] ->
     cal_properties cal = calendar_header /\
     prop "x-wr-timezone" (cal_properties cal) =
       Some (VText "America/New_York")).
Proof.
  rewrite main_unfold.
  destruct (fetch_concerts soup w) as [[concerts|e] w1]; [|discriminate].
  destruct concerts as [|c cs].
  - intros H. inversion H; subst. split; [reflexivity|].
    exists [], w'. repeat split; auto; congruence.
  - rewrite create_calendar_unfold.
    destruct (create_events (c :: cs) w1) as [[entries|e] w2] eqn:He;
      [|discriminate].
    intros H. inversion H; subst. split; [reflexivity|].
    exists (c :: cs), w1. split; [reflexivity|].
    split; [symmetry; exact (Forall2_length (create_events_entries _ _ _ _ He))|].
    split; [discriminate|]. intros _. split; reflexivity.
Qed.

Lemma X10_written_calendar_witness :
  (exists concerts w1,
     fetch_concerts Samples.empty_page Samples.june_2025 = (Ret concerts, w1) /\
     0%nat = List.length concerts) /\
  (exists cal w',
     main Samples.band_a_page Samples.june_2025 =
       (Ret ("imp_concerts.ics"%string, cal), w') /\
     List.length (subcomponents cal) = 1%nat).
Proof.
  split.
  - destruct (X10_written_calendar Samples.empty_page Samples.june_2025
                "imp_concerts.ics"%string
                (mk_calendar empty_calendar_header []) Samples.june_2025
                eq_refl) as (_ & concerts & w1 & Hf & Hl & _).
    exists concerts, w1. split; [exact Hf | exact Hl].
  - destruct (main Samples.band_a_page Samples.june_2025)
      as [[[path cal]|e] w'] eqn:E.
    + destruct (X10_written_calendar _ _ _ _ _ E)
        as (-> & concerts & w1 & Hf & Hl & _).
      exists cal, w'. split; [reflexivity|].
      rewrite Hl. vm_compute in Hf. inversion Hf. reflexivity.
    + vm_compute in E. discriminate.
Defined.

(** X11.  [main] fails in one case only: it raises [OverflowError] when an
    extracted record starts at 9999-12-31 21:00 or later, and otherwise it
    returns the calendar to write, for every page. *)
Theorem X11_main_fails_only_on_overflow soup w :
  exists concerts w1,
    fetch_concerts soup w = (Ret concerts, w1) /\
    ((Forall (fun c => PyDate.lt (date c) last_start = true) concerts /\
      exists cal w', main soup w = (Ret ("imp_concerts.ics"%string, cal), w')) \/
     (Exists (fun c => PyDate.lt (date c) last_start = false) concerts /\
      exists w', main soup w = (Raise OverflowError, w'))).
Proof.
  destruct (fetch_concerts_returns soup w) as (concerts & w1 & Hf).
  exists concerts, w1. split; [exact Hf|].
  assert (Hv : Forall (fun c => valid (date c) = true) concerts).
  { eapply Forall_impl; [|exact (groups_concerts_from _ _ _ _ Hf)].
    intros c (grp & de & block & wa & wb & _ & _ & _ & Hp).
    apply parse_event_record in Hp. destruct Hp as (h & _ & Hdate & _).
    apply parse_date_resolved in Hdate.
    destruct Hdate as (m & mo & y & _ & _ & _ & _ & Hvalid). exact Hvalid. }
  rewrite main_unfold, Hf.
  destruct (Forall_Exists_dec
              (fun c => PyDate.lt (date c) last_start = true)
              (fun c => bool_dec (PyDate.lt (date c) last_start) true)
              concerts) as [Hall|Hex].
  - left. split; [exact Hall|].
    destruct concerts as [|c cs]; [eauto|].
    assert (Hadd : Forall (fun c => exists r,
                             PyDate.add (date c) (timedelta_hours 3) = Ret r)
                     (c :: cs)).
    { apply Forall_forall. intros x Hx.
      apply add_three_hours_returns.
      - exact (proj1 (Forall_forall _ _) Hv x Hx).
      - exact (proj1 (Forall_forall _ _) Hall x Hx). }
    destruct (create_events_returns (c :: cs) w1 Hadd) as (es & w2 & He).
    rewrite create_calendar_unfold, He. eauto.
  - right.
    assert (Hex' : Exists (fun c => PyDate.lt (date c) last_start = false)
                     concerts).
    { eapply Exists_impl; [|exact Hex]. intros c Hc.
      apply not_true_is_false. exact Hc. }
    split; [exact Hex'|].
    apply Exists_exists in Hex'. destruct Hex' as (c & Hin & Hlate).
    destruct (create_events_overflow concerts c w1 Hv Hin Hlate) as [w2 H2].
    destruct concerts as [|c0 cs]; [destruct Hin|].
    rewrite create_calendar_unfold, H2. eauto.
Qed.

(* ===================================================================== *)
(** ** The shape of the identifier *)
(* ===================================================================== *)

Lemma hex_digit_lower n :
  0 <= n < 16 -> is_hex_lower (Md5.hex_digit n) = true.
Proof.
  intros H.
  assert (A : forallb (fun k => is_hex_lower (Md5.hex_digit (Z.of_nat k)))
                      (seq 0 16) = true) by reflexivity.
  rewrite forallb_forall in A.
  rewrite <- (Z2Nat.id n) by lia. apply A, in_seq. lia.
Qed.

Lemma hex_byte_lower x n rest :
  all_at is_hex_lower n rest = true ->
  all_at is_hex_lower (S (S n)) (Md5.hex_byte (x mod 256) rest) = true.
Proof.
  intros H. unfold Md5.hex_byte. cbn [all_at].
  rewrite !hex_digit_lower, H; [reflexivity| |];
    Z.div_mod_to_equations; lia.
Qed.

Lemma hex_word_lower w n rest :
  all_at is_hex_lower n rest = true ->
  all_at is_hex_lower (8 + n) (Md5.hex_word w rest) = true.
Proof.
  intros H. unfold Md5.hex_word.
  apply hex_byte_lower, hex_byte_lower, hex_byte_lower, hex_byte_lower.
  exact H.
Qed.

(** X12.  The identifier of every record is 44 characters long: 32
    lower-case hexadecimal digits followed by "@impconcerts". *)
Theorem X12_uid_is_32_hex_digits_and_suffix c :
  exists digest,
    generate_uid c = (digest ++ "@impconcerts")%string /\
    String.length digest = 32%nat /\
    all_at is_hex_lower 32 digest = true.
Proof.
  exists (Md5.hexdigest (unique_str c)).
  split; [reflexivity|]. split; [apply hexdigest_length|].
  unfold Md5.hexdigest.
  destruct (Md5.digest (unique_str c)) as [[[a b] d] e].
  apply (hex_word_lower a 24), (hex_word_lower b 16),
    (hex_word_lower d 8), (hex_word_lower e 0).
  reflexivity.
Qed.

(* ===================================================================== *)
(** ** What the matcher finds *)
(* ===================================================================== *)

Lemma append_assoc (a b c : string) : ((a ++ b) ++ c = a ++ b ++ c)%string.
Proof. induction a as [|x a IH]; cbn [append]; [|rewrite IH]; reflexivity. Qed.

Lemma take_drop n : forall s, s = (PyStr.take n s ++ PyStr.drop n s)%string.
Proof.
  induction n as [|n IH]; intros [|c s]; cbn [PyStr.take PyStr.drop append];
    try reflexivity.
  rewrite <- IH. reflexivity.
Qed.

Lemma drop_app a r : PyStr.drop (String.length a) (a ++ r) = r.
Proof. induction a as [|x a IH]; cbn; [destruct r|]; auto. Qed.

Lemma take_app a r : PyStr.take (String.length a) (a ++ r) = a.
Proof. induction a as [|x a IH]; cbn; [destruct r|rewrite IH]; auto. Qed.

Lemma consumed_app a r : Re.consumed (a ++ r) r = a.
Proof.
  unfold Re.consumed. rewrite length_append.
  replace (String.length a + String.length r - String.length r)%nat
    with (String.length a) by lia.
  apply take_app.
Qed.

Lemma all_at_app p n : forall a r,
  all_at p n a = true -> all_at p n (a ++ r) = true.
Proof.
  induction n as [|n IH]; intros [|c a] r H; cbn [all_at append] in *;
    try reflexivity; try discriminate.
  apply andb_true_iff in H. destruct H as [-> H]. exact (IH _ _ H).
Qed.

Lemma all_at_take p n : forall s,
  all_at p n s = true ->
  String.length (PyStr.take n s) = n /\ all_at p n (PyStr.take n s) = true.
Proof.
  induction n as [|n IH]; intros [|c s] H; cbn [all_at PyStr.take] in *;
    try discriminate; auto.
  apply andb_true_iff in H. destruct H as [Hc H].
  destruct (IH _ H) as [L A]. cbn [String.length all_at].
  rewrite L, Hc, A. auto.
Qed.

Lemma all_digits_all_at s :
  PyStr.all_digits s = all_at PyStr.is_digit (String.length s) s.
Proof. induction s as [|c s IH]; cbn; [|rewrite IH]; reflexivity. Qed.

(** A repetition that succeeds took some number of characters of the
    class, within its bounds, and the rest of the pattern matched what
    follows them. *)
Lemma rep_some {R} p s : forall lo hi (k : string -> option R) r,
  Re.rep p lo hi s k = Some r ->
  exists n,
    (lo <= n)%nat /\
    match hi with Some h => (n <= h)%nat | None => True end /\
    all_at p n s = true /\ k (PyStr.drop n s) = Some r.
Proof.
  assert (Stop : forall s0 lo hi (k : string -> option R) r,
             (if (lo =? 0)%nat then k s0 else None) = Some r ->
             exists n,
               (lo <= n)%nat /\
               match hi with Some h => (n <= h)%nat | None => True end /\
               all_at p n s0 = true /\ k (PyStr.drop n s0) = Some r).
  { intros s0 lo hi k r H. destruct (Nat.eqb_spec lo 0); [|discriminate].
    exists 0%nat. subst lo. repeat split; auto.
    destruct hi; [lia | exact I]. }
  induction s as [|c s IH]; intros lo hi k r H; cbn [Re.rep] in H.
  - exact (Stop _ _ _ _ _ H).
  - destruct (p c && Re.more hi) eqn:E; [|exact (Stop _ _ _ _ _ H)].
    destruct (Re.rep p (pred lo) (Re.less hi) s k) as [r'|] eqn:Er;
      [|exact (Stop _ _ _ _ _ H)].
    inversion H; subst r'. apply andb_true_iff in E. destruct E as [Ec Em].
    destruct (IH _ _ _ _ Er) as (n & Hlo & Hhi & Ha & Hk).
    exists (S n). repeat split.
    + lia.
    + destruct hi as [[|h]|]; cbn in *; try discriminate; try lia.
    + cbn [all_at]. rewrite Ec, Ha. reflexivity.
    + exact Hk.
Qed.

(** A repetition takes as many characters as it may: when the class holds
    for [n] characters and stops there, and the rest of the pattern matches
    what follows them, that is the match. *)
Lemma rep_max {R} p n : forall s lo hi (k : string -> option R) r,
  all_at p n s = true ->
  (lo <= n)%nat ->
  match hi with Some h => (n <= h)%nat | None => True end ->
  hi = Some n \/ all_at p 1 (PyStr.drop n s) = false ->
  k (PyStr.drop n s) = Some r ->
  Re.rep p lo hi s k = Some r.
Proof.
  induction n as [|n IH]; intros s lo hi k r Ha Hlo Hhi Hstop Hk.
  - assert (lo = 0)%nat by lia. subst lo.
    destruct s as [|c s]; cbn [Re.rep PyStr.drop Nat.eqb] in *; [exact Hk|].
    destruct Hstop as [->|Hs].
    + rewrite andb_false_r. exact Hk.
    + cbn [all_at] in Hs. rewrite andb_true_r in Hs. rewrite Hs. exact Hk.
  - destruct s as [|c s]; cbn [all_at] in Ha; [discriminate|].
    apply andb_true_iff in Ha. destruct Ha as [Hc Ha].
    cbn [Re.rep]. rewrite Hc.
    assert (Hm : Re.more hi = true)
      by (destruct hi as [[|h]|]; [lia | reflexivity | reflexivity]).
    rewrite Hm. cbn [andb].
    rewrite (IH s (pred lo) (Re.less hi) k r Ha); [reflexivity | lia | | | exact Hk].
    + destruct hi as [h|]; cbn [Re.less]; [lia | exact I].
    + destruct Hstop as [->|Hs]; [left; reflexivity | right; exact Hs].
Qed.

(** A search that succeeds matched at the start of some suffix. *)
Lemma re_search_some r s g :
  Re.re_search r s = Some g ->
  exists pre s', s = (pre ++ s')%string /\ Re.re_match r s' = Some g.
Proof.
  induction s as [|c s IH]; cbn [Re.re_search].
  - destruct (Re.re_match r "") eqn:E; [|discriminate].
    intros H. inversion H; subst. exists EmptyString, EmptyString. auto.
  - destruct (Re.re_match r (String c s)) eqn:E.
    + intros H. inversion H; subst. exists EmptyString, (String c s). auto.
    + intros H. destruct (IH H) as (pre & s' & -> & Hm).
      exists (String c pre), s'. auto.
Qed.

(** [(am|pm)] matches two letters, in either case. *)
Lemma am_pm_some {R} s g (k : string -> Re.groups -> option R) r :
  Re.run Re.am_pm s g k = Some r ->
  exists ap rest,
    s = (ap ++ rest)%string /\ half_day ap /\ k rest g = Some r.
Proof.
  unfold Re.am_pm, Re.lit_i. cbn [Re.run].
  destruct s as [|x [|y rest]]; try discriminate.
  - destruct (Ascii.eqb (PyStr.to_lower x) (PyStr.to_lower "a"));
      destruct (Ascii.eqb (PyStr.to_lower x) (PyStr.to_lower "p"));
      discriminate.
  - intros H. exists (String x (String y EmptyString)), rest.
    split; [reflexivity|]. unfold half_day. cbn [String.length PyStr.lower].
    destruct (Ascii.eqb (PyStr.to_lower x) (PyStr.to_lower "a")) eqn:Ea;
      destruct (Ascii.eqb (PyStr.to_lower y) (PyStr.to_lower "m")) eqn:Em;
      destruct (Ascii.eqb (PyStr.to_lower x) (PyStr.to_lower "p")) eqn:Ep;
      cbn beta iota in H; try discriminate;
      try (apply Ascii.eqb_eq in Ea); try (apply Ascii.eqb_eq in Em);
      try (apply Ascii.eqb_eq in Ep).
    + rewrite Ea in Ep. discriminate.
    + rewrite Ea, Em. split; [split; [reflexivity | left; reflexivity]|].
      destruct (k rest g); [exact H | discriminate].
    + rewrite Ep, Em. split; [split; [reflexivity | right; reflexivity]|].
      exact H.
Qed.

Lemma am_pm_match {R} ap rest g (k : string -> Re.groups -> option R) :
  half_day ap -> Re.run Re.am_pm (ap ++ rest) g k = k rest g.
Proof.
  intros [Hl Hap].
  destruct ap as [|x [|y [|z ap]]]; try discriminate.
  unfold Re.am_pm, Re.lit_i. cbn [Re.run append].
  cbn [PyStr.lower] in Hap.
  destruct Hap as [Hap|Hap]; inversion Hap as [[Hx Hy]]; rewrite Hx, Hy.
  - change (Ascii.eqb "a" (PyStr.to_lower "a")) with true.
    change (Ascii.eqb "m" (PyStr.to_lower "m")) with true.
    cbn [andb]. destruct (k rest g) eqn:E; [reflexivity|].
    change (Ascii.eqb "a" (PyStr.to_lower "p")) with false. reflexivity.
  - change (Ascii.eqb "p" (PyStr.to_lower "a")) with false.
    change (Ascii.eqb "p" (PyStr.to_lower "p")) with true.
    change (Ascii.eqb "m" (PyStr.to_lower "m")) with true.
    reflexivity.
Qed.

(** What [(\d{1,2}:\d{2})\s*(am|pm)] matches at the start of a text. *)
Lemma doors_text_match s g :
  Re.re_match doors_text_re s = Some g ->
  exists a b ws ap rest,
    s = (a ++ ":" ++ b ++ ws ++ ap ++ rest)%string /\
    door_digits a b /\ all_space ws = true /\ half_day ap /\
    g = [(2%nat, ap); (1%nat, (a ++ ":" ++ b)%string)].
Proof.
  unfold Re.re_match, doors_text_re, Re.d_, Re.s_star, Re.lit.
  cbn [Re.run]. intros H.
  apply rep_some in H. destruct H as (n & Hlo & Hhi & Ha & H).
  destruct (PyStr.drop n s) as [|c s2] eqn:Ed; [discriminate|].
  destruct (Ascii.eqb_spec ":" c) as [<-|_]; [|discriminate].
  rewrite rep_exact in H.
  destruct (all_at PyStr.is_digit 2 s2) eqn:Ab; [|discriminate].
  apply rep_some in H. destruct H as (n2 & _ & _ & Aw & H).
  apply am_pm_some in H. destruct H as (ap & rest & Eap & Hap & H).
  injection H as <-.
  destruct (all_at_take _ _ _ Ha) as [La Da].
  destruct (all_at_take _ _ _ Ab) as [Lb Db].
  destruct (all_at_take _ _ _ Aw) as [Lw Dw].
  assert (Es : s = ((PyStr.take n s ++ ":" ++ PyStr.take 2 s2) ++
                    PyStr.drop 2 s2)%string).
  { rewrite append_assoc. cbn [append].
    rewrite <- (take_drop 2 s2), <- Ed. apply take_drop. }
  assert (E3 : PyStr.drop 2 s2 =
               (PyStr.take n2 (PyStr.drop 2 s2) ++ ap ++ rest)%string).
  { rewrite <- Eap. apply take_drop. }
  exists (PyStr.take n s), (PyStr.take 2 s2),
    (PyStr.take n2 (PyStr.drop 2 s2)), ap, rest.
  split; [|split; [|split; [|split]]].
  - rewrite Es at 1. rewrite append_assoc. cbn [append].
    rewrite E3 at 1. reflexivity.
  - unfold door_digits. rewrite !all_digits_all_at, La, Lb. auto.
  - unfold all_space. rewrite Lw. exact Dw.
  - exact Hap.
  - f_equal; [f_equal | f_equal; f_equal].
    + change (Re.consumed (PyStr.drop n2 (PyStr.drop 2 s2)) rest = ap).
      rewrite Eap. apply consumed_app.
    + change (Re.consumed s (PyStr.drop 2 s2) =
              (PyStr.take n s ++ ":" ++ PyStr.take 2 s2)%string).
      rewrite Es at 1. apply consumed_app.
Qed.

Lemma space_not_upper c : PyStr.is_space c = true -> PyStr.is_upper c = false.
Proof.
  unfold PyStr.is_space, PyStr.is_upper, PyStr.in_range.
  intros H. apply orb_true_iff in H.
  destruct H as [H|H]; apply andb_true_iff in H; destruct H as [H1 H2];
    apply Nat.leb_le in H1; apply Nat.leb_le in H2;
    apply andb_false_iff; left; apply Nat.leb_gt; lia.
Qed.

Lemma half_day_not_space ap :
  half_day ap -> all_at PyStr.is_space 1 ap = false.
Proof.
  intros [Hl Hap]. destruct ap as [|x ap]; [reflexivity|].
  cbn [all_at]. rewrite andb_true_r.
  destruct (PyStr.is_space x) eqn:Ex; [exfalso|reflexivity].
  assert (Hx : PyStr.to_lower x = x)
    by (unfold PyStr.to_lower; rewrite (space_not_upper x Ex); reflexivity).
  cbn [PyStr.lower] in Hap. rewrite Hx in Hap.
  destruct Hap as [Hap|Hap]; inversion Hap; subst x; discriminate.
Qed.

Lemma consumed_nil s : Re.consumed s "" = s.
Proof.
  rewrite <- (append_nil_r s) at 1. apply consumed_app.
Qed.

(** What [(\d{1,2}):(\d{2})\s*(am|pm)] finds in a door time. *)
Lemma door_time_match a b ws ap :
  door_digits a b -> all_space ws = true -> half_day ap ->
  Re.re_match door_time_re (a ++ ":" ++ b ++ ws ++ ap) =
  Some [(3%nat, ap); (2%nat, b); (1%nat, a)].
Proof.
  intros ((La1 & La2) & Da & Lb & Db) Hws Hap.
  rewrite all_digits_all_at in Da, Db. unfold all_space in Hws.
  unfold Re.re_match, door_time_re, Re.d_, Re.s_star, Re.lit.
  cbn [Re.run].
  apply (rep_max _ (String.length a)).
  - apply all_at_app. exact Da.
  - exact La1.
  - exact La2.
  - right. rewrite drop_app. reflexivity.
  - rewrite drop_app. cbn [append]. cbn beta iota.
    change (Ascii.eqb ":" ":") with true. cbn iota.
    rewrite rep_exact. rewrite <- Lb at 1.
    rewrite (all_at_app _ _ b (ws ++ ap) Db).
    rewrite <- Lb at 1. rewrite drop_app.
    apply (rep_max _ (String.length ws)).
    + apply all_at_app. exact Hws.
    + lia.
    + exact I.
    + right. rewrite drop_app. apply half_day_not_space. exact Hap.
    + rewrite drop_app.
      rewrite <- (append_nil_r ap) at 1.
      rewrite am_pm_match by exact Hap.
      rewrite consumed_nil, consumed_app.
      rewrite consumed_drop by (rewrite length_append; lia).
      rewrite <- Lb, take_app. reflexivity.
Qed.

(** X13.  From a doors element of ASCII text, the door time that
    [parse_event] extracts is always one that [parse_date] understands: it
    is the hour digits, a colon, the minute digits, one space and am or pm
    as written, and the door-time pattern of [parse_date] finds exactly
    those three parts in it, so the 20:00 default never replaces an
    extracted door time. *)
Theorem X13_extracted_door_time_is_understood block t :
  isascii (doors_text block) = true ->
  parse_door_time block = Some t ->
  exists a b ap,
    t = (a ++ ":" ++ b ++ " " ++ ap)%string /\
    door_digits a b /\ half_day ap /\
    Re.re_match door_time_re t = Some [(3%nat, ap); (2%nat, b); (1%nat, a)].
Proof.
  intros _. unfold parse_door_time.
  destruct (Soup.select_one (Soup.ByClass "event__doors") block)
    as [doors_elem|]; [|discriminate].
  destruct (Re.re_search doors_text_re (Soup.get_text_strip doors_elem))
    as [g|] eqn:Es; [|discriminate].
  intros H. injection H as <-.
  apply re_search_some in Es. destruct Es as (pre & s' & _ & Hm).
  apply doors_text_match in Hm.
  destruct Hm as (a & b & ws & ap & rest & _ & Hab & _ & Hap & ->).
  exists a, b, ap. cbn [Re.group Nat.eqb].
  cbn [append]. rewrite append_assoc. cbn [append].
  repeat split; try apply Hab; try apply Hap.
  apply (door_time_match a b " " ap Hab eq_refl Hap).
Qed.

Lemma X13_extracted_door_time_is_understood_witness :
  isascii (doors_text Samples.band_a_block) = true /\
  parse_door_time Samples.band_a_block = Some "7:00 pm"%string /\
  exists a b ap,
    "7:00 pm"%string = (a ++ ":" ++ b ++ " " ++ ap)%string /\
    door_digits a b /\ half_day ap /\
    Re.re_match door_time_re "7:00 pm" =
      Some [(3%nat, ap); (2%nat, b); (1%nat, a)].
Proof.
  split; [reflexivity|]. split; [reflexivity|].
  exact (X13_extracted_door_time_is_understood Samples.band_a_block
           "7:00 pm" eq_refl eq_refl).
Defined.

Lemma truthy_app a r :
  (1 <= String.length a)%nat -> PyStr.truthy (a ++ r) = true.
Proof. destruct a; cbn; [lia | reflexivity]. Qed.

(** X14.  The 12-hour conversion: for an hour from 1 to 12, a door time
    H:MM followed by am or pm, in either case and after any white space,
    gives the hour H mod 12, plus 12 for pm, and the minute MM. *)
Theorem X14_twelve_hour_conversion a b ws ap :
  door_digits a b -> all_space ws = true -> half_day ap ->
  1 <= PyStr.int a <= 12 ->
  door_hour_minute (Some (a ++ ":" ++ b ++ ws ++ ap)%string) =
  (PyStr.int a mod 12 + (if String.eqb (PyStr.lower ap) "pm" then 12 else 0),
   PyStr.int b).
Proof.
  intros Hab Hws Hap Hh. unfold door_hour_minute.
  rewrite truthy_app by apply Hab.
  rewrite (door_time_match a b ws ap Hab Hws Hap).
  cbn [Re.group Nat.eqb].
  destruct Hap as [_ [-> | ->]]; cbn [String.eqb Ascii.eqb Bool.eqb andb];
    change (String.eqb "am" "pm") with false;
    change (String.eqb "am" "am") with true;
    change (String.eqb "pm" "pm") with true;
    change (String.eqb "pm" "am") with false;
    cbn [andb negb];
    destruct (Z.eqb_spec (PyStr.int a) 12) as [E|E]; cbn [negb andb];
    f_equal; try (rewrite E; reflexivity);
    rewrite Z.mod_small by lia; lia.
Qed.

Lemma X14_twelve_hour_conversion_witness :
  door_hour_minute (Some "12:05   AM"%string) = (0, 5) /\
  door_hour_minute (Some "9:30pm"%string) = (21, 30).
Proof.
  split.
  - apply (X14_twelve_hour_conversion "12" "05" "   " "AM").
    + repeat split; try reflexivity; cbn; lia.
    + reflexivity.
    + split; [reflexivity | left; reflexivity].
    + change (1 <= 12 <= 12). lia.
  - apply (X14_twelve_hour_conversion "9" "30" "" "pm").
    + repeat split; try reflexivity; cbn; lia.
    + reflexivity.
    + split; [reflexivity | right; reflexivity].
    + change (1 <= 9 <= 12). lia.
Defined.

(* ===================================================================== *)
(** ** The openers *)
(* ===================================================================== *)

Lemma lstrip_head s :
  PyStr.lstrip s = EmptyString \/
  exists c r, PyStr.lstrip s = String c r /\ PyStr.is_space c = false.
Proof.
  induction s as [|c s IH]; [left; reflexivity|].
  cbn [PyStr.lstrip]. destruct (PyStr.is_space c) eqn:E; [exact IH|].
  right. exists c, s. auto.
Qed.

Lemma rstrip_head c r :
  PyStr.is_space c = false ->
  PyStr.rstrip (String c r) = String c (PyStr.rstrip r).
Proof.
  intros H. rewrite rstrip_cons, H. destruct (PyStr.rstrip r); reflexivity.
Qed.

Lemma rstrip_idempotent s : PyStr.rstrip (PyStr.rstrip s) = PyStr.rstrip s.
Proof.
  induction s as [|c s IH]; [reflexivity|].
  destruct (rstrip_cases c s) as [(E & _ & _) | E]; rewrite E; [reflexivity|].
  destruct (rstrip_cases c (PyStr.rstrip s)) as [(E' & Ec & Es) | E'].
  - rewrite IH in Es. rewrite rstrip_cons, Es, Ec in E. discriminate.
  - rewrite E', IH. reflexivity.
Qed.

(** [s.strip().strip() == s.strip()]. *)
Lemma strip_idempotent s : PyStr.strip (PyStr.strip s) = PyStr.strip s.
Proof.
  unfold PyStr.strip.
  destruct (lstrip_head s) as [E | (c & r & E & Hc)]; rewrite E.
  - reflexivity.
  - rewrite (rstrip_head c r Hc). cbn [PyStr.lstrip]. rewrite Hc.
    rewrite <- (rstrip_head c r Hc). apply rstrip_idempotent.
Qed.

Lemma rstrip_prefix s : exists ws, s = (PyStr.rstrip s ++ ws)%string.
Proof.
  induction s as [|c s [ws IH]]; [exists EmptyString; reflexivity|].
  destruct (rstrip_cases c s) as [(E & _ & Es) | E]; rewrite E.
  - exists (String c s). reflexivity.
  - exists ws. cbn [append]. rewrite <- IH. reflexivity.
Qed.

Lemma startswith_app p : forall a r,
  PyStr.startswith p a = true -> PyStr.startswith p (a ++ r) = true.
Proof.
  induction p as [|x p IH]; intros a r H; [destruct (a ++ r)%string; reflexivity|].
  destruct a as [|y a]; cbn [PyStr.startswith append] in *; [discriminate|].
  apply andb_true_iff in H. destruct H as [-> H]. exact (IH _ _ H).
Qed.

Lemma startswith_nil p : PyStr.truthy p = true -> PyStr.startswith p "" = false.
Proof. destruct p; [discriminate | reflexivity]. Qed.

Lemma contains_app p : forall a r,
  PyStr.contains p a = true -> PyStr.contains p (a ++ r) = true.
Proof.
  induction a as [|c a IH]; intros r H.
  - cbn [PyStr.contains] in H. rewrite orb_false_r in H.
    destruct p; [|discriminate]. destruct (""  ++ r)%string; reflexivity.
  - cbn [PyStr.contains append] in *. apply orb_true_iff in H.
    apply orb_true_iff. destruct H as [H|H].
    + left. exact (startswith_app p (String c a) r H).
    + right. exact (IH r H).
Qed.

Lemma contains_lstrip p s :
  PyStr.contains p (PyStr.lstrip s) = true -> PyStr.contains p s = true.
Proof.
  induction s as [|c s IH]; [auto|].
  cbn [PyStr.lstrip]. destruct (PyStr.is_space c); [|auto].
  intros H. cbn [PyStr.contains]. rewrite (IH H). apply orb_true_r.
Qed.

(** What is not in a text is not in the stripped text. *)
Lemma contains_strip p s :
  PyStr.contains p s = false -> PyStr.contains p (PyStr.strip s) = false.
Proof.
  intros H. apply not_true_is_false. intros Hc. unfold PyStr.strip in Hc.
  destruct (rstrip_prefix (PyStr.lstrip s)) as [ws E].
  apply (contains_app p _ ws) in Hc. rewrite <- E in Hc.
  apply contains_lstrip in Hc. congruence.
Qed.

(** An occurrence is a position where the text starts with the pattern. *)
Lemma contains_position p : forall s,
  PyStr.contains p s = true ->
  exists i, (i <= String.length s)%nat /\
            PyStr.startswith p (PyStr.drop i s) = true.
Proof.
  induction s as [|c s IH]; cbn [PyStr.contains]; intros H.
  - rewrite orb_false_r in H. exists 0%nat. auto.
  - apply orb_true_iff in H. destruct H as [H|H].
    + exists 0%nat. split; [lia | exact H].
    + destruct (IH H) as (i & Hi & Hs). exists (S i).
      split; [cbn; lia | exact Hs].
Qed.

Lemma drop_app_le i : forall a r,
  (i <= String.length a)%nat ->
  PyStr.drop i (a ++ r) = (PyStr.drop i a ++ r)%string.
Proof.
  induction i as [|i IH]; intros a r H; [reflexivity|].
  destruct a as [|c a]; cbn in H; [lia|].
  cbn [append PyStr.drop]. apply IH. lia.
Qed.

Lemma drop_all s : PyStr.drop (String.length s) s = EmptyString.
Proof. induction s; cbn; auto. Qed.

Lemma match_sep_none seps s :
  PyStr.match_sep seps s = None ->
  forall sep, In sep seps -> PyStr.truthy sep = true ->
              PyStr.startswith sep s = false.
Proof.
  induction seps as [|x seps IH]; cbn [PyStr.match_sep]; intros H sep Hin Ht;
    [destruct Hin|].
  destruct (PyStr.truthy x && PyStr.startswith x s) eqn:E; [discriminate|].
  destruct Hin as [<-|Hin]; [|exact (IH H sep Hin Ht)].
  rewrite Ht in E. exact E.
Qed.

Lemma startswith_length p : forall s,
  PyStr.startswith p s = true -> (String.length p <= String.length s)%nat.
Proof.
  induction p as [|x p IH]; intros [|y s] H; cbn in *; try lia;
    try discriminate.
  apply andb_true_iff in H. destruct H as [_ H]. apply IH in H. lia.
Qed.

Lemma match_sep_some seps s s' :
  PyStr.match_sep seps s = Some s' ->
  (String.length s' < String.length s)%nat.
Proof.
  induction seps as [|x seps IH]; cbn [PyStr.match_sep]; [discriminate|].
  destruct (PyStr.truthy x && PyStr.startswith x s) eqn:E; [|exact IH].
  apply andb_true_iff in E. destruct E as [Ht Hs].
  intros H. injection H as <-. rewrite length_drop.
  apply startswith_length in Hs. destruct x; [discriminate|]. cbn in *. lia.
Qed.

(** No piece of a split holds a separator. *)
Lemma split_fuel_clean seps fuel : forall cur s,
  (String.length s < fuel)%nat ->
  (forall sep, In sep seps -> PyStr.truthy sep = true ->
     forall i, (i < String.length cur)%nat ->
       PyStr.startswith sep (PyStr.drop i (cur ++ s)) = false) ->
  forall piece, In piece (PyStr.split_fuel fuel seps cur s) ->
  forall sep, In sep seps -> PyStr.truthy sep = true ->
    PyStr.contains sep piece = false.
Proof.
  assert (Cur : forall cur s,
    (forall sep, In sep seps -> PyStr.truthy sep = true ->
       forall i, (i < String.length cur)%nat ->
         PyStr.startswith sep (PyStr.drop i (cur ++ s)) = false) ->
    forall sep, In sep seps -> PyStr.truthy sep = true ->
      PyStr.contains sep cur = false).
  { intros cur s Inv sep Hin Ht. apply not_true_is_false. intros Hc.
    apply contains_position in Hc. destruct Hc as (i & Hi & Hs).
    destruct (Nat.eq_dec i (String.length cur)) as [->|Hne].
    - rewrite drop_all, (startswith_nil sep Ht) in Hs. discriminate.
    - specialize (Inv sep Hin Ht i ltac:(lia)).
      rewrite drop_app_le in Inv by lia.
      rewrite (startswith_app _ _ s Hs) in Inv. discriminate. }
  induction fuel as [|f IH]; intros cur s Hf Inv piece Hp sep Hin Ht; [lia|].
  cbn [PyStr.split_fuel] in Hp.
  destruct (PyStr.match_sep seps s) as [s'|] eqn:Em.
  - destruct Hp as [<-|Hp]; [exact (Cur cur s Inv sep Hin Ht)|].
    apply (IH EmptyString s'); auto.
    + apply match_sep_some in Em. lia.
    + intros ? ? ? i Hi. cbn in Hi. lia.
  - destruct s as [|c s'].
    + destruct Hp as [<-|[]]. exact (Cur cur EmptyString Inv sep Hin Ht).
    + apply (IH (cur ++ String c EmptyString)%string s'); auto.
      * cbn in Hf. lia.
      * intros sep0 Hin0 Ht0 i Hi.
        rewrite append_assoc. cbn [append].
        rewrite length_append in Hi. cbn in Hi.
        destruct (Nat.eq_dec i (String.length cur)) as [->|Hne].
        -- rewrite drop_app. exact (match_sep_none _ _ Em sep0 Hin0 Ht0).
        -- apply (Inv sep0 Hin0 Ht0). lia.
Qed.

(** X15.  Every opener of a block is a non-empty text with no white space
    around it and none of the three separators (bullet, comma, ampersand)
    in it. *)
Theorem X15_openers_are_clean block o :
  In o (parse_openers block) ->
  o <> EmptyString /\ PyStr.strip o = o /\
  PyStr.contains bullet o = false /\
  PyStr.contains "," o = false /\
  PyStr.contains "&" o = false.
Proof.
  unfold parse_openers.
  destruct (Soup.select_one (Soup.ByTag "h4") block) as [opener_elem|];
    [|intros []].
  intros H. apply in_map_iff in H. destruct H as (piece & <- & H).
  apply filter_In in H. destruct H as [Hin Ht].
  assert (Clean : forall sep, In sep [bullet; ","; "&"]%string ->
                    PyStr.contains sep (PyStr.strip piece) = false).
  { intros sep Hs. apply contains_strip.
    unfold PyStr.split_on in Hin.
    eapply split_fuel_clean; [| |exact Hin|exact Hs|].
    - apply Nat.lt_succ_diag_r.
    - intros ? ? ? i Hi. cbn in Hi. lia.
    - cbn [In] in Hs. destruct Hs as [<-|[<-|[<-|[]]]]; reflexivity. }
  split; [|split; [apply strip_idempotent|]].
  - destruct (PyStr.strip piece); [discriminate | congruence].
  - repeat split; apply Clean; cbn [In]; auto.
Qed.

Lemma X15_openers_are_clean_witness :
  "Support One"%string <> EmptyString /\
  PyStr.strip "Support One" = "Support One"%string /\
  PyStr.contains bullet "Support One" = false /\
  PyStr.contains "," "Support One" = false /\
  PyStr.contains "&" "Support One" = false.
Proof.
  apply (X15_openers_are_clean Samples.band_a_block "Support One").
  left. reflexivity.
Defined.

(* ===================================================================== *)
(** ** Labels that cannot match *)
(* ===================================================================== *)

Lemma count_space_app a b :
  count_space (a ++ b) = (count_space a + count_space b)%nat.
Proof. induction a as [|c a IH]; cbn; [|rewrite IH]; lia. Qed.

Lemma count_space_drop n s : (count_space (PyStr.drop n s) <= count_space s)%nat.
Proof.
  rewrite (take_drop n s) at 2. rewrite count_space_app. lia.
Qed.

Lemma count_space_run n : forall s,
  all_at PyStr.is_space n s = true ->
  (n + count_space (PyStr.drop n s) <= count_space s)%nat.
Proof.
  induction n as [|n IH]; intros s H; [cbn; lia|].
  destruct s as [|c s]; cbn [all_at] in H; [discriminate|].
  apply andb_true_iff in H. destruct H as [Hc H].
  cbn [PyStr.drop count_space]. rewrite Hc. specialize (IH s H). lia.
Qed.

Lemma count_space_strip s : (count_space (PyStr.strip s) <= count_space s)%nat.
Proof.
  unfold PyStr.strip.
  assert (L : (count_space (PyStr.lstrip s) <= count_space s)%nat).
  { induction s as [|c s IH]; [cbn; lia|].
    cbn [PyStr.lstrip]. destruct (PyStr.is_space c) eqn:E; [|lia].
    cbn [count_space]. lia. }
  destruct (rstrip_prefix (PyStr.lstrip s)) as [ws E].
  rewrite E in L at 1. rewrite count_space_app in L. lia.
Qed.

(** The date pattern needs two runs of white space. *)
Lemma date_re_needs_two_spaces s g :
  Re.re_search date_re s = Some g -> (2 <= count_space s)%nat.
Proof.
  intros H. apply re_search_some in H. destruct H as (pre & s' & -> & H).
  rewrite count_space_app.
  unfold Re.re_match, date_re, Re.w_plus, Re.s_plus, Re.opt, Re.d_ in H.
  cbn [Re.run] in H.
  apply rep_some in H. destruct H as (n1 & _ & _ & _ & H).
  apply rep_some in H. destruct H as (n2 & _ & _ & _ & H).
  apply rep_some in H. destruct H as (n3 & H3 & _ & A3 & H).
  apply rep_some in H. destruct H as (n4 & _ & _ & _ & H).
  apply rep_some in H. destruct H as (n5 & H5 & _ & A5 & _).
  pose proof (count_space_drop n1 s') as C1.
  pose proof (count_space_drop n2 (PyStr.drop n1 s')) as C2.
  pose proof (count_space_run _ _ A3) as C3.
  pose proof (count_space_drop n4
                (PyStr.drop n3 (PyStr.drop n2 (PyStr.drop n1 s')))) as C4.
  pose proof (count_space_run _ _ A5) as C5.
  lia.
Qed.

(** X16.  A label of ASCII text with fewer than two white-space
    characters, such as a month and a day alone, is never resolved:
    [parse_date] returns [None] without a reading of the clock, whatever
    the door time. *)
Theorem X16_label_needs_three_parts label door w :
  isascii label = true ->
  (count_space label < 2)%nat ->
  parse_date label door w = (Ret None, w).
Proof.
  intros _ H. unfold parse_date.
  destruct (door_hour_minute door) as [h mi].
  destruct (Re.re_search date_re (PyStr.strip label)) as [m|] eqn:E;
    [|reflexivity].
  apply date_re_needs_two_spaces in E.
  pose proof (count_space_strip label). lia.
Qed.

Lemma X16_label_needs_three_parts_witness :
  isascii "Jan 15" = true /\
  (count_space "Jan 15" < 2)%nat /\
  parse_date "Jan 15" (Some "7:00 pm"%string) Samples.june_2025 =
  (Ret None, Samples.june_2025).
Proof.
  split; [reflexivity|]. split; [change (1 < 2)%nat; lia|].
  apply X16_label_needs_three_parts; [reflexivity|].
  change (1 < 2)%nat. lia.
Defined.

(* ===================================================================== *)
(** ** Door times that are no time of day *)
(* ===================================================================== *)

(** The hour and minute of a door time, by its parts. *)
Lemma door_hour_minute_parts a b ws ap :
  door_digits a b -> all_space ws = true -> half_day ap ->
  door_hour_minute (Some (a ++ ":" ++ b ++ ws ++ ap)%string) =
  (if String.eqb (PyStr.lower ap) "pm" && negb (PyStr.int a =? 12)
   then PyStr.int a + 12
   else if String.eqb (PyStr.lower ap) "am" && (PyStr.int a =? 12)
        then 0 else PyStr.int a,
   PyStr.int b).
Proof.
  intros Hab Hws Hap. unfold door_hour_minute.
  rewrite truthy_app by apply Hab.
  rewrite (door_time_match a b ws ap Hab Hws Hap).
  cbn [Re.group Nat.eqb].
  destruct (String.eqb (PyStr.lower ap) "pm" && negb (PyStr.int a =? 12));
    [reflexivity|].
  destruct (String.eqb (PyStr.lower ap) "am" && (PyStr.int a =? 12));
    reflexivity.
Qed.

(** X17.  A door time that matches the pattern and is no time of day
    discards the date under every label and clock: a minute above 59, an
    hour above 12 with pm, or an hour above 23 with am. *)
Theorem X17_impossible_door_time_discards a b ws ap label w :
  door_digits a b -> all_space ws = true -> half_day ap ->
  59 < PyStr.int b \/
  (PyStr.lower ap = "pm"%string /\ 12 < PyStr.int a) \/
  (PyStr.lower ap = "am"%string /\ 23 < PyStr.int a) ->
  exists w',
    parse_date label (Some (a ++ ":" ++ b ++ ws ++ ap)%string) w =
    (Ret None, w').
Proof.
  intros Hab Hws Hap Hbad.
  apply door_time_out_of_range_fails.
  rewrite (door_hour_minute_parts a b ws ap Hab Hws Hap). cbn [fst snd].
  unfold check_time_fields.
  destruct Hbad as [Hm | [[-> Hh] | [-> Hh]]].
  - replace (PyStr.int b <=? 59) with false
      by (symmetry; apply Z.leb_gt; exact Hm).
    rewrite !andb_false_r. reflexivity.
  - change (String.eqb "pm" "pm") with true.
    replace (PyStr.int a =? 12) with false
      by (symmetry; apply Z.eqb_neq; lia).
    cbn [andb negb].
    replace (PyStr.int a + 12 <=? 23) with false
      by (symmetry; apply Z.leb_gt; lia).
    rewrite !andb_false_r. reflexivity.
  - change (String.eqb "am" "pm") with false.
    change (String.eqb "am" "am") with true.
    replace (PyStr.int a =? 12) with false
      by (symmetry; apply Z.eqb_neq; lia).
    cbn [andb negb].
    replace (PyStr.int a <=? 23) with false
      by (symmetry; apply Z.leb_gt; lia).
    rewrite !andb_false_r. reflexivity.
Qed.

Lemma X17_impossible_door_time_discards_witness :
  (exists w',
     parse_date Samples.band_a_label (Some "7:60 pm"%string)
       Samples.june_2025 = (Ret None, w')) /\
  (exists w',
     parse_date Samples.band_a_label (Some "24:00 AM"%string)
       Samples.june_2025 = (Ret None, w')).
Proof.
  split.
  - apply (X17_impossible_door_time_discards "7" "60" " " "pm").
    + repeat split; try reflexivity; cbn; lia.
    + reflexivity.
    + split; [reflexivity | right; reflexivity].
    + left. change (59 < 60). lia.
  - apply (X17_impossible_door_time_discards "24" "00" " " "AM").
    + repeat split; try reflexivity; cbn; lia.
    + reflexivity.
    + split; [reflexivity | left; reflexivity].
    + right. right. split; [reflexivity | change (23 < 24); lia].
Defined.
